(** * Weather / traffic generators and the dataset merger

    A shallow embedding of [scripts/weather_raw.py], [scripts/traffic_raw.py]
    and [scripts/merge_datasets.py].

    Conventions of the embedding.
    - Python cell values are the untyped universe [pyval]; operations that
      Python rejects at run time ([None > 3000], ["error" + 12], [int(nan)])
      raise a [pyexn] in the monad [M].
    - Python floats are rationals ([Q]).  Where an integer part or a
      comparison with a draw depends on the rounding of a float, the float
      is rounded to binary64 ([double_round]): the product behind the
      duplicate count, and the literal 0.6.  The other decimal literals are
      kept exact, which gives the same comparison with every draw (lemma
      [decimal_thresholds_agree]).  [random.uniform] and [round(x, 2)] are
      computed on the rationals, [round] as round-half-even.
    - The two global random sources (Python's [random] and NumPy's
      [np.random]) are tapes of raw draws with a read position.  A call to
      [random.random()] reads one draw [k] and returns [k mod 2^53 / 2^53];
      [randbelow n] reads one draw and returns it modulo [n].  Every
      sequence of outcomes of the real generators is the reading of some
      tape, so a statement proved for all tapes holds for every run.
    - Library code is a parameter where its algorithm is not the subject:
      the seeding of the two sources ([Seeding]), [pd.to_datetime] on a
      scalar ([DateParser]) and on a column ([SeriesParser]).
      [datetime.strftime] is implemented for the directives the scripts
      use, [DataFrame.sample] as the first rows of a shuffle.
    - A table is the list of its rows; a row is a record of cells. *)

From Stdlib Require Import ZArith NArith QArith Qround Qpower Qabs.
From Stdlib Require Import List String Ascii Bool.
From Stdlib Require Import Lia Lqa Permutation.
Import ListNotations.

Local Open Scope string_scope.
Local Open Scope Z_scope.

(* ================================================================== *)
(** ** Python values and exceptions *)

Inductive pyval : Type :=
| VNone
| VInt (z : Z)
| VFloat (q : Q)
| VNaN
| VStr (s : string).

Inductive pyexn : Type :=
| TypeError
| ValueError (msg : string)
| IndexError
| FileNotFoundError (path : string)
| OverflowError.

Inductive exc (A : Type) : Type :=
| Ok (a : A)
| Raise (e : pyexn).

Arguments Ok {A} a.
Arguments Raise {A} e.

(** State-and-exception monad: the state survives a raised exception, as the
    global random sources and the printed output do in Python. *)
Definition M (S A : Type) : Type := S -> exc A * S.

Definition ret {S A} (a : A) : M S A := fun s => (Ok a, s).

Definition bind {S A B} (m : M S A) (k : A -> M S B) : M S B :=
  fun s => match m s with
           | (Ok a, s') => k a s'
           | (Raise e, s') => (Raise e, s')
           end.

Definition raise {S A} (e : pyexn) : M S A := fun s => (Raise e, s).

(** [try: m  except: h] with a bare (catch-all) handler. *)
Definition try_except {S A} (m : M S A) (h : pyexn -> M S A) : M S A :=
  fun s => match m s with
           | (Ok a, s') => (Ok a, s')
           | (Raise e, s') => h e s'
           end.

(** Lifting of a pure partial operation. *)
Definition lift {S A} (r : exc A) : M S A := fun s => (r, s).

Declare Scope py_scope.
Delimit Scope py_scope with py.
Notation "x <- m ;; k" := (bind m (fun x => k))
  (at level 61, m at next level, right associativity) : py_scope.
Notation "m ;;; k" := (bind m (fun _ => k))
  (at level 61, right associativity) : py_scope.
Local Open Scope py_scope.

(* ================================================================== *)
(** ** Rational helpers (idealised floats) *)

Definition Qltb (a b : Q) : bool := negb (Qle_bool b a).
Definition Qleb (a b : Q) : bool := Qle_bool a b.
Definition Qmax (a b : Q) : Q := if Qle_bool a b then b else a.

(** [int(x)] on a float: truncation toward zero. *)
Definition Qtrunc (q : Q) : Z := Z.quot (Qnum q) (Zpos (Qden q)).

(** Round half to even, to an integer. *)
Definition round_half_even (q : Q) : Z :=
  let n := Qfloor q in
  let frac := (q - inject_Z n)%Q in
  match Qcompare frac (1 # 2) with
  | Lt => n
  | Gt => n + 1
  | Eq => if Z.even n then n else n + 1
  end.

(** [round(x, 2)]. *)
Definition round2 (q : Q) : Q := (round_half_even (q * 100) # 100)%Q.

(* ================================================================== *)
(** ** IEEE 754 binary64 *)

(** [floor(log2 q)] for a positive [q]. *)
Definition Qlog2 (q : Q) : Z :=
  let e := Z.log2 (Qnum q) - Z.log2 (Zpos (Qden q)) in
  if Qle_bool (2 ^ e) q then e else e - 1.

(** The binary64 value nearest to [q], ties to even, subnormals included;
    [None] is an infinity (the rounded magnitude reaches [2^1024]). *)
Definition double_round (q : Q) : option Q :=
  if Qeq_bool q 0 then Some 0%Q
  else
    let a := Qabs q in
    let u := Z.max (Qlog2 a - 52) (-1074) in
    let r := (inject_Z (round_half_even (a / 2 ^ u)) * 2 ^ u)%Q in
    if Qle_bool (2 ^ 1024) r then None
    else Some (Qred (if Qle_bool 0 q then r else - r)).

(** The value of a decimal float literal. *)
Definition py_float (q : Q) : Q :=
  match double_round q with
  | Some r => r
  | None => q
  end.

(** [float(n)], the conversion of the int operand of a float operation: an
    int beyond the range of binary64 is an [OverflowError]. *)
Definition float_of_int (n : Z) : exc Q :=
  match double_round (inject_Z n) with
  | Some x => Ok x
  | None => Raise OverflowError
  end.

Arguments double_round : simpl never.
Arguments py_float : simpl never.
Arguments float_of_int : simpl never.

(* ================================================================== *)
(** ** The random sources *)

Record rng : Type := { tape : nat -> N; pos : nat }.

Record rand_state : Type := { py_random : rng; np_random : rng }.

Definition rng_next (g : rng) : N * rng :=
  (tape g (pos g), {| tape := tape g; pos := S (pos g) |}).

Definition two53 : N := 9007199254740992%N.

(** The float [k / 2^53] read off a raw draw. *)
Definition unit_float (raw : N) : Q :=
  (Z.of_N (raw mod two53)%N # 9007199254740992)%Q.

Definition py_draw : M rand_state N :=
  fun s => let (r, g) := rng_next (py_random s) in
           (Ok r, {| py_random := g; np_random := np_random s |}).

Definition np_draw : M rand_state N :=
  fun s => let (r, g) := rng_next (np_random s) in
           (Ok r, {| py_random := py_random s; np_random := g |}).

(** [random.random()] *)
Definition random_random : M rand_state Q :=
  r <- py_draw ;; ret (unit_float r).

(** [random.uniform(a, b)] is [a + (b - a) * random()]. *)
Definition random_uniform (a b : Q) : M rand_state Q :=
  u <- random_random ;; ret (a + (b - a) * u)%Q.

(** [random._randbelow(n)], for [n > 0]. *)
Definition randbelow (n : Z) : M rand_state Z :=
  r <- py_draw ;; ret (Z.of_N r mod n).

(** [random.randint(a, b)]: an empty range is a [ValueError]. *)
Definition random_randint (a b : Z) : M rand_state Z :=
  if b - a + 1 <=? 0 then raise (ValueError "empty range for randrange()")
  else k <- randbelow (b - a + 1) ;; ret (a + k).

(** [random.choice(seq)]: an empty sequence is an [IndexError]. *)
Definition random_choice {A} (seq : list A) : M rand_state A :=
  match seq with
  | [] => raise IndexError
  | _ :: _ =>
      k <- randbelow (Z.of_nat (List.length seq)) ;;
      match nth_error seq (Z.to_nat k) with
      | Some x => ret x
      | None => raise IndexError
      end
  end.

(** [random.seed] and [np.random.seed]: the tape a seed selects is a
    parameter (the two libraries' seeding algorithms). *)
Class Seeding : Type := {
  py_seed_tape : Z -> nat -> N;
  np_seed_tape : Z -> nat -> N
}.

Definition random_seed `{Seeding} (seed : Z) : M rand_state unit :=
  fun s => (Ok tt, {| py_random := {| tape := py_seed_tape seed; pos := 0 |};
                      np_random := np_random s |}).

Definition np_random_seed `{Seeding} (seed : Z) : M rand_state unit :=
  fun s =>
    (Ok tt, {| py_random := py_random s;
               np_random := {| tape := np_seed_tape seed; pos := 0 |} |}).

(* ================================================================== *)
(** ** Dates: [datetime], [timedelta] and [strftime] *)

(** A point in time, in minutes since 1970-01-01 00:00. *)
Definition Timestamp : Type := Z.

(** Proleptic Gregorian calendar: day number to (year, month, day). *)
Definition civil_from_days (days : Z) : Z * Z * Z :=
  let z := days + 719468 in
  let era := z / 146097 in
  let doe := z - era * 146097 in
  let yoe := (doe - doe / 1460 + doe / 36524 - doe / 146096) / 365 in
  let y := yoe + era * 400 in
  let doy := doe - (365 * yoe + yoe / 4 - yoe / 100) in
  let mp := (5 * doy + 2) / 153 in
  let d := doy - (153 * mp + 2) / 5 + 1 in
  let m := if mp <? 10 then mp + 3 else mp - 9 in
  (if m <=? 2 then y + 1 else y, m, d).

Definition days_from_civil (y m d : Z) : Z :=
  let y' := if m <=? 2 then y - 1 else y in
  let era := y' / 400 in
  let yoe := y' - era * 400 in
  let mp := if m <=? 2 then m + 9 else m - 3 in
  let doy := (153 * mp + 2) / 5 + d - 1 in
  let doe := yoe * 365 + yoe / 4 - yoe / 100 + doy in
  era * 146097 + doe - 719468.

Definition ts_days (t : Timestamp) : Z := t / 1440.
Definition ts_year (t : Timestamp) : Z :=
  fst (fst (civil_from_days (ts_days t))).
Definition ts_month (t : Timestamp) : Z :=
  snd (fst (civil_from_days (ts_days t))).
Definition ts_day (t : Timestamp) : Z := snd (civil_from_days (ts_days t)).
Definition ts_hour (t : Timestamp) : Z := (t mod 1440) / 60.
Definition ts_minute (t : Timestamp) : Z := t mod 60.

Definition mk_datetime (y m d hh mm : Z) : Timestamp :=
  days_from_civil y m d * 1440 + hh * 60 + mm.

(** [base = datetime(2024,1,1)] *)
Definition base : Timestamp := mk_datetime 2024 1 1 0 0.

(** The instant [h] hours after [t]. *)
Definition add_hours (t : Timestamp) (h : Z) : Timestamp := t + 60 * h.

(** [datetime.min] and [datetime.max], to the minute. *)
Definition datetime_min : Timestamp := mk_datetime 1 1 1 0 0.
Definition datetime_max : Timestamp := mk_datetime 9999 12 31 23 59.

(** [dt + timedelta(hours=h)]: an [OverflowError] when the result leaves the
    years 1..9999 (the [timedelta] itself overflows only further out, with
    the same exception). *)
Definition plus_hours (t : Timestamp) (h : Z) : exc Timestamp :=
  let t' := add_hours t h in
  if (datetime_min <=? t') && (t' <=? datetime_max) then Ok t'
  else Raise OverflowError.

Arguments plus_hours : simpl never.

Definition digit_char (d : Z) : ascii :=
  ascii_of_nat (48 + Z.to_nat (d mod 10)).

Definition pad2 (n : Z) : string :=
  String (digit_char (n / 10)) (String (digit_char n) "").

Definition pad4 (n : Z) : string :=
  String (digit_char (n / 1000)) (String (digit_char (n / 100))
    (String (digit_char (n / 10)) (String (digit_char n) ""))).

Definition strftime_directive (c : ascii) (t : Timestamp) : string :=
  if Ascii.eqb c "Y" then pad4 (ts_year t)
  else if Ascii.eqb c "m" then pad2 (ts_month t)
  else if Ascii.eqb c "d" then pad2 (ts_day t)
  else if Ascii.eqb c "H" then pad2 (ts_hour t)
  else if Ascii.eqb c "M" then pad2 (ts_minute t)
  else if Ascii.eqb c "I" then
    pad2 (if ts_hour t mod 12 =? 0 then 12 else ts_hour t mod 12)
  else if Ascii.eqb c "p" then (if ts_hour t <? 12 then "AM" else "PM")
  else String "%" (String c "").

Fixpoint strftime (fmt : string) (t : Timestamp) : string :=
  match fmt with
  | EmptyString => EmptyString
  | String c rest =>
      if Ascii.eqb c "%" then
        match rest with
        | String d rest' => strftime_directive d t ++ strftime rest' t
        | EmptyString => String c EmptyString
        end
      else String c (strftime rest t)
  end.

(** [pd.to_datetime(x, errors='coerce')] on a scalar: [None] stands for
    [NaT] (and for the [None] that a [None] argument gives back); both
    satisfy [pd.isna]. *)
Class DateParser : Type := to_datetime : pyval -> option Timestamp.


(* ================================================================== *)
(** ** Python operators on cell values *)

(** The numbers among the cell values; [NNaN] is the float [nan]. *)
Inductive pynum : Type :=
| NInt (z : Z)
| NFloat (q : Q)
| NNaN.

(** Operand of an arithmetic operator or of an ordering comparison with a
    number: [None] and strings are a [TypeError]. *)
Definition py_num (v : pyval) : exc pynum :=
  match v with
  | VInt z => Ok (NInt z)
  | VFloat q => Ok (NFloat q)
  | VNaN => Ok NNaN
  | VNone | VStr _ => Raise TypeError
  end.

(** Ordering comparison [v op c] with a numeric literal [c]; every
    comparison with [nan] is [False]. *)
Definition py_cmp (op : Q -> Q -> bool) (v : pyval) (c : Q) : exc bool :=
  match py_num v with
  | Ok (NInt z) => Ok (op (inject_Z z) c)
  | Ok (NFloat q) => Ok (op q c)
  | Ok NNaN => Ok false
  | Raise e => Raise e
  end.

Definition py_lt : pyval -> Q -> exc bool := py_cmp Qltb.
Definition py_le : pyval -> Q -> exc bool := py_cmp Qleb.
Definition py_gt : pyval -> Q -> exc bool := py_cmp (fun a b => Qltb b a).
Definition py_ge : pyval -> Q -> exc bool := py_cmp (fun a b => Qleb b a).

(** [a or b] on two comparisons: [b] is not evaluated when [a] is true. *)
Definition py_or (a b : exc bool) : exc bool :=
  match a with
  | Ok true => Ok true
  | Ok false => b
  | Raise e => Raise e
  end.

(** [v == "s"] and [v in ["s1", ...]]: never raise. *)
Definition py_eq_str (v : pyval) (s : string) : bool :=
  match v with
  | VStr s' => String.eqb s' s
  | _ => false
  end.

Definition py_in_strs (v : pyval) (l : list string) : bool :=
  existsb (py_eq_str v) l.

(** [v + k] for an int [k]. *)
Definition py_add_int (v : pyval) (k : Z) : exc pynum :=
  match py_num v with
  | Ok (NInt z) => Ok (NInt (z + k))
  | Ok (NFloat q) => Ok (NFloat (q + inject_Z k))
  | Ok NNaN => Ok NNaN
  | Raise e => Raise e
  end.

(** [int(x)] of a number: [int(nan)] is a [ValueError]. *)
Definition py_int (x : pynum) : exc Z :=
  match x with
  | NInt z => Ok z
  | NFloat q => Ok (Qtrunc q)
  | NNaN => Raise (ValueError "cannot convert float NaN to integer")
  end.

(** [range(n)] *)
Definition py_range (n : Z) : list Z := map Z.of_nat (seq 0 (Z.to_nat n)).

(** A [for] loop that appends one value per iteration. *)
Fixpoint mapM {S A B} (f : A -> M S B) (l : list A) : M S (list B) :=
  match l with
  | [] => ret []
  | x :: xs => y <- f x ;; ys <- mapM f xs ;; ret (y :: ys)
  end.

(* ================================================================== *)
(** ** pandas: [DataFrame.sample] and [concat] *)

Fixpoint set_nth {A} (l : list A) (i : nat) (a : A) : list A :=
  match l, i with
  | [], _ => []
  | _ :: xs, O => a :: xs
  | x :: xs, S i' => x :: set_nth xs i' a
  end.

(** [x[i], x[j] = x[j], x[i]] *)
Definition swap {A} (x : list A) (i j : nat) : list A :=
  match nth_error x i, nth_error x j with
  | Some a, Some b => set_nth (set_nth x i b) j a
  | _, _ => x
  end.

(** NumPy's shuffle, [for i in reversed(range(1, n)): j = interval(i); swap],
    started at [i]. *)
Fixpoint np_shuffle (i : nat) (x : list nat) : M rand_state (list nat) :=
  match i with
  | O => ret x
  | S i' =>
      r <- np_draw ;;
      np_shuffle i' (swap x i (N.to_nat (r mod N.of_nat (S i))))
  end.

(** [np.random.permutation(n)] *)
Definition np_permutation (n : nat) : M rand_state (list nat) :=
  np_shuffle (n - 1) (seq 0 n).

(** [df.take(idxs)]: a position outside the frame is an [IndexError]. *)
Fixpoint take_rows {A} (df : list A) (idxs : list nat) : exc (list A) :=
  match idxs with
  | [] => Ok []
  | i :: rest =>
      match nth_error df i, take_rows df rest with
      | Some r, Ok rs => Ok (r :: rs)
      | None, _ => Raise IndexError
      | _, Raise e => Raise e
      end
  end.

(** [df.sample(n)] with the defaults [replace=False], [random_state=None]
    (the global NumPy source): the first [n] positions of a random
    permutation.  A negative [n], or one above the frame's length, is a
    [ValueError]. *)
Definition df_sample {A} (df : list A) (n : Z) : M rand_state (list A) :=
  if n <? 0 then raise (ValueError "A negative number of rows requested.")
  else if Z.of_nat (List.length df) <? n then
    raise (ValueError "Cannot take a larger sample than population")
  else
    perm <- np_permutation (List.length df) ;;
    lift (take_rows df (firstn (Z.to_nat n) perm)).

(** [int(n_rows * duplicate_ratio)]: the int is converted to a float, the
    product is the binary64 product, and [int] of an infinite product is an
    [OverflowError]. *)
Definition dup_count (n_rows : Z) (duplicate_ratio : Q) : exc Z :=
  match float_of_int n_rows with
  | Raise e => Raise e
  | Ok x =>
      match double_round (x * duplicate_ratio) with
      | Some p => Ok (Qtrunc p)
      | None => Raise OverflowError
      end
  end.

(** The duplicate tail fits a table of [len] rows: [df.sample] accepts
    it. *)
Definition tail_fits (n_rows : Z) (duplicate_ratio : Q) (len : Z) : Prop :=
  exists k, dup_count n_rows duplicate_ratio = Ok k /\ 0 <= k <= len.

Arguments dup_count : simpl never.

(* ================================================================== *)
(** ** The defect injectors

    [maybe_null] and [with_outliers] are defined, with the same text, inside
    both generators, closing over that generator's [null_ratio] and
    [outlier_ratio]; here they take the ratio as an argument. *)

Definition maybe_null (null_ratio : Q) (value : pyval) : M rand_state pyval :=
  u <- random_random ;;
  ret (if Qltb u null_ratio then VNone else value).

Definition with_outliers (outlier_ratio : Q) (normal_value : pyval)
    (outlier_low outlier_high : Q) : M rand_state pyval :=
  u <- random_random ;;
  if Qltb u outlier_ratio then
    c <- random_random ;;
    if Qltb c (1 # 2) then
      x <- random_uniform (outlier_low - 25) outlier_low ;; ret (VFloat x)
    else
      x <- random_uniform outlier_high (outlier_high + 25) ;; ret (VFloat x)
  else ret normal_value.

(* ================================================================== *)
(** ** [weather_raw.py] *)

Module Weather.

Record config : Type := {
  n_rows : Z;
  duplicate_ratio : Q;
  null_ratio : Q;
  outlier_ratio : Q;
  bad_format_ratio : Q
}.

Definition default_config : config :=
  {| n_rows := 5000; duplicate_ratio := 5 # 100; null_ratio := 1 # 10;
     outlier_ratio := 1 # 10; bad_format_ratio := 1 # 100 |}.

Record row : Type := {
  weather_id : pyval;
  date_time : pyval;
  city : pyval;
  season : pyval;
  temperature_c : pyval;
  humidity : pyval;
  rain_mm : pyval;
  weather_condition : pyval;
  wind_speed_kmh : pyval;
  visibility_m : pyval;
  air_pressure_hpa : pyval
}.

Section Helpers.
Context {parser : DateParser}.
Variable cfg : config.

Definition generate_datetime (index : Z) : M rand_state string :=
  u <- random_random ;;
  if Qltb u (bad_format_ratio cfg) then
    random_choice ["2099-13-40 25:61"; "Unknown"; "TBD"]
  else
    dt <- lift (plus_hours base (2 * index)) ;;
    random_choice [strftime "%Y-%m-%d %H:%M" dt;
                   strftime "%d/%m/%Y %I%p" dt;
                   strftime "%Y-%m-%dT%H:%MZ" dt].

Definition season_of_month (m : Z) : string :=
  if (m =? 12) || (m =? 1) || (m =? 2) then "Winter"
  else if (m =? 3) || (m =? 4) || (m =? 5) then "Spring"
  else if (m =? 6) || (m =? 7) || (m =? 8) then "Summer"
  else "Autumn".

Definition get_season (dt_str : pyval) : M rand_state pyval :=
  try_except
    (match to_datetime dt_str with
     | None =>
         s <- random_choice ["Winter"; "Spring"; "Summer"; "Autumn"] ;;
         ret (VStr s)
     | Some dt => ret (VStr (season_of_month (ts_month dt)))
     end)
    (fun _ => ret VNone).

(** [ranges.get(season, fallback)] on a dict keyed by the season names. *)
Fixpoint dict_get (d : list (string * (Z * Z))) (key : pyval)
    (fallback : Z * Z) : Z * Z :=
  match d with
  | [] => fallback
  | (k, v) :: rest => if py_eq_str key k then v else dict_get rest key fallback
  end.

Definition temperature_by_season (season : pyval) : M rand_state Q :=
  let ranges := [("Winter", (-5, 15)); ("Spring", (5, 20));
                 ("Summer", (10, 35)); ("Autumn", (5, 25))] in
  let (low, high) := dict_get ranges season (0, 30) in
  x <- random_uniform (inject_Z low) (inject_Z high) ;;
  ret (round2 x).

Definition generate_humidity (season : pyval) : M rand_state Z :=
  let season_ranges := [("Winter", (40, 90)); ("Spring", (30, 80));
                        ("Summer", (20, 70)); ("Autumn", (50, 100))] in
  let (low, high) := dict_get season_ranges season (20, 100) in
  random_randint low high.

Definition generate_rain (humidity : pyval) : M rand_state Q :=
  match humidity with
  | VNone => x <- random_uniform 0 20 ;; ret (round2 x)
  | _ =>
      dry <- lift (py_lt humidity 60) ;;
      if dry then ret 0%Q
      else
        u <- random_random ;;
        if Qltb (3 # 10) u then ret 0%Q
        else
          light <- lift (py_lt humidity 80) ;;
          if light then x <- random_uniform 1 15 ;; ret (round2 x)
          else x <- random_uniform 10 80 ;; ret (round2 x)
  end.

Definition generate_weather_condition (rain_mm temperature_c : pyval)
  : M rand_state string :=
  snow <-
    (match temperature_c with
     | VNone => ret false
     | _ =>
         cold <- lift (py_le temperature_c 5) ;;
         if cold then u <- random_random ;; ret (Qltb u (4 # 10))
         else ret false
     end) ;;
  if snow then ret "Snow"
  else
    match rain_mm with
    | VNone => random_choice ["Clear"; "Fog"]
    | _ =>
        b50 <- lift (py_ge rain_mm 50) ;;
        if b50 then
          u <- random_random ;;
          ret (if Qltb u (py_float (6 # 10)) then "Storm" else "Rain")
        else
          b25 <- lift (py_ge rain_mm 25) ;;
          if b25 then ret "Rain"
          else
            b10 <- lift (py_ge rain_mm 10) ;;
            if b10 then
              u <- random_random ;;
              ret (if Qltb u (py_float (6 # 10)) then "Rain" else "Clear")
            else
              pos <- lift (py_gt rain_mm 0) ;;
              if pos then random_choice ["Clear"; "Fog"]
              else ret "Clear"
    end.

Definition generate_wind_speed (weather_condition : pyval) : M rand_state Q :=
  let typical := x <- random_uniform 0 80 ;; ret (round2 x) in
  if py_eq_str weather_condition "Storm" then
    u <- random_random ;;
    if Qltb u (2 # 10) then x <- random_uniform 100 150 ;; ret (round2 x)
    else
      u' <- random_random ;;
      if Qltb u' (py_float (6 # 10)) then
        x <- random_uniform 50 80 ;; ret (round2 x)
      else typical
  else typical.

Definition generate_visibility (weather_condition : pyval)
  : M rand_state pyval :=
  let good := k <- random_randint 8000 12000 ;; ret (VInt k) in
  u <- random_random ;;
  if Qltb u (3 # 100) then
    s <- random_choice ["unknown"; "N/A"; "error"; "???"] ;; ret (VStr s)
  else if py_in_strs weather_condition ["Fog"; "Rain"; "Storm"; "Snow"] then
    u1 <- random_random ;;
    if Qltb u1 (15 # 100) then k <- random_randint 50 1000 ;; ret (VInt k)
    else
      u2 <- random_random ;;
      if Qltb u2 (py_float (6 # 10)) then
        k <- random_randint 1000 8000 ;; ret (VInt k)
      else good
  else good.

Definition generate_air_pressure (weather_condition temperature_c : pyval)
  : M rand_state Q :=
  bounds <-
    (if py_eq_str weather_condition "Storm" then
       low <- random_uniform 950 970 ;;
       high <- random_uniform 980 1000 ;;
       ret (low, high)
     else if py_in_strs weather_condition ["Rain"; "Snow"] then
       low <- random_uniform 960 990 ;;
       high <- random_uniform 1000 1050 ;;
       ret (low, high)
     else ret (990%Q, 1030%Q)) ;;
  bounds' <-
    (match temperature_c with
     | VNone => ret bounds
     | _ =>
         hot <- lift (py_gt temperature_c 30) ;;
         if hot then ret ((fst bounds - 10)%Q, (snd bounds - 10)%Q)
         else
           freezing <- lift (py_lt temperature_c 0) ;;
           if freezing then ret ((fst bounds + 10)%Q, (snd bounds + 10)%Q)
           else ret bounds
     end) ;;
  x <- random_uniform (fst bounds') (snd bounds') ;;
  ret (round2 x).

(** One iteration of the generation loop. *)
Definition generate_row (i : Z) : M rand_state row :=
  date_time <-
    (s <- generate_datetime i ;; maybe_null (null_ratio cfg) (VStr s)) ;;
  season <- (s <- get_season date_time ;; maybe_null (null_ratio cfg) s) ;;
  temperature_c <-
    (t <- temperature_by_season season ;;
     o <- with_outliers (outlier_ratio cfg) (VFloat t) (-30) 60 ;;
     maybe_null (null_ratio cfg) o) ;;
  humidity <-
    (h <- generate_humidity season ;;
     o <- with_outliers (outlier_ratio cfg) (VInt h) (-10) 150 ;;
     maybe_null (null_ratio cfg) o) ;;
  rain_mm <-
    (r <- generate_rain humidity ;;
     o <- with_outliers (outlier_ratio cfg) (VFloat r) 100 200 ;;
     maybe_null (null_ratio cfg) o) ;;
  weather_condition <-
    (c <- generate_weather_condition rain_mm temperature_c ;;
     maybe_null (null_ratio cfg) (VStr c)) ;;
  wind_speed_kmh <-
    (w <- generate_wind_speed weather_condition ;;
     o <- with_outliers (outlier_ratio cfg) (VFloat w) 200 350 ;;
     maybe_null (null_ratio cfg) o) ;;
  visibility_m <-
    (v <- generate_visibility weather_condition ;;
     o <- with_outliers (outlier_ratio cfg) v 50000 120000 ;;
     maybe_null (null_ratio cfg) o) ;;
  air_pressure_hpa <-
    (p <- generate_air_pressure weather_condition temperature_c ;;
     o <- with_outliers (outlier_ratio cfg) (VFloat p) 900 1100 ;;
     maybe_null (null_ratio cfg) o) ;;
  weather_id <- maybe_null (null_ratio cfg) (VInt (5001 + i)) ;;
  city <- maybe_null (null_ratio cfg) (VStr "London") ;;
  ret {| weather_id := weather_id; date_time := date_time; city := city;
         season := season; temperature_c := temperature_c;
         humidity := humidity; rain_mm := rain_mm;
         weather_condition := weather_condition;
         wind_speed_kmh := wind_speed_kmh; visibility_m := visibility_m;
         air_pressure_hpa := air_pressure_hpa |}.

End Helpers.

Definition generate_weather_dataset {seeding : Seeding} {parser : DateParser}
    (cfg : config) : M rand_state (list row) :=
  np_random_seed 42 ;;;
  random_seed 42 ;;;
  rows <- mapM (generate_row cfg) (py_range (n_rows cfg)) ;;
  k <- lift (dup_count (n_rows cfg) (duplicate_ratio cfg)) ;;
  dups <- df_sample rows k ;;
  ret (rows ++ dups)%list.

End Weather.

(* ================================================================== *)
(** ** [traffic_raw.py] *)

Module Traffic.

Record config : Type := {
  n_rows : Z;
  duplicate_ratio : Q;
  null_ratio : Q;
  outlier_ratio : Q
}.

Definition default_config : config :=
  {| n_rows := 5000; duplicate_ratio := 5 # 100; null_ratio := 1 # 10;
     outlier_ratio := 1 # 10 |}.

Record row : Type := {
  traffic_id : pyval;
  date_time : pyval;
  city : pyval;
  area : pyval;
  vehicle_count : pyval;
  road_condition : pyval;
  avg_speed_kmh : pyval;
  congestion_level : pyval;
  accident_count : pyval;
  visibility_m : pyval
}.

Section Helpers.
Context {parser : DateParser}.
Variable cfg : config.

Definition generate_area : M rand_state string :=
  random_choice ["Camden"; "Chelsea"; "Islington"; "Southwark";
                 "Kensington"; "Westminster"; "Greenwich"].

Definition generate_vehicle_count (time_str : pyval) : M rand_state Z :=
  try_except
    (match to_datetime time_str with
     | None => random_randint 100 3000
     | Some dt =>
         let hour := ts_hour dt in
         if ((7 <=? hour) && (hour <=? 9)) || ((16 <=? hour) && (hour <=? 19))
         then random_randint 2000 5000
         else if (0 <=? hour) && (hour <=? 5) then random_randint 0 500
         else random_randint 800 2500
     end)
    (fun _ => random_randint 500 3000).

Definition generate_road_condition (weather_condition : pyval)
  : M rand_state string :=
  if py_eq_str weather_condition "Snow" then ret "Snowy"
  else if py_in_strs weather_condition ["Rain"; "Storm"] then ret "Wet"
  else
    u <- random_random ;;
    if Qltb u (5 # 100) then ret "Damaged" else ret "Dry".

Definition calculate_avg_speed
    (vehicle_count weather_condition road_condition : pyval)
  : M rand_state Q :=
  base_speed <-
    try_except
      (dense <- lift (py_gt vehicle_count 3000) ;;
       if dense then x <- random_uniform 10 30 ;; ret (round2 x)
       else
         busy <- lift (py_gt vehicle_count 1500) ;;
         if busy then x <- random_uniform 30 50 ;; ret (round2 x)
         else x <- random_uniform 50 90 ;; ret (round2 x))
      (fun _ => x <- random_uniform 60 90 ;; ret (round2 x)) ;;
  let base_speed :=
    if py_in_strs weather_condition ["Rain"; "Snow"; "Storm"]
    then (base_speed - 15)%Q
    else if py_eq_str weather_condition "Fog" then (base_speed - 10)%Q
    else base_speed in
  let base_speed :=
    if py_eq_str road_condition "Damaged" then (base_speed - 20)%Q
    else base_speed in
  jitter <- random_uniform (-10) 10 ;;
  ret (Qmax 3 (round2 (base_speed + jitter))).

(** The [try] body of [determine_congestion]. *)
Definition congestion_thresholds (vehicle_count avg_speed : pyval)
  : exc string :=
  match py_or (py_gt vehicle_count 3500) (py_lt avg_speed 15) with
  | Ok true => Ok "High"
  | Ok false =>
      match py_or (py_gt vehicle_count 1500) (py_lt avg_speed 35) with
      | Ok true => Ok "Medium"
      | Ok false => Ok "Low"
      | Raise e => Raise e
      end
  | Raise e => Raise e
  end.

Definition determine_congestion (vehicle_count avg_speed : pyval) : string :=
  match congestion_thresholds vehicle_count avg_speed with
  | Ok level => level
  | Raise _ => "Low"
  end.

Definition generate_accidents (weather_condition congestion_level : pyval)
  : M rand_state Z :=
  let prob := (5 # 100)%Q in
  let prob :=
    if py_in_strs weather_condition ["Rain"; "Storm"; "Snow"; "Fog"]
    then (prob + (15 # 100))%Q else prob in
  let prob :=
    if py_eq_str congestion_level "High" then (prob + (10 # 100))%Q
    else prob in
  u <- random_random ;;
  if Qltb u prob then random_choice [1; 1; 1; 2; 2; 3] else ret 0.

Definition get_traffic_visibility (weather_vis_value : pyval)
  : M rand_state Z :=
  try_except
    (noise <- random_randint (-500) 500 ;;
     total <- lift (py_add_int weather_vis_value noise) ;;
     n <- lift (py_int total) ;;
     ret (Z.max 0 n))
    (fun _ => ret 10000).

(** One iteration of the generation loop, for the weather row at
    position [i]. *)
Definition generate_row (i : Z) (weather_row : Weather.row)
  : M rand_state row :=
  let date_time := Weather.date_time weather_row in
  let weather_condition := Weather.weather_condition weather_row in
  area <- (a <- generate_area ;; maybe_null (null_ratio cfg) (VStr a)) ;;
  vehicle_count <-
    (k <- generate_vehicle_count date_time ;;
     o <- with_outliers (outlier_ratio cfg) (VInt k) 20000 30000 ;;
     maybe_null (null_ratio cfg) o) ;;
  road_condition <-
    (r <- generate_road_condition weather_condition ;;
     maybe_null (null_ratio cfg) (VStr r)) ;;
  avg_speed_kmh <-
    (s <- calculate_avg_speed vehicle_count weather_condition road_condition ;;
     o <- with_outliers (outlier_ratio cfg) (VFloat s) (-1) 500 ;;
     maybe_null (null_ratio cfg) o) ;;
  congestion_level <-
    maybe_null (null_ratio cfg)
      (VStr (determine_congestion vehicle_count avg_speed_kmh)) ;;
  accident_count <-
    (a <- generate_accidents weather_condition congestion_level ;;
     o <- with_outliers (outlier_ratio cfg) (VInt a) 20 50 ;;
     maybe_null (null_ratio cfg) o) ;;
  visibility_m <-
    (v <- get_traffic_visibility (Weather.visibility_m weather_row) ;;
     o <- with_outliers (outlier_ratio cfg) (VInt v) 50000 120000 ;;
     maybe_null (null_ratio cfg) o) ;;
  traffic_id <- maybe_null (null_ratio cfg) (VInt (9001 + i)) ;;
  city <- maybe_null (null_ratio cfg) (VStr "London") ;;
  ret {| traffic_id := traffic_id; date_time := date_time; city := city;
         area := area; vehicle_count := vehicle_count;
         road_condition := road_condition; avg_speed_kmh := avg_speed_kmh;
         congestion_level := congestion_level;
         accident_count := accident_count; visibility_m := visibility_m |}.

(** The loop body with its [weather_df.iloc[i]]. *)
Definition loop_body (weather_df : list Weather.row) (i : Z)
  : M rand_state row :=
  match nth_error weather_df (Z.to_nat i) with
  | Some weather_row => generate_row i weather_row
  | None => raise IndexError
  end.

End Helpers.

Definition generate_traffic_dataset {seeding : Seeding} {parser : DateParser}
    (weather_df : list Weather.row) (cfg : config) : M rand_state (list row) :=
  np_random_seed 43 ;;;
  random_seed 43 ;;;
  let limit := Z.of_nat (List.length weather_df) in
  rows <- mapM (loop_body cfg weather_df) (py_range limit) ;;
  k <- lift (dup_count (n_rows cfg) (duplicate_ratio cfg)) ;;
  dups <- df_sample rows k ;;
  ret (rows ++ dups)%list.

End Traffic.

(* ================================================================== *)
(** ** [merge_datasets.py] *)

(** [pd.to_datetime(column)] with the default [errors='raise']: the parsed
    column, or the exception pandas raises on a cell it cannot parse.  A
    parameter, like the scalar parser. *)
Class SeriesParser : Type :=
  to_datetime_series : list pyval -> exc (list (option Timestamp)).

Module Merge.

(** A row of a cleaned (silver) table: the two key columns, the
    [visibility_m] column, and the other columns [rest].  [D] is the type of
    the [date_time] cells: [pyval] as stored, [option Timestamp] once
    converted ([None] is [NaT]).  [city] is a nullable text column. *)
Record frame_row (D P : Type) : Type := {
  date_time : D;
  city : option string;
  visibility_m : pyval;
  rest : P
}.
Arguments date_time {D P} _.
Arguments city {D P} _.
Arguments visibility_m {D P} _.
Arguments rest {D P} _.

(** A row of the merged table; the two [visibility_m] columns carry the
    names given by the two [rename] calls. *)
Record merged_row (T W : Type) : Type := {
  m_date_time : option Timestamp;
  m_city : option string;
  visibility_traffic : pyval;
  traffic_rest : T;
  visibility_weather : pyval;
  weather_rest : W
}.
Arguments m_date_time {T W} _.
Arguments m_city {T W} _.
Arguments visibility_traffic {T W} _.
Arguments traffic_rest {T W} _.
Arguments visibility_weather {T W} _.
Arguments weather_rest {T W} _.

(** What [print] writes. The f-strings are kept structured. *)
Inductive line : Type :=
| Text (s : string)
| MergedDataShape (rows : nat)
| SavingTo (path : string)
| ErrorDuringMerge (e : pyexn).

Definition merge_key : Type := option Timestamp * option string.

Definition option_eqb {A} (eqb : A -> A -> bool) (a b : option A) : bool :=
  match a, b with
  | Some x, Some y => eqb x y
  | None, None => true
  | _, _ => false
  end.

(** Key equality of [pd.merge]: equal values match, and a null key matches
    a null key. *)
Definition key_eqb (a b : merge_key) : bool :=
  option_eqb Z.eqb (fst a) (fst b) && option_eqb String.eqb (snd a) (snd b).

Section Merger.
Variables T W : Type.

(** The object store, as far as [merge_data] touches it, and the terminal. *)
Record world : Type := {
  silver_weather : option (list (frame_row pyval W));
  silver_traffic : option (list (frame_row pyval T));
  gold_merged : option (list (merged_row T W));
  stdout : list line
}.

Definition print (l : line) : M world unit :=
  fun s => (Ok tt, {| silver_weather := silver_weather s;
                      silver_traffic := silver_traffic s;
                      gold_merged := gold_merged s;
                      stdout := (stdout s ++ [l])%list |}).

Definition read_parquet {A} (path : string) (slot : world -> option A)
  : M world A :=
  fun s => match slot s with
           | Some df => (Ok df, s)
           | None => (Raise (FileNotFoundError path), s)
           end.

Definition to_parquet (df : list (merged_row T W)) : M world unit :=
  fun s => (Ok tt, {| silver_weather := silver_weather s;
                      silver_traffic := silver_traffic s;
                      gold_merged := Some df;
                      stdout := stdout s |}).

Definition key_of {P} (r : frame_row (option Timestamp) P) : merge_key :=
  (date_time r, city r).

Definition set_date_time {P} (r : frame_row pyval P) (d : option Timestamp)
  : frame_row (option Timestamp) P :=
  {| date_time := d; city := city r; visibility_m := visibility_m r;
     rest := rest r |}.

(** [df['date_time'] = pd.to_datetime(df['date_time'])] *)
Definition convert_date_time {sp : SeriesParser} {P}
    (df : list (frame_row pyval P))
  : exc (list (frame_row (option Timestamp) P)) :=
  match to_datetime_series (map date_time df) with
  | Ok col =>
      if Nat.eqb (List.length col) (List.length df)
      then Ok (map (fun rc => set_date_time (fst rc) (snd rc)) (combine df col))
      else Raise (ValueError "Length of values does not match length of index")
  | Raise e => Raise e
  end.

Definition join_rows (t : frame_row (option Timestamp) T)
    (w : frame_row (option Timestamp) W) : merged_row T W :=
  {| m_date_time := date_time t; m_city := city t;
     visibility_traffic := visibility_m t; traffic_rest := rest t;
     visibility_weather := visibility_m w; weather_rest := rest w |}.

(** [pd.merge(traffic_df, weather_df, on=['date_time','city'], how='inner')]:
    one output row for every pair of a traffic row and a weather row with
    matching keys. *)
Definition pd_merge_inner
    (traffic_df : list (frame_row (option Timestamp) T))
    (weather_df : list (frame_row (option Timestamp) W))
  : list (merged_row T W) :=
  flat_map
    (fun t => map (join_rows t)
                  (filter (fun w => key_eqb (key_of w) (key_of t)) weather_df))
    traffic_df.

Definition zero_rows_error : pyexn :=
  ValueError "Merge resulted in 0 rows! Check date_time formats.".

Definition output_path : string := "s3://gold/merged_data/merged_data.parquet".

(** The table that the join inside [merge_data] builds from the two stored
    tables: both conversions, then the inner join. *)
Definition merge_frames {sp : SeriesParser}
    (weather_df : list (frame_row pyval W))
    (traffic_df : list (frame_row pyval T))
  : exc (list (merged_row T W)) :=
  match convert_date_time weather_df with
  | Raise e => Raise e
  | Ok weather_df' =>
      match convert_date_time traffic_df with
      | Raise e => Raise e
      | Ok traffic_df' => Ok (pd_merge_inner traffic_df' weather_df')
      end
  end.

Definition merge_data {sp : SeriesParser} : M world unit :=
  print (Text "Phase 4: Merging Datasets (Silver -> Gold)...") ;;;
  try_except
    (print (Text "Reading weather data...") ;;;
     weather_df <- read_parquet "s3://silver/weather_cleaned.parquet"
                     silver_weather ;;
     print (Text "Reading traffic data...") ;;;
     traffic_df <- read_parquet "s3://silver/traffic_cleaned.parquet"
                     silver_traffic ;;
     weather_df' <- lift (convert_date_time weather_df) ;;
     traffic_df' <- lift (convert_date_time traffic_df) ;;
     print (Text "Merging datasets...") ;;;
     let merged_df := pd_merge_inner traffic_df' weather_df' in
     print (MergedDataShape (List.length merged_df)) ;;;
     (if Nat.eqb (List.length merged_df) 0 then raise zero_rows_error
      else ret tt) ;;;
     print (SavingTo output_path) ;;;
     to_parquet merged_df ;;;
     print (Text "Merged dataset saved to Gold Layer."))
    (fun e => print (ErrorDuringMerge e)).

End Merger.

Arguments silver_weather {T W} _.
Arguments silver_traffic {T W} _.
Arguments gold_merged {T W} _.
Arguments stdout {T W} _.
Arguments print {T W} _ _.
Arguments read_parquet {T W A} _ _ _.
Arguments to_parquet {T W} _ _.
Arguments join_rows {T W} _ _.
Arguments pd_merge_inner {T W} _ _.
Arguments merge_frames {T W sp} _ _.
Arguments merge_data {T W sp} _.

End Merge.

(* ================================================================== *)
(** ** Concrete library instances, for running the model

    A parser for the two ISO layouts [generate_datetime] writes
    (["%Y-%m-%d %H:%M"] and ["%Y-%m-%dT%H:%MZ"]); every other cell is [NaT].
    pandas accepts more layouts; the theorems below hold for every parser. *)

Definition digit_of (c : ascii) : option Z :=
  let n := Z.of_nat (nat_of_ascii c) in
  if (48 <=? n) && (n <=? 57) then Some (n - 48) else None.

Fixpoint number_of (cs : list ascii) (acc : Z) : option Z :=
  match cs with
  | [] => Some acc
  | c :: rest =>
      match digit_of c with
      | Some d => number_of rest (10 * acc + d)
      | None => None
      end
  end.

Definition checked_datetime (y m d hh mm : Z) : option Timestamp :=
  if (1 <=? m) && (m <=? 12) && (1 <=? d) && (hh <=? 23) && (mm <=? 59)
     && (snd (civil_from_days (days_from_civil y m d)) =? d)
  then Some (mk_datetime y m d hh mm) else None.

Definition parse_iso (s : string) : option Timestamp :=
  let fields y1 y2 y3 y4 m1 m2 d1 d2 h1 h2 n1 n2 :=
    match number_of [y1; y2; y3; y4] 0, number_of [m1; m2] 0,
          number_of [d1; d2] 0, number_of [h1; h2] 0, number_of [n1; n2] 0 with
    | Some y, Some m, Some d, Some hh, Some mm => checked_datetime y m d hh mm
    | _, _, _, _, _ => None
    end in
  match list_ascii_of_string s with
  | [y1; y2; y3; y4; "-"; m1; m2; "-"; d1; d2; " "; h1; h2; ":"; n1; n2]%char =>
      fields y1 y2 y3 y4 m1 m2 d1 d2 h1 h2 n1 n2
  | [y1; y2; y3; y4; "-"; m1; m2; "-"; d1; d2; "T"; h1; h2; ":"; n1; n2;
     "Z"]%char =>
      fields y1 y2 y3 y4 m1 m2 d1 d2 h1 h2 n1 n2
  | _ => None
  end.

Definition iso_parser : DateParser :=
  fun v => match v with
           | VStr s => parse_iso s
           | _ => None
           end.

(** The column parser that goes with [iso_parser]: null cells become [NaT],
    any other cell the scalar parser rejects raises. *)
Fixpoint iso_series (cells : list pyval) : exc (list (option Timestamp)) :=
  match cells with
  | [] => Ok []
  | c :: rest =>
      match iso_series rest with
      | Raise e => Raise e
      | Ok col =>
          match c with
          | VNone | VNaN => Ok (None :: col)
          | _ =>
              match iso_parser c with
              | Some t => Ok (Some t :: col)
              | None => Raise (ValueError "Unknown datetime string format")
              end
          end
      end
  end.

Definition iso_series_parser : SeriesParser := iso_series.

(** A seeding whose tapes are constant: every [random.random()] is [1/2]. *)
Definition half_tape : nat -> N := fun _ => 4503599627370496%N.

Definition half_seeding : Seeding :=
  {| py_seed_tape := fun _ => half_tape; np_seed_tape := fun _ => half_tape |}.

(** [half_tape] with the draw at position [p] replaced by [0]. *)
Definition zero_at (p : nat) : nat -> N :=
  fun k => if Nat.eqb k p then 0%N else half_tape k.

Definition state_of (t : nat -> N) : rand_state :=
  {| py_random := {| tape := t; pos := 0 |};
     np_random := {| tape := t; pos := 0 |} |}.


(* ================================================================== *)
(** ** Outcomes of a computation *)

(** [post m P E]: from every state, [m] either returns a value satisfying
    [P] or raises an exception satisfying [E]. *)
Definition post {S A} (m : M S A) (P : A -> Prop) (E : pyexn -> Prop) : Prop :=
  forall s, match fst (m s) with
            | Ok a => P a
            | Raise e => E e
            end.

(** [returns m P]: from every state [m] returns, and its value satisfies
    [P]. *)
Definition returns {S A} (m : M S A) (P : A -> Prop) : Prop :=
  post m P (fun _ => False).

(** [forward s s']: [s'] is [s] after some more draws of Python's source
    (same tape, read position not before). *)
Definition forward (s s' : rand_state) : Prop :=
  tape (py_random s') = tape (py_random s)
  /\ (pos (py_random s) <= pos (py_random s'))%nat.

(** [advances m]: [m] only reads Python's source forward. *)
Definition advances {A} (m : M rand_state A) : Prop :=
  forall s, forward s (snd (m s)).

(** The float that the draw at position [p] of the tape gives. *)
Definition draw_at (s : rand_state) (p : nat) : Q :=
  unit_float (tape (py_random s) p).

(** [x] is null exactly when the draw at position [p] is below [ratio]. *)
Definition null_by_draw (ratio : Q) (s : rand_state) (p : nat) (x : pyval)
  : Prop :=
  x = VNone <-> (draw_at s p < ratio)%Q.

(** Values that are [None] or a number (no [nan], no text). *)
Definition num_or_null (v : pyval) : Prop :=
  match v with
  | VNone | VInt _ | VFloat _ => True
  | VNaN | VStr _ => False
  end.

(** The value of a numeric cell. *)
Definition numeric_value (v : pyval) : option Q :=
  match v with
  | VInt z => Some (inject_Z z)
  | VFloat q => Some q
  | _ => None
  end.

(** What the next call of [random.random()] returns. *)
Definition next_random (s : rand_state) : Q :=
  unit_float (tape (py_random s) (pos (py_random s))).

(** The raw draw at position [p] of Python's tape. *)
Definition raw_at (s : rand_state) (p : nat) : N := tape (py_random s) p.

(** The state [k] draws of Python's source later. *)
Definition after (k : nat) (s : rand_state) : rand_state :=
  {| py_random := {| tape := tape (py_random s);
                     pos := (k + pos (py_random s))%nat |};
     np_random := np_random s |}.

(** The position, on Python's tape, of the first draw left to the road
    condition of the traffic row generated from state [s]: before it the
    loop body draws the area and its null test, the vehicle count and its
    outlier test (the fourth draw), two more draws when that test triggers,
    and the null test of the vehicle count. *)
Definition road_draw_position (cfg : Traffic.config) (s : rand_state) : nat :=
  let p := pos (py_random s) in
  if Qltb (draw_at s (3 + p)) (Traffic.outlier_ratio cfg)
  then (7 + p)%nat else (5 + p)%nat.

(** The largest table the weather generator can date: the timestamp of the
    row at position [max_rows] would be 10000-01-01 00:00. *)
Definition max_rows : Z := 34958088.

(** The precipitation buckets of [generate_weather_condition], decided by
    the precipitation [r] and one raw draw [raw]: read as a float the draw
    settles the Storm/Rain and the Rain/Clear split against the float 0.6,
    its residue modulo 2 is the index [random.choice] takes in
    ["Clear", "Fog"]. *)
Definition precipitation_bucket (r : Q) (raw : N) (c : string) : Prop :=
  ((50 <= r)%Q ->
   ((unit_float raw < py_float (6 # 10))%Q -> c = "Storm")
   /\ ((py_float (6 # 10) <= unit_float raw)%Q -> c = "Rain"))
  /\ ((25 <= r)%Q -> (r < 50)%Q -> c = "Rain")
  /\ ((10 <= r)%Q -> (r < 25)%Q ->
      ((unit_float raw < py_float (6 # 10))%Q -> c = "Rain")
      /\ ((py_float (6 # 10) <= unit_float raw)%Q -> c = "Clear"))
  /\ ((0 < r)%Q -> (r < 10)%Q ->
      (Z.of_N raw mod 2 = 0 -> c = "Clear")
      /\ (Z.of_N raw mod 2 = 1 -> c = "Fog"))
  /\ ((r <= 0)%Q -> c = "Clear").

(** The temperatures at which [generate_weather_condition] tries Snow. *)
Definition cold (temperature_c : pyval) : Prop :=
  exists t, numeric_value temperature_c = Some t /\ (t <= 5)%Q.

(** ** Shapes of the injected defects *)

(** The two outlier bands of [with_outliers]. *)
Definition outlier_band (lo hi x : Q) : Prop :=
  ((lo - 25 <= x)%Q /\ (x <= lo)%Q) \/ ((hi <= x)%Q /\ (x <= hi + 25)%Q).

Definition is_outlier (lo hi : Q) (o : pyval) : Prop :=
  exists x, o = VFloat x /\ outlier_band lo hi x.

(** [perturbed ratio clean lo hi o]: [o] is what [with_outliers] can make of
    [clean]. *)
Definition perturbed (ratio : Q) (clean : pyval) (lo hi : Q) (o : pyval)
  : Prop :=
  (o = clean \/ is_outlier lo hi o)
  /\ ((ratio <= 0)%Q -> o = clean)
  /\ ((1 <= ratio)%Q -> is_outlier lo hi o).

(** [nulled ratio v stored]: [stored] is what [maybe_null] can make of
    [v]. *)
Definition nulled (ratio : Q) (v stored : pyval) : Prop :=
  (stored = VNone \/ stored = v)
  /\ ((1 <= ratio)%Q -> stored = VNone)
  /\ ((ratio <= 0)%Q -> stored = v).

(** What [generate_road_condition] may return for a weather condition. *)
Definition road_for (weather_condition : pyval) (road : string) : Prop :=
  (weather_condition = VStr "Snow" -> road = "Snowy")
  /\ (weather_condition = VStr "Rain" \/ weather_condition = VStr "Storm" ->
      road = "Wet")
  /\ (weather_condition <> VStr "Snow" -> weather_condition <> VStr "Rain" ->
      weather_condition <> VStr "Storm" -> road = "Damaged" \/ road = "Dry").

(** What [get_traffic_visibility] may return for a weather visibility. *)
Definition visibility_for (weather_vis : pyval) (z : Z) : Prop :=
  match weather_vis with
  | VInt b => exists noise, -500 <= noise <= 500 /\ z = Z.max 0 (b + noise)
  | VFloat q =>
      exists noise, -500 <= noise <= 500
                    /\ z = Z.max 0 (Qtrunc (q + inject_Z noise))
  | VNone | VNaN | VStr _ => z = 10000
  end.

(** The shape of a traffic row generated for the weather row [w] at
    position [i]: each stored field is the nulling of a (possibly perturbed)
    clean value, except [date_time], which is the weather row's. *)
Definition traffic_row_shape (cfg : Traffic.config) (i : Z) (w : Weather.row)
    (r : Traffic.row) : Prop :=
  let nr := Traffic.null_ratio cfg in
  let orat := Traffic.outlier_ratio cfg in
  Traffic.date_time r = Weather.date_time w
  /\ (exists a, nulled nr (VStr a) (Traffic.area r))
  /\ (exists k o, perturbed orat (VInt k) 20000 30000 o
                  /\ nulled nr o (Traffic.vehicle_count r))
  /\ (exists c, road_for (Weather.weather_condition w) c
                /\ nulled nr (VStr c) (Traffic.road_condition r))
  /\ (exists sp o, perturbed orat (VFloat sp) (-1) 500 o
                   /\ nulled nr o (Traffic.avg_speed_kmh r))
  /\ nulled nr
       (VStr (Traffic.determine_congestion (Traffic.vehicle_count r)
                (Traffic.avg_speed_kmh r)))
       (Traffic.congestion_level r)
  /\ (exists a o, perturbed orat (VInt a) 20 50 o
                  /\ nulled nr o (Traffic.accident_count r))
  /\ (exists v o, visibility_for (Weather.visibility_m w) v
                  /\ perturbed orat (VInt v) 50000 120000 o
                  /\ nulled nr o (Traffic.visibility_m r))
  /\ nulled nr (VInt (9001 + i)) (Traffic.traffic_id r)
  /\ nulled nr (VStr "London") (Traffic.city r).

(* ================================================================== *)
(** ** The specification's statements, and inputs to run the model on *)

(** Row-count law as the specification words it: [n + floor(n * d)] rows
    from the weather generator, and [L + floor(L * d)] rows from the traffic
    generator on a weather table of length [L]. *)
Definition row_count_law : Prop :=
  (forall (seeding : Seeding) (parser : DateParser) (cfg : Weather.config)
          (s : rand_state),
      exists t s',
        Weather.generate_weather_dataset cfg s = (Ok t, s')
        /\ Z.of_nat (List.length t)
           = Weather.n_rows cfg
             + Qfloor (inject_Z (Weather.n_rows cfg)
                       * Weather.duplicate_ratio cfg))
  /\ (forall (seeding : Seeding) (parser : DateParser)
             (weather_df : list Weather.row) (cfg : Traffic.config)
             (s : rand_state),
         exists t s',
           Traffic.generate_traffic_dataset weather_df cfg s = (Ok t, s')
           /\ Z.of_nat (List.length t)
              = Z.of_nat (List.length weather_df)
                + Qfloor (inject_Z (Z.of_nat (List.length weather_df))
                          * Traffic.duplicate_ratio cfg)).

(** "Timestamp and city are copied from the weather row unchanged." *)
Definition keys_copied_law : Prop :=
  forall (seeding : Seeding) (parser : DateParser)
         (weather_df : list Weather.row) (cfg : Traffic.config)
         (s s' : rand_state) (t : list Traffic.row),
    Traffic.generate_traffic_dataset weather_df cfg s = (Ok t, s') ->
    forall i w, nth_error weather_df i = Some w ->
      exists r, nth_error t i = Some r
                /\ Traffic.date_time r = Weather.date_time w
                /\ Traffic.city r = Weather.city w.

Definition all_fields (P : pyval -> Prop) (r : Traffic.row) : Prop :=
  P (Traffic.traffic_id r) /\ P (Traffic.date_time r) /\ P (Traffic.city r)
  /\ P (Traffic.area r) /\ P (Traffic.vehicle_count r)
  /\ P (Traffic.road_condition r) /\ P (Traffic.avg_speed_kmh r)
  /\ P (Traffic.congestion_level r) /\ P (Traffic.accident_count r)
  /\ P (Traffic.visibility_m r).

(** The fields other than [date_time]. *)
Definition generated_fields (P : pyval -> Prop) (r : Traffic.row) : Prop :=
  P (Traffic.traffic_id r) /\ P (Traffic.city r)
  /\ P (Traffic.area r) /\ P (Traffic.vehicle_count r)
  /\ P (Traffic.road_condition r) /\ P (Traffic.avg_speed_kmh r)
  /\ P (Traffic.congestion_level r) /\ P (Traffic.accident_count r)
  /\ P (Traffic.visibility_m r).

(** Nine distinct draws of the source, read from state [s] on, decide the
    nulling of the nine generated fields of [r], in the order the code calls
    [maybe_null]: each field is null exactly when its own draw is below
    [ratio]. *)
Definition nulled_by_own_draws (ratio : Q) (s : rand_state) (r : Traffic.row)
  : Prop :=
  exists p_area p_count p_road p_speed p_level p_acc p_vis p_id p_city,
    (pos (py_random s) <= p_area /\ p_area < p_count /\ p_count < p_road
     /\ p_road < p_speed /\ p_speed < p_level /\ p_level < p_acc
     /\ p_acc < p_vis /\ p_vis < p_id /\ p_id < p_city)%nat
    /\ null_by_draw ratio s p_area (Traffic.area r)
    /\ null_by_draw ratio s p_count (Traffic.vehicle_count r)
    /\ null_by_draw ratio s p_road (Traffic.road_condition r)
    /\ null_by_draw ratio s p_speed (Traffic.avg_speed_kmh r)
    /\ null_by_draw ratio s p_level (Traffic.congestion_level r)
    /\ null_by_draw ratio s p_acc (Traffic.accident_count r)
    /\ null_by_draw ratio s p_vis (Traffic.visibility_m r)
    /\ null_by_draw ratio s p_id (Traffic.traffic_id r)
    /\ null_by_draw ratio s p_city (Traffic.city r).

(** "Every field, including the identifier, timestamp and city, passes
    through [maybe_null]": observed at null probability 1, where
    [maybe_null] nulls whatever it is given. *)
Definition every_field_nulled_law : Prop :=
  forall (parser : DateParser) (cfg : Traffic.config) (i : Z)
         (w : Weather.row) (s s' : rand_state) (r : Traffic.row),
    (1 <= Traffic.null_ratio cfg)%Q ->
    Traffic.generate_row cfg i w s = (Ok r, s') ->
    all_fields (fun v => v = VNone) r.


(** "Result row count <= min(weather row count, traffic row count)." *)
Definition merge_bound_law : Prop :=
  forall (T W : Type)
         (traffic_df : list (Merge.frame_row (option Timestamp) T))
         (weather_df : list (Merge.frame_row (option Timestamp) W)),
    (List.length (Merge.pd_merge_inner traffic_df weather_df)
     <= Nat.min (List.length weather_df) (List.length traffic_df))%nat.

(** The weather row of the specification's concrete scenario. *)
Definition snow_row : Weather.row :=
  {| Weather.weather_id := VInt 5001;
     Weather.date_time := VStr "2024-01-01 00:00";
     Weather.city := VStr "London";
     Weather.season := VStr "Winter";
     Weather.temperature_c := VFloat (-2);
     Weather.humidity := VInt 70;
     Weather.rain_mm := VFloat 0;
     Weather.weather_condition := VStr "Snow";
     Weather.wind_speed_kmh := VFloat 10;
     Weather.visibility_m := VInt 5000;
     Weather.air_pressure_hpa := VFloat 1000 |}.

(** The same row with its city nulled by the weather generator. *)
Definition snow_row_null_city : Weather.row :=
  {| Weather.weather_id := VInt 5001;
     Weather.date_time := VStr "2024-01-01 00:00";
     Weather.city := VNone;
     Weather.season := VStr "Winter";
     Weather.temperature_c := VFloat (-2);
     Weather.humidity := VInt 70;
     Weather.rain_mm := VFloat 0;
     Weather.weather_condition := VStr "Snow";
     Weather.wind_speed_kmh := VFloat 10;
     Weather.visibility_m := VInt 5000;
     Weather.air_pressure_hpa := VFloat 1000 |}.

(** A weather table of the size the default weather run writes:
    5000 rows and 250 duplicates. *)
Definition default_size_weather_df : list Weather.row :=
  repeat snow_row (Z.to_nat 5250).

(** Four weather rows two hours apart, and a traffic configuration whose
    duplicate tail has two rows. *)
Definition weather_row_at (id : Z) (stamp : string) : Weather.row :=
  {| Weather.weather_id := VInt id;
     Weather.date_time := VStr stamp;
     Weather.city := VStr "London";
     Weather.season := VStr "Winter";
     Weather.temperature_c := VFloat 3;
     Weather.humidity := VInt 70;
     Weather.rain_mm := VFloat 12;
     Weather.weather_condition := VStr "Rain";
     Weather.wind_speed_kmh := VFloat 10;
     Weather.visibility_m := VInt 5000;
     Weather.air_pressure_hpa := VFloat 1000 |}.

Definition four_weather_rows : list Weather.row :=
  [weather_row_at 5001 "2024-01-01 00:00";
   weather_row_at 5002 "2024-01-01 02:00";
   weather_row_at 5003 "2024-01-01 04:00";
   weather_row_at 5004 "2024-01-01 06:00"].

Definition four_row_config : Traffic.config :=
  {| Traffic.n_rows := 4; Traffic.duplicate_ratio := 1 # 2;
     Traffic.null_ratio := 1 # 10; Traffic.outlier_ratio := 1 # 10 |}.

(** A hundred weather rows with the duplicate ratio 0.29, a float below
    the decimal: [100 * 0.29] is 28.999999999999996. *)
Definition float_tail_config : Weather.config :=
  {| Weather.n_rows := 100; Weather.duplicate_ratio := py_float (29 # 100);
     Weather.null_ratio := 1 # 10; Weather.outlier_ratio := 1 # 10;
     Weather.bad_format_ratio := 1 # 100 |}.

Definition one_row_config : Traffic.config :=
  {| Traffic.n_rows := 1; Traffic.duplicate_ratio := 5 # 100;
     Traffic.null_ratio := 1 # 10; Traffic.outlier_ratio := 1 # 10 |}.

Definition always_null_config : Traffic.config :=
  {| Traffic.n_rows := 1; Traffic.duplicate_ratio := 5 # 100;
     Traffic.null_ratio := 1; Traffic.outlier_ratio := 1 # 10 |}.

(** Cleaned tables for the merger; the payload is the row identifier. *)
Definition silver (stamp : string) (id : Z) : Merge.frame_row pyval Z :=
  {| Merge.date_time := VStr stamp; Merge.city := Some "London";
     Merge.visibility_m := VInt 5000; Merge.rest := id |}.

Definition keyed (stamp : Timestamp) (id : Z)
  : Merge.frame_row (option Timestamp) Z :=
  {| Merge.date_time := Some stamp; Merge.city := Some "London";
     Merge.visibility_m := VInt 5000; Merge.rest := id |}.

(** A store whose two tables share no key. *)
Definition disjoint_world : Merge.world Z Z :=
  {| Merge.silver_weather := Some [silver "2024-01-01 00:00" 5001];
     Merge.silver_traffic := Some [silver "2024-01-01 02:00" 9001];
     Merge.gold_merged := None;
     Merge.stdout := [] |}.

(* ================================================================== *)
(** ** Shapes of the generated weather values *)

(** The strings [generate_datetime] can return for row [index]. *)
Definition malformed_stamps : list string :=
  ["2099-13-40 25:61"; "Unknown"; "TBD"].

Definition renderings (index : Z) : list string :=
  let dt := add_hours base (2 * index) in
  [strftime "%Y-%m-%d %H:%M" dt; strftime "%d/%m/%Y %I%p" dt;
   strftime "%Y-%m-%dT%H:%MZ" dt].

Definition season_names : list string :=
  ["Winter"; "Spring"; "Summer"; "Autumn"].

Definition visibility_sentinels : list string :=
  ["unknown"; "N/A"; "error"; "???"].

(** A temperature [t] that [temperature_by_season] can return. *)
Definition temperature_for (season : pyval) (t : Q) : Prop :=
  (season = VStr "Winter" -> (-5 <= t)%Q /\ (t <= 15)%Q)
  /\ (season = VStr "Spring" -> (5 <= t)%Q /\ (t <= 20)%Q)
  /\ (season = VStr "Summer" -> (10 <= t)%Q /\ (t <= 35)%Q)
  /\ (season = VStr "Autumn" -> (5 <= t)%Q /\ (t <= 25)%Q)
  /\ (season <> VStr "Winter" -> season <> VStr "Spring" ->
      season <> VStr "Summer" -> season <> VStr "Autumn" ->
      (0 <= t)%Q /\ (t <= 30)%Q)
  /\ (-5 <= t)%Q /\ (t <= 35)%Q.

(** A humidity [h] that [generate_humidity] can return. *)
Definition humidity_for (season : pyval) (h : Z) : Prop :=
  (season = VStr "Winter" -> 40 <= h <= 90)
  /\ (season = VStr "Spring" -> 30 <= h <= 80)
  /\ (season = VStr "Summer" -> 20 <= h <= 70)
  /\ (season = VStr "Autumn" -> 50 <= h <= 100)
  /\ (season <> VStr "Winter" -> season <> VStr "Spring" ->
      season <> VStr "Summer" -> season <> VStr "Autumn" ->
      20 <= h <= 100)
  /\ 20 <= h <= 100.

(** A rain amount [x] that [generate_rain] can return. *)
Definition rain_for (humidity : pyval) (x : Q) : Prop :=
  (0 <= x)%Q /\ (x <= 80)%Q
  /\ (humidity = VNone -> (x <= 20)%Q)
  /\ (forall q, numeric_value humidity = Some q -> (q < 80)%Q -> (x <= 15)%Q)
  /\ (forall q, numeric_value humidity = Some q -> (q < 60)%Q -> x = 0%Q).

(** A condition [c] that [generate_weather_condition] can return. *)
Definition condition_for (rain_mm temperature_c : pyval) (c : string)
  : Prop :=
  In c ["Snow"; "Storm"; "Rain"; "Clear"; "Fog"]
  /\ (c = "Snow" ->
      exists t, numeric_value temperature_c = Some t /\ (t <= 5)%Q)
  /\ (c = "Storm" ->
      exists r, numeric_value rain_mm = Some r /\ (50 <= r)%Q)
  /\ (c = "Rain" ->
      exists r, numeric_value rain_mm = Some r /\ (10 <= r)%Q)
  /\ (c = "Fog" ->
      rain_mm = VNone
      \/ exists r, numeric_value rain_mm = Some r /\ (0 < r)%Q /\ (r < 10)%Q).

(** A wind speed [x] that [generate_wind_speed] can return. *)
Definition wind_for (weather_condition : pyval) (x : Q) : Prop :=
  (0 <= x)%Q /\ (x <= 150)%Q
  /\ (weather_condition <> VStr "Storm" -> (x <= 80)%Q).

(** A visibility cell [v] that [generate_visibility] can return. *)
Definition visibility_reading_for (weather_condition : pyval) (v : pyval)
  : Prop :=
  (exists txt, v = VStr txt /\ In txt visibility_sentinels)
  \/ (exists k, v = VInt k /\ 50 <= k <= 12000
                /\ (weather_condition <> VStr "Fog" ->
                    weather_condition <> VStr "Rain" ->
                    weather_condition <> VStr "Storm" ->
                    weather_condition <> VStr "Snow" -> 8000 <= k)).

(** A pressure [p] that [generate_air_pressure] can return. *)
Definition pressure_for (weather_condition temperature_c : pyval) (p : Q)
  : Prop :=
  (940 <= p)%Q /\ (p <= 1060)%Q
  /\ (weather_condition <> VStr "Storm" ->
      weather_condition <> VStr "Rain" ->
      weather_condition <> VStr "Snow" ->
      (temperature_c = VNone
       \/ exists t, numeric_value temperature_c = Some t
                    /\ (0 <= t)%Q /\ (t <= 30)%Q) ->
      (990 <= p)%Q /\ (p <= 1030)%Q).

(** The shape of the weather row generated at position [i]: every stored
    field is the nulling of a (possibly perturbed) clean value, and each
    clean value was derived from the stored fields before it. *)
Definition weather_row_shape {parser : DateParser} (cfg : Weather.config)
    (i : Z) (r : Weather.row) : Prop :=
  let nr := Weather.null_ratio cfg in
  let orat := Weather.outlier_ratio cfg in
  (exists str, (In str malformed_stamps \/ In str (renderings i))
               /\ nulled nr (VStr str) (Weather.date_time r))
  /\ (exists name,
         In name season_names
         /\ (forall t, to_datetime (Weather.date_time r) = Some t ->
             name = Weather.season_of_month (ts_month t))
         /\ nulled nr (VStr name) (Weather.season r))
  /\ (exists t o, temperature_for (Weather.season r) t
                  /\ perturbed orat (VFloat t) (-30) 60 o
                  /\ nulled nr o (Weather.temperature_c r))
  /\ (exists h o, humidity_for (Weather.season r) h
                  /\ perturbed orat (VInt h) (-10) 150 o
                  /\ nulled nr o (Weather.humidity r))
  /\ (exists x o, rain_for (Weather.humidity r) x
                  /\ perturbed orat (VFloat x) 100 200 o
                  /\ nulled nr o (Weather.rain_mm r))
  /\ (exists c, condition_for (Weather.rain_mm r) (Weather.temperature_c r) c
                /\ nulled nr (VStr c) (Weather.weather_condition r))
  /\ (exists x o, wind_for (Weather.weather_condition r) x
                  /\ perturbed orat (VFloat x) 200 350 o
                  /\ nulled nr o (Weather.wind_speed_kmh r))
  /\ (exists v o, visibility_reading_for (Weather.weather_condition r) v
                  /\ perturbed orat v 50000 120000 o
                  /\ nulled nr o (Weather.visibility_m r))
  /\ (exists p o, pressure_for (Weather.weather_condition r)
                    (Weather.temperature_c r) p
                  /\ perturbed orat (VFloat p) 900 1100 o
                  /\ nulled nr o (Weather.air_pressure_hpa r))
  /\ nulled nr (VInt (5001 + i)) (Weather.weather_id r)
  /\ nulled nr (VStr "London") (Weather.city r).

(** [sampled_from df d]: the rows [d] are the rows of [df] at pairwise
    distinct positions (a sample without replacement). *)
Definition sampled_from {A} (df d : list A) : Prop :=
  exists idxs, NoDup idxs
               /\ Forall2 (fun j r => nth_error df j = Some r) idxs d.

(** ** Invariants of the stored weather rows *)

(** [stored P lo hi x]: the stored cell [x] is null, an outlier of the bands
    around [lo] and [hi], or a clean value satisfying [P]. *)
Definition stored (P : pyval -> Prop) (lo hi : Q) (x : pyval) : Prop :=
  x = VNone \/ is_outlier lo hi x \/ P x.

(** The stored condition agrees with the stored temperature and rain. *)
Definition condition_consistent (r : Weather.row) : Prop :=
  (Weather.weather_condition r = VNone
   \/ exists c, Weather.weather_condition r = VStr c
                /\ In c ["Snow"; "Storm"; "Rain"; "Clear"; "Fog"])
  /\ (Weather.weather_condition r = VStr "Snow" ->
      exists t, numeric_value (Weather.temperature_c r) = Some t
                /\ (t <= 5)%Q)
  /\ (Weather.weather_condition r = VStr "Storm" ->
      exists x, numeric_value (Weather.rain_mm r) = Some x /\ (50 <= x)%Q)
  /\ (Weather.weather_condition r = VStr "Rain" ->
      exists x, numeric_value (Weather.rain_mm r) = Some x /\ (10 <= x)%Q)
  /\ (Weather.weather_condition r = VStr "Fog" ->
      Weather.rain_mm r = VNone
      \/ exists x, numeric_value (Weather.rain_mm r) = Some x
                   /\ (0 < x)%Q /\ (x < 10)%Q).

(** The stored season agrees with the stored timestamp, and the stored
    temperature and humidity with the stored season. *)
Definition season_consistent {parser : DateParser} (r : Weather.row) : Prop :=
  (Weather.season r = VNone
   \/ exists name, Weather.season r = VStr name /\ In name season_names)
  /\ (forall t name,
         to_datetime (Weather.date_time r) = Some t ->
         Weather.season r = VStr name ->
         name = Weather.season_of_month (ts_month t))
  /\ stored (fun v => exists t, v = VFloat t
                                /\ temperature_for (Weather.season r) t)
       (-30) 60 (Weather.temperature_c r)
  /\ stored (fun v => exists h, v = VInt h
                                /\ humidity_for (Weather.season r) h)
       (-10) 150 (Weather.humidity r).

(** The stored rain agrees with the stored humidity. *)
Definition rain_consistent (r : Weather.row) : Prop :=
  stored (fun v => exists x, v = VFloat x /\ rain_for (Weather.humidity r) x)
    100 200 (Weather.rain_mm r).

(** The stored wind, visibility and pressure agree with the stored
    condition (and temperature). *)
Definition sensors_consistent (r : Weather.row) : Prop :=
  stored (fun v => exists x, v = VFloat x
                             /\ wind_for (Weather.weather_condition r) x)
    200 350 (Weather.wind_speed_kmh r)
  /\ stored (visibility_reading_for (Weather.weather_condition r))
       50000 120000 (Weather.visibility_m r)
  /\ stored (fun v => exists p, v = VFloat p
                                /\ pressure_for (Weather.weather_condition r)
                                     (Weather.temperature_c r) p)
       900 1100 (Weather.air_pressure_hpa r).

(** The weather table [t]: [n] base rows, the row at position [k] carrying
    the identifier [5001 + k] (or null), then a tail of copies of base rows
    taken at pairwise distinct positions. *)
Definition weather_table_layout (n : Z) (t : list Weather.row) : Prop :=
  exists rows dups,
    t = (rows ++ dups)%list
    /\ Z.of_nat (List.length rows) = n
    /\ sampled_from rows dups
    /\ forall k r, nth_error rows k = Some r ->
         (Weather.weather_id r = VNone
          \/ Weather.weather_id r = VInt (5001 + Z.of_nat k))
         /\ (Weather.city r = VNone \/ Weather.city r = VStr "London")
         /\ (Weather.date_time r = VNone
             \/ exists str, Weather.date_time r = VStr str
                            /\ (In str malformed_stamps
                                \/ In str (renderings (Z.of_nat k)))).

(** ** Orders used to compare traffic outcomes *)

(** Low < Medium < High. *)
Definition congestion_rank (level : string) : Z :=
  if String.eqb level "High" then 2
  else if String.eqb level "Medium" then 1
  else 0.

(** The hours [generate_vehicle_count] treats as rush hours and as late
    night. *)
Definition rush_hour (h : Z) : Prop := 7 <= h <= 9 \/ 16 <= h <= 19.
Definition late_night (h : Z) : Prop := 0 <= h <= 5.

(** The weather conditions [generate_accidents] counts as adverse. *)
Definition adverse_weather (weather_condition : pyval) : Prop :=
  exists name,
    In name ["Rain"; "Storm"; "Snow"; "Fog"] /\ weather_condition = VStr name.

(** ** Shapes of the traffic fields *)

Definition boroughs : list string :=
  ["Camden"; "Chelsea"; "Islington"; "Southwark"; "Kensington";
   "Westminster"; "Greenwich"].

(** A clean vehicle count for the timestamp cell [time_str]. *)
Definition vehicle_count_for {parser : DateParser} (time_str : pyval)
    (v : pyval) : Prop :=
  exists k, v = VInt k /\ 0 <= k <= 5000
    /\ (to_datetime time_str = None -> 100 <= k <= 3000)
    /\ (forall dt, to_datetime time_str = Some dt ->
          (rush_hour (ts_hour dt) -> 2000 <= k <= 5000)
          /\ (late_night (ts_hour dt) -> 0 <= k <= 500)
          /\ (~ rush_hour (ts_hour dt) -> ~ late_night (ts_hour dt) ->
              800 <= k <= 2500)).

(** A clean average speed for a stored vehicle count, a weather condition
    and a stored road condition. *)
Definition speed_for (vehicle_count weather_condition road_condition : pyval)
    (v : pyval) : Prop :=
  exists x, v = VFloat x /\ (3 <= x)%Q /\ (x <= 100)%Q
    /\ (forall q, numeric_value vehicle_count = Some q ->
          ((3000 < q)%Q -> (x <= 40)%Q) /\ ((1500 < q)%Q -> (x <= 60)%Q))
    /\ (In weather_condition [VStr "Rain"; VStr "Snow"; VStr "Storm"] ->
        (x <= 85)%Q)
    /\ (weather_condition = VStr "Fog" -> (x <= 90)%Q)
    /\ (road_condition = VStr "Damaged" -> (x <= 80)%Q)
    /\ (vehicle_count = VNone -> (15 <= x)%Q).

Definition accidents_for (v : pyval) : Prop :=
  exists k, v = VInt k /\ 0 <= k <= 3.

(** What every traffic row generated for the weather row [w] satisfies. *)
Definition traffic_measurements {parser : DateParser} (w : Weather.row)
    (r : Traffic.row) : Prop :=
  Traffic.date_time r = Weather.date_time w
  /\ (Traffic.area r = VNone
      \/ exists a, Traffic.area r = VStr a /\ In a boroughs)
  /\ stored (vehicle_count_for (Weather.date_time w)) 20000 30000
       (Traffic.vehicle_count r)
  /\ stored (speed_for (Traffic.vehicle_count r)
               (Weather.weather_condition w) (Traffic.road_condition r))
       (-1) 500 (Traffic.avg_speed_kmh r)
  /\ (Traffic.congestion_level r = VNone
      \/ Traffic.congestion_level r
         = VStr (Traffic.determine_congestion (Traffic.vehicle_count r)
                   (Traffic.avg_speed_kmh r)))
  /\ stored accidents_for 20 50 (Traffic.accident_count r).

(** ** Lines and keys of the merger *)

Definition phase_line : Merge.line :=
  Merge.Text "Phase 4: Merging Datasets (Silver -> Gold)...".

Definition success_line : Merge.line :=
  Merge.Text "Merged dataset saved to Gold Layer.".

(** The key of a merged row, and the number of rows of a table that carry
    a key. *)
Definition merged_key {T W} (m : Merge.merged_row T W) : Merge.merge_key :=
  (Merge.m_date_time m, Merge.m_city m).

Definition count_key {P} (k : Merge.merge_key)
    (df : list (Merge.frame_row (option Timestamp) P)) : nat :=
  List.length (filter (fun r => Merge.key_eqb (Merge.key_of r) k) df).

Definition count_merged {T W} (k : Merge.merge_key)
    (df : list (Merge.merged_row T W)) : nat :=
  List.length (filter (fun m => Merge.key_eqb (merged_key m) k) df).

(* ================================================================== *)
(** * Properties *)

(** ** The outcome calculus *)

Section Outcomes.
Context {S : Type}.

Lemma post_ret {A} (a : A) (P : A -> Prop) E :
  P a -> post (S:=S) (ret a) P E.
Proof. intros H s; exact H. Qed.

Lemma post_raise {A} (e : pyexn) (P : A -> Prop) (E : pyexn -> Prop) :
  E e -> post (S:=S) (raise e) P E.
Proof. intros H s; exact H. Qed.

Lemma post_lift {A} (r : exc A) (P : A -> Prop) (E : pyexn -> Prop) :
  match r with Ok a => P a | Raise e => E e end -> post (S:=S) (lift r) P E.
Proof. intros H s; exact H. Qed.

Lemma post_bind {A B} (m : M S A) (k : A -> M S B) P Q E :
  post m P E -> (forall a, P a -> post (k a) Q E) -> post (bind m k) Q E.
Proof.
  intros Hm Hk s. unfold bind. specialize (Hm s).
  destruct (m s) as [[a | e] s']; simpl in *.
  - apply Hk; exact Hm.
  - exact Hm.
Qed.

Lemma post_try {A} (m : M S A) (h : pyexn -> M S A) P E E' :
  post m P E' -> (forall e, E' e -> post (h e) P E) ->
  post (try_except m h) P E.
Proof.
  intros Hm Hh s. unfold try_except. specialize (Hm s).
  destruct (m s) as [[a | e] s']; simpl in *.
  - exact Hm.
  - apply Hh; exact Hm.
Qed.

Lemma post_weaken {A} (m : M S A) (P P' : A -> Prop) (E E' : pyexn -> Prop) :
  post m P E -> (forall a, P a -> P' a) -> (forall e, E e -> E' e) ->
  post m P' E'.
Proof.
  intros Hm HP HE s. specialize (Hm s).
  destruct (fst (m s)); auto.
Qed.

Lemma returns_weaken {A} (m : M S A) (P P' : A -> Prop) :
  returns m P -> (forall a, P a -> P' a) -> returns m P'.
Proof. intros Hm HP. eapply post_weaken; eauto. Qed.

Lemma returns_post {A} (m : M S A) (P : A -> Prop) E :
  returns m P -> post m P E.
Proof. intros Hm. eapply post_weaken; eauto. intros e []. Qed.

Lemma returns_run {A} (m : M S A) (P : A -> Prop) :
  returns m P -> forall s, exists a s', m s = (Ok a, s') /\ P a.
Proof.
  intros Hm s. specialize (Hm s).
  destruct (m s) as [[a | e] s']; simpl in *.
  - eauto.
  - contradiction.
Qed.

End Outcomes.

(** ** The random sources *)

Lemma unit_float_range (raw : N) : (0 <= unit_float raw /\ unit_float raw < 1)%Q.
Proof.
  assert (H : (raw mod two53 < two53)%N) by (apply N.mod_lt; discriminate).
  unfold unit_float, Qle, Qlt. cbn [Qnum Qden].
  set (r := (raw mod two53)%N) in *. unfold two53 in H.
  split; lia.
Qed.

Lemma returns_random_random :
  returns random_random (fun u => (0 <= u /\ u < 1)%Q).
Proof. intros s; simpl. apply unit_float_range. Qed.

Lemma returns_random_uniform (a b : Q) :
  (a <= b)%Q ->
  returns (random_uniform a b) (fun x => (a <= x /\ x <= b)%Q).
Proof.
  intros Hab. unfold random_uniform.
  eapply post_bind; [apply returns_random_random |].
  intros u [H0 H1]. apply post_ret. cbv beta. split; nra.
Qed.

Lemma returns_randbelow (n : Z) :
  0 < n -> returns (randbelow n) (fun k => 0 <= k < n).
Proof.
  intros Hn s; simpl. apply Z.mod_pos_bound; exact Hn.
Qed.

Lemma returns_random_randint (a b : Z) :
  a <= b -> returns (random_randint a b) (fun k => a <= k <= b).
Proof.
  intros Hab. unfold random_randint.
  destruct (b - a + 1 <=? 0) eqn:Hle; [apply Z.leb_le in Hle; lia |].
  apply Z.leb_gt in Hle.
  eapply post_bind; [apply returns_randbelow; lia |].
  intros k Hk. apply post_ret. cbv beta in Hk. lia.
Qed.

Lemma returns_random_choice {A} (seq : list A) :
  seq <> [] -> returns (random_choice seq) (fun x => In x seq).
Proof.
  intros Hne. unfold random_choice.
  destruct seq as [| x xs]; [contradiction |].
  eapply post_bind.
  - apply returns_randbelow. simpl List.length. lia.
  - intros k Hk.
    destruct (nth_error (x :: xs) (Z.to_nat k)) as [y |] eqn:Hnth.
    + apply post_ret. eapply nth_error_In; eauto.
    + apply nth_error_None in Hnth. cbv beta in Hk. lia.
Qed.

(** ** The model run on concrete inputs *)

Example strftime_base :
  strftime "%Y-%m-%d %H:%M" (add_hours base (2 * 7)) = "2024-01-01 14:00"
  /\ strftime "%d/%m/%Y %I%p" (add_hours base (2 * 714)) = "29/02/2024 12PM"
  /\ strftime "%Y-%m-%dT%H:%MZ" (add_hours base (2 * 4392)) = "2025-01-01T00:00Z".
Proof. repeat split; vm_compute; reflexivity. Qed.

Example parse_iso_ok :
  parse_iso "2024-01-01 14:00" = Some (add_hours base 14)
  /\ parse_iso "2025-01-01T00:00Z" = Some (add_hours base (2 * 4392))
  /\ parse_iso "2099-13-40 25:61" = None
  /\ parse_iso "2023-02-29 10:00" = None
  /\ parse_iso "Unknown" = None.
Proof. repeat split; vm_compute; reflexivity. Qed.

Example determine_congestion_runs :
  Traffic.determine_congestion (VInt 4000) VNone = "High"
  /\ Traffic.determine_congestion (VInt 2000) VNone = "Low"
  /\ Traffic.determine_congestion VNone (VFloat 10) = "Low"
  /\ Traffic.determine_congestion (VInt 2000) (VFloat 50) = "Medium"
  /\ Traffic.determine_congestion (VInt 1000) (VFloat 12) = "High"
  /\ Traffic.determine_congestion (VInt 1000) (VFloat 50) = "Low".
Proof. repeat split; vm_compute; reflexivity. Qed.

Example get_traffic_visibility_runs :
  fst (Traffic.get_traffic_visibility (VStr "error") (state_of half_tape))
  = Ok 10000
  /\ fst (Traffic.get_traffic_visibility VNaN (state_of half_tape)) = Ok 10000
  /\ fst (Traffic.get_traffic_visibility (VInt 5000) (state_of half_tape))
     = Ok 5153
  /\ fst (Traffic.get_traffic_visibility (VInt 100) (state_of (zero_at 0)))
     = Ok 0.
Proof. repeat split; vm_compute; reflexivity. Qed.

Example df_sample_runs :
  fst (df_sample [10; 20; 30] 2 (state_of half_tape)) = Ok [30; 10]
  /\ fst (df_sample [10; 20; 30] 4 (state_of half_tape))
     = Raise (ValueError "Cannot take a larger sample than population").
Proof. repeat split; vm_compute; reflexivity. Qed.

(** ** Comparisons *)

Lemma Qleb_true (a b : Q) : Qleb a b = true <-> (a <= b)%Q.
Proof. unfold Qleb. apply Qle_bool_iff. Qed.

Lemma Qleb_false (a b : Q) : Qleb a b = false <-> (b < a)%Q.
Proof.
  unfold Qleb. split; intros H.
  - apply Qnot_le_lt. intros Hle. apply Qle_bool_iff in Hle. congruence.
  - destruct (Qle_bool a b) eqn:E; [| reflexivity].
    apply Qle_bool_iff in E. lra.
Qed.

Lemma Qltb_true (a b : Q) : Qltb a b = true <-> (a < b)%Q.
Proof.
  unfold Qltb. rewrite negb_true_iff. apply (Qleb_false b a).
Qed.

Lemma Qltb_false (a b : Q) : Qltb a b = false <-> (b <= a)%Q.
Proof.
  unfold Qltb. rewrite negb_false_iff. apply (Qleb_true b a).
Qed.

Ltac bool_to_Q :=
  repeat match goal with
         | H : Qleb _ _ = true |- _ => apply Qleb_true in H
         | H : Qleb _ _ = false |- _ => apply Qleb_false in H
         | H : Qltb _ _ = true |- _ => apply Qltb_true in H
         | H : Qltb _ _ = false |- _ => apply Qltb_false in H
         end.

Lemma py_cmp_numeric op v c q :
  numeric_value v = Some q -> py_cmp op v c = Ok (op q c).
Proof. destruct v; simpl; intros H; inversion H; reflexivity. Qed.

(** ** Weather: the condition cascade *)

(** Float literals are left as they are: nothing below depends on their
    value, only on their being the same on both sides. *)
Ltac hide_floats :=
  repeat match goal with
         | |- context [py_float ?q] =>
             let c := fresh "c" in
             let Hc := fresh "Hc" in
             remember (py_float q) as c eqn:Hc; clear Hc
         end.

Ltac run_monad :=
  hide_floats;
  cbv beta iota delta [bind lift ret raise try_except random_choice
    random_randint random_uniform randbelow random_random py_draw rng_next
    fst snd] in *;
  simpl in *.

Ltac case_split :=
  match goal with
  | |- context [match ?x with _ => _ end] =>
      lazymatch x with
      | context [match _ with _ => _ end] => fail
      | _ => destruct x eqn:?
      end
  end.

Ltac split_cases := repeat (case_split; simpl in *).

Ltac choice_cases :=
  repeat match goal with
         | H : nth_error _ _ = Some _ |- _ =>
             apply nth_error_In in H; simpl in H
         | H : nth_error _ (Z.to_nat (?k mod ?n)) = None |- _ =>
             apply nth_error_None in H; simpl in H;
             pose proof (Z.mod_pos_bound k n); lia
         | H : _ \/ _ |- _ => destruct H
         | H : False |- _ => contradiction
         end; subst.

Ltac cold_facts :=
  repeat match goal with
         | H : cold _ |- _ =>
             let t := fresh "t" in
             let Ht := fresh "Ht" in
             destruct H as (t & Ht & ?); simpl in Ht;
             first [discriminate Ht | inversion Ht; subst; clear Ht]
         end.

Ltac cascade_finish :=
  repeat match goal with
         | |- _ /\ _ => split
         | |- _ -> _ => intro
         end;
  cold_facts;
  try reflexivity; try lra;
  try (exfalso;
       match goal with
       | H : ~ cold _ |- _ =>
           apply H; eexists; split; [reflexivity | lra]
       end);
  try match goal with
      | H : ?i = _, E : nth_error _ (Z.to_nat ?i) = Some _ |- _ =>
          rewrite H in E; simpl in E; inversion E; reflexivity
      end.

(** C7. [generate_weather_condition] is an ordered cascade.  (1) It returns
    Snow only when the temperature is a number at most 5.  (2) For such a
    temperature Snow is returned exactly when the first draw is below 0.4,
    whatever the precipitation.  (3) Otherwise, for every temperature that
    is not a text and every numeric precipitation, the result is decided by
    the precipitation bucket and by the next draw of the source, which is
    the first draw when the temperature is null, [nan] or above 5 and the
    second one after a failed Snow test: at least 50 gives Storm when that
    draw is below the float 0.6 and Rain otherwise; at least 25 gives Rain;
    at least 10 gives Rain when the draw is below the float 0.6 and Clear
    otherwise; above 0 gives the element of ["Clear", "Fog"] that the
    residue of the draw modulo 2 selects; 0 or less gives Clear. *)
Theorem weather_condition_cascade (rain_mm temperature_c : pyval)
    (s : rand_state) :
  (fst (Weather.generate_weather_condition rain_mm temperature_c s) = Ok "Snow"
   -> exists t, numeric_value temperature_c = Some t /\ (t <= 5)%Q)
  /\ (forall t, numeric_value temperature_c = Some t -> (t <= 5)%Q ->
      (fst (Weather.generate_weather_condition rain_mm temperature_c s)
       = Ok "Snow" <-> (next_random s < 4 # 10)%Q))
  /\ (forall r, (forall txt, temperature_c <> VStr txt) ->
      numeric_value rain_mm = Some r ->
      exists c,
        fst (Weather.generate_weather_condition rain_mm temperature_c s) = Ok c
        /\ (cold temperature_c -> (next_random s < 4 # 10)%Q -> c = "Snow")
        /\ (cold temperature_c -> (4 # 10 <= next_random s)%Q ->
            precipitation_bucket r
              (raw_at s (Datatypes.S (pos (py_random s)))) c)
        /\ (~ cold temperature_c ->
            precipitation_bucket r (raw_at s (pos (py_random s))) c)).
Proof.
  unfold Weather.generate_weather_condition, next_random,
    precipitation_bucket, raw_at.
  remember (py_float (6 # 10)) as c06 eqn:Hc06; clear Hc06.
  split; [| split].
  - unfold py_le, py_ge, py_gt, py_cmp. run_monad.
    split_cases.
    all: try discriminate.
    all: try (intros _; eexists; split; [reflexivity | bool_to_Q; assumption]).
    all: intros H; inversion H; subst; choice_cases; discriminate.
  - intros t Ht Hcold.
    unfold py_le, py_ge, py_gt, py_cmp. run_monad.
    destruct temperature_c; simpl in Ht; inversion Ht; subst; simpl.
    all: apply Qleb_true in Hcold; rewrite Hcold; simpl.
    all: split_cases; bool_to_Q.
    all: split; intros H; try reflexivity; try assumption; try lra.
    all: try discriminate.
    all: inversion H; subst; choice_cases; discriminate.
  - intros r Htemp Hrain.
    unfold py_le, py_ge, py_gt, py_cmp. run_monad.
    destruct rain_mm; simpl in Hrain; inversion Hrain; subst; simpl.
    all: destruct temperature_c;
      try (exfalso; eapply Htemp; reflexivity); simpl.
    all: split_cases; bool_to_Q.
    all: try (exfalso; choice_cases; fail).
    all: eexists; (split; [reflexivity |]).
    all: cascade_finish.
Qed.

(** ** The defect injectors *)

Lemma maybe_null_run (ratio : Q) (v : pyval) (s : rand_state) :
  exists s',
    maybe_null ratio v s
    = (Ok (if Qltb (next_random s) ratio then VNone else v), s')
    /\ tape (py_random s') = tape (py_random s)
    /\ pos (py_random s') = Datatypes.S (pos (py_random s))
    /\ np_random s' = np_random s.
Proof. eexists. split; [reflexivity |]. simpl. auto. Qed.

Lemma maybe_null_spec (ratio : Q) (v : pyval) :
  returns (maybe_null ratio v) (nulled ratio v).
Proof.
  intros s. destruct (maybe_null_run ratio v s) as (s' & Hrun & _).
  rewrite Hrun; simpl.
  pose proof (unit_float_range (tape (py_random s) (pos (py_random s)))) as [H0 H1].
  fold (next_random s) in H0, H1.
  unfold nulled. destruct (Qltb (next_random s) ratio) eqn:E; bool_to_Q.
  - repeat split; auto. intros; lra.
  - repeat split; auto. intros; lra.
Qed.

Lemma with_outliers_spec (ratio : Q) (v : pyval) (lo hi : Q) :
  returns (with_outliers ratio v lo hi) (perturbed ratio v lo hi).
Proof.
  unfold with_outliers.
  eapply post_bind; [apply returns_random_random |].
  intros u [Hu0 Hu1]. cbv beta.
  destruct (Qltb u ratio) eqn:Eu; bool_to_Q.
  - eapply post_bind; [apply returns_random_random |].
    intros c _. cbv beta.
    assert (Hband : forall o, is_outlier lo hi o -> perturbed ratio v lo hi o).
    { intros o Ho. unfold perturbed. repeat split; auto. intros; lra. }
    destruct (Qltb c (1 # 2)).
    + eapply post_bind; [apply (returns_random_uniform (lo - 25) lo); lra |].
      intros x Hx. apply post_ret. apply Hband. exists x. split; auto.
      left; exact Hx.
    + eapply post_bind; [apply (returns_random_uniform hi (hi + 25)); lra |].
      intros x Hx. apply post_ret. apply Hband. exists x. split; auto.
      right; exact Hx.
  - apply post_ret. unfold perturbed. repeat split; auto. intros; lra.
Qed.

(** A generated value passed through [maybe_null]. *)
Lemma nulled_field {A} (m : M rand_state A) (P : A -> Prop)
    (f : A -> pyval) (nr : Q) :
  returns m P ->
  returns (v <- m ;; maybe_null nr (f v))
          (fun x => exists v, P v /\ nulled nr (f v) x).
Proof.
  intros Hm. eapply post_bind; [exact Hm |].
  intros v Hv. eapply returns_weaken; [apply maybe_null_spec |].
  intros x Hx. exists v. auto.
Qed.

(** A generated value passed through [with_outliers], then [maybe_null]. *)
Lemma injected_field {A} (m : M rand_state A) (P : A -> Prop)
    (f : A -> pyval) (r nr lo hi : Q) :
  returns m P ->
  returns (v <- m ;; o <- with_outliers r (f v) lo hi ;; maybe_null nr o)
          (fun x => exists v o,
               P v /\ perturbed r (f v) lo hi o /\ nulled nr o x).
Proof.
  intros Hm. eapply post_bind; [exact Hm |].
  intros v Hv. eapply post_bind; [apply with_outliers_spec |].
  intros o Ho. eapply returns_weaken; [apply maybe_null_spec |].
  intros x Hx. exists v, o. auto.
Qed.

(** ** Traffic: the field generators *)

Lemma post_trivial {S A} (m : M S A) : post m (fun _ => True) (fun _ => True).
Proof. intros s. destruct (fst (m s)); exact I. Qed.

Lemma py_eq_str_true (v : pyval) (s : string) :
  py_eq_str v s = true <-> v = VStr s.
Proof.
  destruct v; simpl; split; intros H; try discriminate.
  - apply String.eqb_eq in H. congruence.
  - inversion H. apply String.eqb_refl.
Qed.

Lemma py_eq_str_false (v : pyval) (s : string) :
  py_eq_str v s = false <-> v <> VStr s.
Proof.
  rewrite <- py_eq_str_true. destruct (py_eq_str v s); split; congruence.
Qed.

Lemma generate_area_returns : returns Traffic.generate_area (fun _ => True).
Proof.
  eapply returns_weaken; [apply returns_random_choice; discriminate | auto].
Qed.

Lemma randint_returns (a b : Z) :
  a <= b -> returns (random_randint a b) (fun _ => True).
Proof.
  intros H. eapply returns_weaken; [apply returns_random_randint; exact H | auto].
Qed.

Lemma generate_vehicle_count_returns {parser : DateParser} (time_str : pyval) :
  returns (Traffic.generate_vehicle_count time_str) (fun _ => True).
Proof.
  unfold Traffic.generate_vehicle_count.
  eapply post_try; [apply post_trivial |].
  intros e _. apply randint_returns. lia.
Qed.

Lemma generate_road_condition_spec (weather_condition : pyval) :
  returns (Traffic.generate_road_condition weather_condition)
          (road_for weather_condition).
Proof.
  unfold Traffic.generate_road_condition, road_for, py_in_strs. simpl.
  destruct (py_eq_str weather_condition "Snow") eqn:Esnow.
  { apply py_eq_str_true in Esnow. subst. apply post_ret.
    repeat split; intros; try reflexivity; try congruence.
    destruct H; discriminate. }
  apply py_eq_str_false in Esnow.
  destruct (py_eq_str weather_condition "Rain") eqn:Erain; simpl.
  { apply py_eq_str_true in Erain. subst. apply post_ret.
    repeat split; intros; try reflexivity; congruence. }
  apply py_eq_str_false in Erain.
  destruct (py_eq_str weather_condition "Storm") eqn:Estorm; simpl.
  { apply py_eq_str_true in Estorm. subst. apply post_ret.
    repeat split; intros; try reflexivity; congruence. }
  apply py_eq_str_false in Estorm.
  eapply post_bind; [apply returns_random_random |].
  intros u _. cbv beta.
  destruct (Qltb u (5 # 100)); apply post_ret;
    (repeat split; intros; [congruence | destruct H; congruence | auto]).
Qed.

Lemma rounded_uniform_returns (a b : Q) :
  returns (x <- random_uniform a b ;; ret (round2 x)) (fun _ => True).
Proof. intros s; exact I. Qed.

Lemma calculate_avg_speed_returns (vehicle_count wc road : pyval) :
  returns (Traffic.calculate_avg_speed vehicle_count wc road) (fun _ => True).
Proof.
  unfold Traffic.calculate_avg_speed.
  eapply post_bind.
  - eapply post_try; [apply post_trivial |].
    intros e _. apply rounded_uniform_returns.
  - intros base_speed _. intros s; exact I.
Qed.

Lemma generate_accidents_returns (wc level : pyval) :
  returns (Traffic.generate_accidents wc level) (fun _ => True).
Proof.
  unfold Traffic.generate_accidents.
  eapply post_bind; [apply returns_random_random |].
  intros u _. cbv beta.
  match goal with |- context [if ?b then _ else _] => destruct b end.
  - eapply returns_weaken; [apply returns_random_choice; discriminate | auto].
  - apply post_ret; exact I.
Qed.

Lemma get_traffic_visibility_spec (weather_vis : pyval) :
  returns (Traffic.get_traffic_visibility weather_vis)
          (visibility_for weather_vis).
Proof.
  unfold Traffic.get_traffic_visibility.
  eapply post_try with
    (E' := fun _ => match weather_vis with
                    | VInt _ | VFloat _ => False
                    | _ => True
                    end).
  - eapply post_bind;
      [apply returns_post; apply (returns_random_randint (-500) 500); lia |].
    intros noise Hnoise. cbv beta in Hnoise.
    destruct weather_vis as [| b | q | | txt]; simpl.
    + intros st; exact I.
    + intros st; simpl. exists noise. auto.
    + intros st; simpl. exists noise. auto.
    + intros st; exact I.
    + intros st; exact I.
  - intros e He. apply post_ret.
    destruct weather_vis; simpl; try reflexivity; contradiction.
Qed.

(** ** Traffic: one generated row *)

Lemma traffic_row_spec {parser : DateParser} (cfg : Traffic.config) (i : Z)
    (w : Weather.row) :
  returns (Traffic.generate_row cfg i w) (traffic_row_shape cfg i w).
Proof.
  unfold Traffic.generate_row.
  eapply post_bind;
    [apply (nulled_field _ (fun _ => True) VStr), generate_area_returns |].
  intros area (a & _ & Harea).
  eapply post_bind;
    [apply (injected_field _ (fun _ => True) VInt),
       generate_vehicle_count_returns |].
  intros vehicle_count (k & ok & _ & Hk & Hvc).
  eapply post_bind;
    [eapply (nulled_field _ _ VStr); apply generate_road_condition_spec |].
  intros road_condition (c & Hc & Hroad).
  eapply post_bind;
    [apply (injected_field _ (fun _ => True) VFloat),
       calculate_avg_speed_returns |].
  intros avg_speed (sp & osp & _ & Hsp & Hspeed).
  eapply post_bind; [apply maybe_null_spec |].
  intros congestion Hcong.
  eapply post_bind;
    [apply (injected_field _ (fun _ => True) VInt),
       generate_accidents_returns |].
  intros accidents (acc & oacc & _ & Hacc & Haccs).
  eapply post_bind;
    [eapply (injected_field _ _ VInt); apply get_traffic_visibility_spec |].
  intros visibility (v & ov & Hv & Hov & Hvis).
  eapply post_bind; [apply maybe_null_spec |].
  intros traffic_id Hid.
  eapply post_bind; [apply maybe_null_spec |].
  intros city Hcity.
  apply post_ret. unfold traffic_row_shape; simpl.
  repeat match goal with |- _ /\ _ => split end; eauto 6.
Qed.

(** ** Loops, sampling and concatenation *)

Lemma mapM_spec {S A B} (f : A -> M S B) (R : A -> B -> Prop) (l : list A) :
  (forall x, In x l -> returns (f x) (R x)) ->
  returns (mapM f l) (fun ys => Forall2 R l ys).
Proof.
  induction l as [| x xs IH]; intros Hf; simpl.
  - apply post_ret. constructor.
  - eapply post_bind; [apply Hf; left; reflexivity |].
    intros y Hy.
    eapply post_bind; [apply IH; intros x' Hx'; apply Hf; right; exact Hx' |].
    intros ys Hys. apply post_ret. constructor; assumption.
Qed.

Lemma Forall2_nth_error_l {A B} (R : A -> B -> Prop) l l' k x :
  Forall2 R l l' -> nth_error l k = Some x ->
  exists y, nth_error l' k = Some y /\ R x y.
Proof.
  intros H. revert k. induction H as [| a b l l' Hab H IH]; intros k Hk.
  - destruct k; discriminate.
  - destruct k as [| k]; simpl in *.
    + inversion Hk; subst. eauto.
    + apply IH; exact Hk.
Qed.

Lemma py_range_length (n : Z) : List.length (py_range n) = Z.to_nat n.
Proof. unfold py_range. rewrite length_map, length_seq. reflexivity. Qed.

Lemma py_range_nth (n : Z) (k : nat) :
  (k < Z.to_nat n)%nat -> nth_error (py_range n) k = Some (Z.of_nat k).
Proof.
  intros Hk. unfold py_range.
  rewrite nth_error_map, nth_error_seq.
  destruct (Nat.ltb_spec k (Z.to_nat n)); [reflexivity | lia].
Qed.

Lemma py_range_In (n i : Z) :
  In i (py_range n) -> exists k, i = Z.of_nat k /\ (k < Z.to_nat n)%nat.
Proof.
  unfold py_range. rewrite in_map_iff. intros (k & Hk & Hin).
  apply in_seq in Hin. exists k. split; [symmetry; exact Hk | lia].
Qed.

Lemma set_nth_length {A} (l : list A) i a :
  List.length (set_nth l i a) = List.length l.
Proof.
  revert i; induction l as [| x xs IH]; intros [| i]; simpl; auto.
Qed.

Lemma set_nth_Forall {A} (P : A -> Prop) (l : list A) i a :
  Forall P l -> P a -> Forall P (set_nth l i a).
Proof.
  intros Hl Ha. revert i.
  induction Hl as [| x xs Hx Hxs IH]; intros [| i]; simpl; auto.
Qed.

Lemma swap_length {A} (l : list A) i j :
  List.length (swap l i j) = List.length l.
Proof.
  unfold swap. destruct (nth_error l i); [| reflexivity].
  destruct (nth_error l j); [| reflexivity].
  rewrite !set_nth_length. reflexivity.
Qed.

Lemma swap_Forall {A} (P : A -> Prop) (l : list A) i j :
  Forall P l -> Forall P (swap l i j).
Proof.
  intros Hl. unfold swap.
  destruct (nth_error l i) as [a |] eqn:Ei; [| exact Hl].
  destruct (nth_error l j) as [b |] eqn:Ej; [| exact Hl].
  rewrite Forall_forall in Hl.
  apply set_nth_Forall; [apply set_nth_Forall |].
  - apply Forall_forall; exact Hl.
  - apply Hl. eapply nth_error_In; eauto.
  - apply Hl. eapply nth_error_In; eauto.
Qed.

Lemma np_shuffle_spec (P : nat -> Prop) (i : nat) (x : list nat) :
  Forall P x ->
  returns (np_shuffle i x)
          (fun p => List.length p = List.length x /\ Forall P p).
Proof.
  revert x. induction i as [| i IH]; intros x Hx; simpl.
  - apply post_ret. auto.
  - eapply (post_bind _ _ (fun _ => True)); [intros s; exact I |].
    intros r _.
    eapply returns_weaken; [apply IH; apply swap_Forall; exact Hx |].
    intros p [Hlen Hp]. rewrite swap_length in Hlen. auto.
Qed.

Lemma np_permutation_spec (n : nat) :
  returns (np_permutation n)
          (fun p => List.length p = n /\ Forall (fun j => (j < n)%nat) p).
Proof.
  unfold np_permutation.
  eapply returns_weaken.
  - apply (np_shuffle_spec (fun j => (j < n)%nat)).
    apply Forall_forall. intros j Hj. apply in_seq in Hj. lia.
  - intros p [Hlen Hp]. rewrite length_seq in Hlen. auto.
Qed.

Lemma take_rows_spec {A} (df : list A) (idxs : list nat) :
  Forall (fun j => (j < List.length df)%nat) idxs ->
  exists rs, take_rows df idxs = Ok rs
             /\ List.length rs = List.length idxs
             /\ incl rs df.
Proof.
  induction 1 as [| j idxs Hj Hidxs IH]; simpl.
  - exists []. repeat split. intros r [].
  - destruct IH as (rs & Hrs & Hlen & Hincl).
    destruct (nth_error df j) as [r |] eqn:Hnth.
    + rewrite Hrs. exists (r :: rs). repeat split; simpl; [lia |].
      intros r' [<- | Hr']; [eapply nth_error_In; eauto | auto].
    + apply nth_error_None in Hnth. lia.
Qed.

Lemma firstn_incl {A} (n : nat) (l : list A) : incl (firstn n l) l.
Proof.
  intros x Hx. rewrite <- (firstn_skipn n l). apply in_or_app. left; exact Hx.
Qed.

Lemma df_sample_spec {A} (df : list A) (n : Z) :
  0 <= n <= Z.of_nat (List.length df) ->
  returns (df_sample df n)
          (fun d => List.length d = Z.to_nat n /\ incl d df).
Proof.
  intros Hn. unfold df_sample.
  destruct (n <? 0) eqn:Hneg; [apply Z.ltb_lt in Hneg; lia |].
  destruct (Z.of_nat (List.length df) <? n) eqn:Hbig;
    [apply Z.ltb_lt in Hbig; lia |].
  eapply post_bind; [apply np_permutation_spec |].
  intros perm [Hlen Hperm]. apply post_lift.
  destruct (take_rows_spec df (firstn (Z.to_nat n) perm)) as (rs & -> & Hl & Hi).
  - apply Forall_forall. intros j Hj. apply firstn_incl in Hj.
    rewrite Forall_forall in Hperm. apply Hperm; exact Hj.
  - split; [| exact Hi]. rewrite Hl, length_firstn. lia.
Qed.

(** [df.sample(n)] fails when [n] is negative or exceeds the frame. *)
Lemma df_sample_raises {A} (df : list A) (n : Z) (s : rand_state) :
  n < 0 \/ Z.of_nat (List.length df) < n ->
  exists msg, fst (df_sample df n s) = Raise (ValueError msg).
Proof.
  intros H. unfold df_sample.
  destruct (n <? 0) eqn:Hneg; [eexists; reflexivity |].
  destruct (Z.of_nat (List.length df) <? n) eqn:Hbig; [eexists; reflexivity |].
  apply Z.ltb_ge in Hneg, Hbig. lia.
Qed.

(** ** Timestamps in range *)

Lemma plus_hours_in_range (i : Z) :
  0 <= i < max_rows ->
  plus_hours base (2 * i) = Ok (add_hours base (2 * i)).
Proof.
  intros Hi. unfold plus_hours, add_hours. cbv zeta.
  change datetime_min with (-1035593280) in *.
  change datetime_max with 4223371679 in *.
  change base with 28401120 in *. unfold max_rows in Hi.
  destruct (-1035593280 <=? 28401120 + 60 * (2 * i)) eqn:E1;
    [| apply Z.leb_gt in E1; lia].
  destruct (28401120 + 60 * (2 * i) <=? 4223371679) eqn:E2;
    [reflexivity | apply Z.leb_gt in E2; lia].
Qed.

Lemma plus_hours_overflow (i : Z) :
  max_rows <= i -> plus_hours base (2 * i) = Raise OverflowError.
Proof.
  intros Hi. unfold plus_hours, add_hours. cbv zeta.
  change datetime_min with (-1035593280) in *.
  change datetime_max with 4223371679 in *.
  change base with 28401120 in *. unfold max_rows in Hi.
  destruct (28401120 + 60 * (2 * i) <=? 4223371679) eqn:E2;
    [apply Z.leb_le in E2; lia |].
  rewrite andb_false_r. reflexivity.
Qed.

Lemma bind_lift_ok {S A B} (a : A) (k : A -> M S B) :
  bind (lift (Ok a)) k = k a.
Proof. reflexivity. Qed.

Lemma bind_lift_raise {S A B} (e : pyexn) (k : A -> M S B) :
  bind (lift (Raise e)) k = raise e.
Proof. reflexivity. Qed.

(** ** Weather: the field generators never raise on the values the loop
    passes them *)

Lemma perturbed_num (r : Q) (v : pyval) (lo hi : Q) (o : pyval) :
  perturbed r v lo hi o -> num_or_null v -> num_or_null o.
Proof.
  intros [[-> | (x & -> & _)] _] Hv; [exact Hv | exact I].
Qed.

Lemma nulled_num (nr : Q) (v x : pyval) :
  nulled nr v x -> num_or_null v -> num_or_null x.
Proof.
  intros [[-> | ->] _] Hv; [exact I | exact Hv].
Qed.

Lemma generate_datetime_returns (cfg : Weather.config) (index : Z) :
  0 <= index < max_rows ->
  returns (Weather.generate_datetime cfg index) (fun _ => True).
Proof.
  intros Hi. unfold Weather.generate_datetime.
  eapply post_bind; [apply returns_random_random |].
  intros u _. cbv beta.
  rewrite (plus_hours_in_range index Hi), bind_lift_ok.
  destruct (Qltb u (Weather.bad_format_ratio cfg));
    (eapply returns_weaken; [apply returns_random_choice; discriminate | auto]).
Qed.

Lemma get_season_returns {parser : DateParser} (dt_str : pyval) :
  returns (Weather.get_season dt_str) (fun _ => True).
Proof.
  unfold Weather.get_season.
  eapply post_try; [apply post_trivial |].
  intros e _. apply post_ret. exact I.
Qed.

Lemma temperature_by_season_returns (season : pyval) :
  returns (Weather.temperature_by_season season) (fun _ => True).
Proof.
  unfold Weather.temperature_by_season.
  destruct (Weather.dict_get _ season (0, 30)) as [low high].
  apply rounded_uniform_returns.
Qed.

Lemma generate_humidity_returns (season : pyval) :
  returns (Weather.generate_humidity season) (fun _ => True).
Proof.
  unfold Weather.generate_humidity, Weather.dict_get.
  repeat match goal with
         | |- context [if ?b then _ else _] => destruct b
         end; apply randint_returns; lia.
Qed.

Lemma generate_rain_returns (humidity : pyval) :
  num_or_null humidity ->
  returns (Weather.generate_rain humidity) (fun _ => True).
Proof.
  intros Hnum s. unfold Weather.generate_rain, py_lt, py_cmp.
  destruct humidity; try contradiction; run_monad; split_cases; exact I.
Qed.

Lemma generate_weather_condition_returns (rain_mm temperature_c : pyval) :
  num_or_null rain_mm -> num_or_null temperature_c ->
  returns (Weather.generate_weather_condition rain_mm temperature_c)
          (fun _ => True).
Proof.
  intros Hr Ht s.
  unfold Weather.generate_weather_condition, py_le, py_ge, py_gt, py_cmp.
  destruct temperature_c; try contradiction;
    destruct rain_mm; try contradiction; run_monad; split_cases;
    try exact I; choice_cases.
Qed.

Lemma generate_wind_speed_returns (weather_condition : pyval) :
  returns (Weather.generate_wind_speed weather_condition) (fun _ => True).
Proof.
  intros s. unfold Weather.generate_wind_speed.
  run_monad; split_cases; exact I.
Qed.

Lemma generate_visibility_returns (weather_condition : pyval) :
  returns (Weather.generate_visibility weather_condition) (fun _ => True).
Proof.
  intros s. unfold Weather.generate_visibility.
  run_monad; split_cases; try exact I; choice_cases.
Qed.

Lemma generate_air_pressure_returns (weather_condition temperature_c : pyval) :
  num_or_null temperature_c ->
  returns (Weather.generate_air_pressure weather_condition temperature_c)
          (fun _ => True).
Proof.
  intros Ht s. unfold Weather.generate_air_pressure, py_gt, py_lt, py_cmp.
  destruct temperature_c; try contradiction; run_monad; split_cases; exact I.
Qed.

(** ** Weather: one generated row *)

Lemma weather_row_returns {parser : DateParser} (cfg : Weather.config)
    (i : Z) :
  0 <= i < max_rows ->
  returns (Weather.generate_row cfg i) (fun _ => True).
Proof.
  intros Hi. unfold Weather.generate_row.
  eapply post_bind;
    [apply (nulled_field _ (fun _ => True) VStr), generate_datetime_returns;
     exact Hi |].
  intros date_time _.
  eapply post_bind;
    [apply (nulled_field _ (fun _ => True) (fun v => v)), get_season_returns |].
  intros season _.
  eapply post_bind;
    [apply (injected_field _ (fun _ => True) VFloat),
       temperature_by_season_returns |].
  intros temperature_c (t & ot & _ & Hot & Htemp).
  assert (Htnum : num_or_null temperature_c).
  { eapply nulled_num; [exact Htemp |]. eapply perturbed_num; [exact Hot |]. exact I. }
  eapply post_bind;
    [apply (injected_field _ (fun _ => True) VInt),
       generate_humidity_returns |].
  intros humidity (h & oh & _ & Hoh & Hhum).
  assert (Hhnum : num_or_null humidity).
  { eapply nulled_num; [exact Hhum |]. eapply perturbed_num; [exact Hoh |]. exact I. }
  eapply post_bind;
    [apply (injected_field _ (fun _ => True) VFloat),
       generate_rain_returns; exact Hhnum |].
  intros rain_mm (r & orn & _ & Horn & Hrain).
  assert (Hrnum : num_or_null rain_mm).
  { eapply nulled_num; [exact Hrain |]. eapply perturbed_num; [exact Horn |]. exact I. }
  eapply post_bind;
    [apply (nulled_field _ (fun _ => True) VStr),
       generate_weather_condition_returns; assumption |].
  intros weather_condition _.
  eapply post_bind;
    [apply (injected_field _ (fun _ => True) VFloat),
       generate_wind_speed_returns |].
  intros wind _.
  eapply post_bind;
    [apply (injected_field _ (fun _ => True) (fun v => v)),
       generate_visibility_returns |].
  intros visibility _.
  eapply post_bind;
    [apply (injected_field _ (fun _ => True) VFloat),
       generate_air_pressure_returns; exact Htnum |].
  intros pressure _.
  eapply post_bind; [apply maybe_null_spec |].
  intros weather_id _.
  eapply post_bind; [apply maybe_null_spec |].
  intros city _.
  apply post_ret. exact I.
Qed.

(** ** The generated tables *)

Lemma seeded_run {seeding : Seeding} {A} (np_seed py_seed : Z)
    (m : M rand_state A) (s : rand_state) :
  (np_random_seed np_seed ;;; random_seed py_seed ;;; m) s
  = m {| py_random := {| tape := py_seed_tape py_seed; pos := 0 |};
         np_random := {| tape := np_seed_tape np_seed; pos := 0 |} |}.
Proof. reflexivity. Qed.

Lemma seeded_returns {seeding : Seeding} {A} (np_seed py_seed : Z)
    (m : M rand_state A) (P : A -> Prop) :
  returns m P ->
  returns (np_random_seed np_seed ;;; random_seed py_seed ;;; m) P.
Proof. intros Hm s. rewrite seeded_run. apply Hm. Qed.

Lemma Qtrunc_floor (q : Q) : (0 <= q)%Q -> Qtrunc q = Qfloor q.
Proof.
  destruct q as [n d]. unfold Qle, Qtrunc, Qfloor; simpl. intros H.
  apply Z.quot_div_nonneg; lia.
Qed.

(** ** Rounding to an integer *)

Lemma round_half_even_floor (q : Q) :
  Qfloor q <= round_half_even q <= Qfloor q + 1.
Proof.
  unfold round_half_even.
  destruct (Qcompare _ _); try destruct (Z.even _); lia.
Qed.

Lemma round_half_even_ge (z : Z) (q : Q) :
  (inject_Z z <= q)%Q -> z <= round_half_even q.
Proof.
  intros H. apply Qfloor_resp_le in H. rewrite Qfloor_Z in H.
  pose proof (round_half_even_floor q). lia.
Qed.

Lemma round_half_even_up (q : Q) :
  round_half_even q = Qfloor q + 1 -> (inject_Z (Qfloor q) < q)%Q.
Proof.
  unfold round_half_even. intros H.
  destruct (Qcompare (q - inject_Z (Qfloor q)) (1 # 2)) eqn:E.
  - apply Qeq_alt in E. lra.
  - lia.
  - apply Qgt_alt in E. lra.
Qed.

Lemma round_half_even_le (z : Z) (q : Q) :
  (q <= inject_Z z)%Q -> round_half_even q <= z.
Proof.
  intros H. pose proof (round_half_even_floor q) as [Hlo Hhi].
  assert (Hf : Qfloor q <= z).
  { apply Qfloor_resp_le in H. rewrite Qfloor_Z in H. exact H. }
  destruct (Z.eq_dec (round_half_even q) (Qfloor q + 1)) as [Hup | Hdown];
    [| lia].
  apply round_half_even_up in Hup.
  assert (Hlt : (inject_Z (Qfloor q) < inject_Z z)%Q) by lra.
  rewrite <- Zlt_Qlt in Hlt. lia.
Qed.

(** ** Binary64 rounding *)

Lemma Qpow2_pos (e : Z) : (0 < 2 ^ e)%Q.
Proof. apply Qpower_0_lt. reflexivity. Qed.

Lemma Qpow2_Z (e : Z) : 0 <= e -> (2 ^ e == inject_Z (2 ^ e))%Q.
Proof. intros H. rewrite Zpower_Qpower by exact H. reflexivity. Qed.

Lemma Qpow2_neg (e : Z) : e <= 0 -> (2 ^ e * inject_Z (2 ^ (- e)) == 1)%Q.
Proof.
  intros H. rewrite <- Qpow2_Z by lia.
  rewrite <- Qpower_plus by discriminate.
  replace (e + - e) with 0 by lia. reflexivity.
Qed.

Lemma Qlog2_lower (a : Q) : (0 < a)%Q -> (2 ^ Qlog2 a <= a)%Q.
Proof.
  intros Ha. unfold Qlog2.
  set (e := Z.log2 (Qnum a) - Z.log2 (Z.pos (Qden a))).
  destruct (Qle_bool (2 ^ e) a) eqn:E; [apply Qle_bool_iff; exact E |].
  destruct a as [n d]. cbn [Qnum Qden] in *.
  assert (Hn : 0 < n) by (unfold Qlt in Ha; simpl in Ha; lia).
  pose proof (Z.log2_spec n Hn) as [Hn1 _].
  pose proof (Z.log2_spec (Z.pos d) ltac:(lia)) as [_ Hd2].
  pose proof (Z.log2_nonneg n) as Hln.
  pose proof (Z.log2_nonneg (Z.pos d)) as Hld.
  replace (e - 1) with (Z.log2 n - Z.succ (Z.log2 (Z.pos d))) by (subst e; lia).
  rewrite Qpower_minus by discriminate.
  rewrite !Qpow2_Z by lia.
  set (A := 2 ^ Z.log2 n) in *. set (B := 2 ^ Z.succ (Z.log2 (Z.pos d))) in *.
  assert (HB : 0 < B) by lia.
  apply Qle_shift_div_r; [rewrite <- (Zlt_Qlt 0); exact HB |].
  unfold Qle; simpl. rewrite Z.mul_1_r. nia.
Qed.

Lemma Qlog2_small (a : Q) (k : Z) :
  (0 < a)%Q -> (a < 2 ^ k)%Q -> Qlog2 a < k.
Proof.
  intros Ha Hk. pose proof (Qlog2_lower a Ha) as Hl.
  destruct (Z_lt_le_dec (Qlog2 a) k) as [H | H]; [exact H |].
  exfalso. apply (Qpower_le_compat_l 2) in H; [| discriminate]. lra.
Qed.

Lemma Qabs_id (q : Q) : (0 <= q)%Q -> Qabs q = q.
Proof.
  destruct q as [n d]. unfold Qle, Qabs; simpl. intros H.
  rewrite Z.abs_eq by lia. reflexivity.
Qed.

(** The rounding of a positive number, with its unit in the last place. *)
Lemma double_round_unfold (p : Q) :
  (0 < p)%Q ->
  double_round p
  = let u := Z.max (Qlog2 p - 52) (-1074) in
    let r := (inject_Z (round_half_even (p / 2 ^ u)) * 2 ^ u)%Q in
    if Qle_bool (2 ^ 1024) r then None else Some (Qred r).
Proof.
  intros Hp. unfold double_round.
  destruct (Qeq_bool p 0) eqn:E0.
  { apply Qeq_bool_iff in E0. lra. }
  rewrite (Qabs_id p) by lra.
  assert (H0 : Qle_bool 0 p = true) by (apply Qle_bool_iff; lra).
  rewrite H0. reflexivity.
Qed.

Lemma double_round_pos (p r : Q) :
  (0 < p)%Q -> double_round p = Some r ->
  let u := Z.max (Qlog2 p - 52) (-1074) in
  (r == inject_Z (round_half_even (p / 2 ^ u)) * 2 ^ u)%Q.
Proof.
  intros Hp. rewrite (double_round_unfold p Hp). cbv zeta.
  destruct (Qle_bool (2 ^ 1024) _); [discriminate |].
  match goal with
  | |- Some (Qred ?x) = Some r -> _ =>
      intros H; assert (Hr : r = Qred x) by congruence;
      rewrite Hr; apply Qred_correct
  end.
Qed.

Lemma round_half_even_exact (z : Z) (q : Q) :
  (q == inject_Z z)%Q -> round_half_even q = z.
Proof.
  intros H.
  assert (H1 : z <= round_half_even q) by (apply round_half_even_ge; lra).
  assert (H2 : round_half_even q <= z) by (apply round_half_even_le; lra).
  lia.
Qed.

(** Scaling by a power of two with a non-positive exponent. *)
Lemma scaled_int (z u : Z) (q : Q) :
  u <= 0 -> (inject_Z z <= q)%Q ->
  (inject_Z (z * 2 ^ (- u)) <= q / 2 ^ u)%Q.
Proof.
  intros Hu H. pose proof (Qpow2_pos u) as Hpos.
  apply Qle_shift_div_l; [exact Hpos |].
  rewrite inject_Z_mult, <- Qmult_assoc, (Qmult_comm (inject_Z (2 ^ (- u)))).
  rewrite Qpow2_neg by exact Hu. lra.
Qed.

Lemma scaled_int_up (z u : Z) (q : Q) :
  u <= 0 -> (q <= inject_Z z)%Q ->
  (q / 2 ^ u <= inject_Z (z * 2 ^ (- u)))%Q.
Proof.
  intros Hu H. pose proof (Qpow2_pos u) as Hpos.
  apply Qle_shift_div_r; [exact Hpos |].
  rewrite inject_Z_mult, <- Qmult_assoc, (Qmult_comm (inject_Z (2 ^ (- u)))).
  rewrite Qpow2_neg by exact Hu. lra.
Qed.

(** Rounding never crosses an integer when the unit in the last place is at
    most 1. *)
Lemma double_round_between (p r : Q) (lo hi : Z) :
  (0 < p)%Q -> double_round p = Some r ->
  Z.max (Qlog2 p - 52) (-1074) <= 0 ->
  (inject_Z lo <= p)%Q -> (p <= inject_Z hi)%Q ->
  (inject_Z lo <= r)%Q /\ (r <= inject_Z hi)%Q.
Proof.
  intros Hp Hr Hu Hlo Hhi.
  pose proof (double_round_pos p r Hp Hr) as Heq. cbv zeta in Heq.
  set (u := Z.max (Qlog2 p - 52) (-1074)) in *.
  pose proof (Qpow2_pos u) as Hpos.
  pose proof (Qpow2_neg u Hu) as Hinv.
  pose proof (round_half_even_ge _ _ (scaled_int lo u p Hu Hlo)) as H1.
  pose proof (round_half_even_le _ _ (scaled_int_up hi u p Hu Hhi)) as H2.
  set (m := round_half_even (p / 2 ^ u)) in *.
  rewrite Zle_Qle in H1, H2. rewrite !inject_Z_mult in H1, H2.
  set (w := inject_Z (2 ^ (- u))) in *. set (t := (2 ^ u)%Q) in *.
  assert (Hw : (0 < w)%Q).
  { destruct (Qlt_le_dec 0 w) as [H | H]; [exact H |]. exfalso. nra. }
  rewrite Heq. split.
  - assert (H : (inject_Z lo * w * t <= inject_Z m * t)%Q).
    { apply Qmult_le_compat_r; lra. }
    setoid_replace (inject_Z lo * w * t)%Q with (inject_Z lo * (t * w))%Q
      in H by ring.
    rewrite Hinv in H. lra.
  - assert (H : (inject_Z m * t <= inject_Z hi * w * t)%Q).
    { apply Qmult_le_compat_r; lra. }
    setoid_replace (inject_Z hi * w * t)%Q with (inject_Z hi * (t * w))%Q
      in H by ring.
    rewrite Hinv in H. lra.
Qed.

(** When the unit in the last place exceeds 1 the rounded value is at least
    [2^53]. *)
Lemma double_round_large (p r : Q) :
  (0 < p)%Q -> double_round p = Some r ->
  1 <= Z.max (Qlog2 p - 52) (-1074) ->
  (inject_Z (2 ^ 53) <= r)%Q.
Proof.
  intros Hp Hr Hu.
  pose proof (double_round_pos p r Hp Hr) as Heq. cbv zeta in Heq.
  assert (Hmax : Z.max (Qlog2 p - 52) (-1074) = Qlog2 p - 52) by lia.
  rewrite Hmax in *. set (u := Qlog2 p - 52) in *.
  pose proof (Qpow2_pos u) as Hpos.
  assert (Hm : 2 ^ 52 <= round_half_even (p / 2 ^ u)).
  { apply round_half_even_ge. apply Qle_shift_div_l; [exact Hpos |].
    rewrite <- Qpow2_Z by lia. rewrite <- Qpower_plus by discriminate.
    replace (52 + u) with (Qlog2 p) by (subst u; lia).
    apply Qlog2_lower; exact Hp. }
  rewrite Heq. set (m := round_half_even (p / 2 ^ u)) in *.
  assert (H2 : (2 ^ 1 <= 2 ^ u)%Q)
    by (apply Qpower_le_compat_l; [lia | discriminate]).
  change (2 ^ 1)%Q with 2%Q in H2.
  rewrite Zle_Qle in Hm.
  change (inject_Z (2 ^ 53)) with (inject_Z (2 ^ 52) * 2)%Q.
  assert (H0 : (0 <= inject_Z (2 ^ 52))%Q) by (unfold Qle; simpl; lia).
  nra.
Qed.

Lemma Qred_inject_Z (n : Z) (q : Q) : (q == inject_Z n)%Q -> Qred q = inject_Z n.
Proof.
  intros H. rewrite (Qred_complete _ _ H).
  unfold Qred, inject_Z. simpl.
  pose proof (Z.ggcd_gcd n 1) as Hg. pose proof (Z.ggcd_correct_divisors n 1) as Hd.
  destruct (Z.ggcd n 1) as [g [a b]]. simpl in *.
  rewrite Z.gcd_1_r in Hg. subst g. destruct Hd as [Ha Hb].
  rewrite Z.mul_1_l in Ha, Hb. rewrite <- Ha, <- Hb. reflexivity.
Qed.

(** Integers below [2^53] are binary64 values. *)
Lemma double_round_int (n : Z) :
  0 <= n < 2 ^ 53 -> double_round (inject_Z n) = Some (inject_Z n).
Proof.
  intros Hn. destruct (Z.eq_dec n 0) as [-> | Hne]; [reflexivity |].
  assert (Hp : (0 < inject_Z n)%Q) by (rewrite <- (Zlt_Qlt 0); lia).
  assert (Hu : Z.max (Qlog2 (inject_Z n) - 52) (-1074) <= 0).
  { assert (Qlog2 (inject_Z n) < 53); [| lia].
    apply Qlog2_small; [exact Hp |]. rewrite Qpow2_Z by lia.
    rewrite <- Zlt_Qlt. lia. }
  rewrite (double_round_unfold _ Hp). cbv zeta.
  set (u := Z.max (Qlog2 (inject_Z n) - 52) (-1074)) in *.
  assert (Hm : round_half_even (inject_Z n / 2 ^ u) = n * 2 ^ (- u)).
  { pose proof (round_half_even_ge _ _
                  (scaled_int n u (inject_Z n) Hu ltac:(lra))).
    pose proof (round_half_even_le _ _
                  (scaled_int_up n u (inject_Z n) Hu ltac:(lra))).
    lia. }
  rewrite Hm.
  assert (Hr : (inject_Z (n * 2 ^ (- u)) * 2 ^ u == inject_Z n)%Q).
  { rewrite inject_Z_mult, <- Qmult_assoc,
      (Qmult_comm (inject_Z (2 ^ (- u)))), (Qpow2_neg u Hu). ring. }
  destruct (Qle_bool (2 ^ 1024) _) eqn:E.
  - exfalso. apply Qle_bool_iff in E. rewrite Hr in E.
    assert (H53 : (inject_Z n < 2 ^ 53)%Q).
    { rewrite Qpow2_Z by lia. rewrite <- Zlt_Qlt. lia. }
    assert (Hle : (2 ^ 53 <= 2 ^ 1024)%Q)
      by (apply Qpower_le_compat_l; [lia | discriminate]).
    lra.
  - f_equal. apply Qred_inject_Z. exact Hr.
Qed.

(** The integer part of a rounded non-negative number is the floor of the
    number or one more, as long as it stays below [2^53]. *)
Lemma double_round_trunc (p r : Q) :
  (0 <= p)%Q -> double_round p = Some r -> Qtrunc r < 2 ^ 53 ->
  Qfloor p <= Qtrunc r <= Qfloor p + 1.
Proof.
  intros Hp Hr Hk.
  destruct (Qeq_bool p 0) eqn:E0.
  { unfold double_round in Hr. rewrite E0 in Hr. inversion Hr; subst r.
    apply Qeq_bool_iff in E0. rewrite E0. vm_compute. split; discriminate. }
  assert (Hpos : (0 < p)%Q).
  { apply Qeq_bool_neq in E0. lra. }
  assert (Hfl : (inject_Z (Qfloor p) <= p)%Q) by apply Qfloor_le.
  assert (Hfu : (p <= inject_Z (Qfloor p + 1))%Q)
    by (apply Qlt_le_weak, Qlt_floor).
  destruct (Z_le_gt_dec (Z.max (Qlog2 p - 52) (-1074)) 0) as [Hu | Hu].
  - destruct (double_round_between p r _ _ Hpos Hr Hu Hfl Hfu) as [H1 H2].
    assert (H0 : (0 <= r)%Q).
    { assert (0 <= Qfloor p).
      { apply Qfloor_resp_le in Hp. exact Hp. }
      assert ((0 <= inject_Z (Qfloor p))%Q) by (rewrite <- (Zle_Qle 0); lia).
      lra. }
    rewrite (Qtrunc_floor r H0).
    apply Qfloor_resp_le in H1, H2. rewrite Qfloor_Z in H1, H2. lia.
  - exfalso.
    pose proof (double_round_large p r Hpos Hr ltac:(lia)) as Hbig.
    assert (H0 : (0 <= r)%Q).
    { assert ((0 <= inject_Z (2 ^ 53))%Q) by (unfold Qle; simpl; lia). lra. }
    rewrite (Qtrunc_floor r H0) in Hk.
    apply Qfloor_resp_le in Hbig. rewrite Qfloor_Z in Hbig. lia.
Qed.

Lemma float_of_int_exact (n : Z) :
  0 <= n < 2 ^ 53 -> float_of_int n = Ok (inject_Z n).
Proof.
  intros Hn. unfold float_of_int. rewrite (double_round_int n Hn).
  reflexivity.
Qed.

(** The duplicate count against the exact product: the float product can
    round up to the next integer, never further. *)
Lemma dup_count_near_floor (n : Z) (d : Q) (k : Z) :
  0 <= n < 2 ^ 53 -> (0 <= d)%Q -> dup_count n d = Ok k -> k < 2 ^ 53 ->
  Qfloor (inject_Z n * d) <= k <= Qfloor (inject_Z n * d) + 1.
Proof.
  intros Hn Hd Hk Hsmall. unfold dup_count in Hk.
  rewrite (float_of_int_exact n Hn) in Hk.
  destruct (double_round (inject_Z n * d)) as [r |] eqn:Hr; [| discriminate].
  inversion Hk; subst k.
  apply double_round_trunc; [| exact Hr | exact Hsmall].
  apply Qmult_le_0_compat; [| exact Hd].
  rewrite <- (Zle_Qle 0). lia.
Qed.

(** Where the float product and the exact product part: [100 * 0.29] is
    28.999999999999996 and [10 * 0.3] is 3.0.  For the default ratio the
    float 0.05 and the decimal give the same tail. *)
Lemma tail_of_float_product :
  dup_count 100 (py_float (29 # 100)) = Ok 28
  /\ Qfloor (100 * (29 # 100)) = 29
  /\ dup_count 10 (py_float (3 # 10)) = Ok 3
  /\ Qfloor (10 * py_float (3 # 10)) = 2
  /\ dup_count 5000 (py_float (5 # 100)) = Ok 250
  /\ dup_count 5000 (5 # 100) = Ok 250.
Proof. repeat split; vm_compute; reflexivity. Qed.

(** ** Decimal literals against the draws *)

Lemma draw_numerator (raw : N) :
  exists k, 0 <= k < 9007199254740992
            /\ unit_float raw = (k # 9007199254740992)%Q.
Proof.
  exists (Z.of_N (raw mod two53)). split; [| reflexivity].
  assert (H : (raw mod two53 < two53)%N) by (apply N.mod_lt; discriminate).
  set (r := (raw mod two53)%N) in *. unfold two53 in H. lia.
Qed.

Ltac threshold_agrees :=
  match goal with
  | |- context [py_float ?q] =>
      let v := eval vm_compute in (py_float q) in
      change (py_float q) with v
  end;
  unfold Qltb, Qle_bool, Qplus; cbn [Qnum Qden];
  repeat match goal with
         | |- context [?a <=? ?b] => destruct (Z.leb_spec a b)
         end;
  try reflexivity; exfalso; lia.

Lemma decimal_thresholds_agree (raw : N) :
  let u := unit_float raw in
  Qltb u (3 # 100) = Qltb u (py_float (3 # 100))
  /\ Qltb u (5 # 100) = Qltb u (py_float (5 # 100))
  /\ Qltb u (15 # 100) = Qltb u (py_float (15 # 100))
  /\ Qltb u (2 # 10) = Qltb u (py_float (2 # 10))
  /\ Qltb u (4 # 10) = Qltb u (py_float (4 # 10))
  /\ Qltb (3 # 10) u = Qltb (py_float (3 # 10)) u
  /\ Qltb u (1 # 10) = Qltb u (py_float (1 # 10))
  /\ Qltb u (1 # 100) = Qltb u (py_float (1 # 100))
  /\ Qltb u ((5 # 100) + (15 # 100))
     = Qltb u (py_float (py_float (5 # 100) + py_float (15 # 100)))
  /\ Qltb u ((5 # 100) + (10 # 100))
     = Qltb u (py_float (py_float (5 # 100) + py_float (10 # 100)))
  /\ Qltb u ((5 # 100) + (15 # 100) + (10 # 100))
     = Qltb u (py_float (py_float (py_float (5 # 100) + py_float (15 # 100))
                         + py_float (10 # 100))).
Proof.
  cbv zeta. destruct (draw_numerator raw) as (k & Hk & ->).
  repeat match goal with |- _ /\ _ => split end; threshold_agrees.
Qed.

Lemma float_0_6 : py_float (6 # 10) = (5404319552844595 # 9007199254740992)%Q.
Proof. vm_compute. reflexivity. Qed.

Lemma decimal_0_6_differs :
  Qltb (unit_float 5404319552844595) (6 # 10) = true
  /\ Qltb (unit_float 5404319552844595) (py_float (6 # 10)) = false.
Proof. split; vm_compute; reflexivity. Qed.

Lemma py_range_bounds (n i : Z) : In i (py_range n) -> 0 <= i < n.
Proof.
  intros Hi. apply py_range_In in Hi. destruct Hi as (k & -> & Hk). lia.
Qed.

(** The generated weather rows, before the duplicate tail. *)
Lemma weather_rows_returns {parser : DateParser} (cfg : Weather.config) :
  Weather.n_rows cfg <= max_rows ->
  returns (mapM (Weather.generate_row cfg) (py_range (Weather.n_rows cfg)))
    (fun rows => List.length rows = Z.to_nat (Weather.n_rows cfg)).
Proof.
  intros Hmax. eapply returns_weaken.
  - apply (mapM_spec _ (fun _ _ => True)).
    intros i Hi. apply py_range_bounds in Hi.
    apply weather_row_returns. lia.
  - intros rows Hrows. apply Forall2_length in Hrows.
    rewrite py_range_length in Hrows. lia.
Qed.

(** The weather table: [n_rows] generated rows, then the sampled rows. *)
Lemma weather_dataset_spec {seeding : Seeding} {parser : DateParser}
    (cfg : Weather.config) :
  Weather.n_rows cfg <= max_rows ->
  tail_fits (Weather.n_rows cfg) (Weather.duplicate_ratio cfg)
    (Weather.n_rows cfg) ->
  returns (Weather.generate_weather_dataset cfg)
    (fun t => exists rows dups,
         t = (rows ++ dups)%list
         /\ List.length rows = Z.to_nat (Weather.n_rows cfg)
         /\ dup_count (Weather.n_rows cfg) (Weather.duplicate_ratio cfg)
            = Ok (Z.of_nat (List.length dups))
         /\ incl dups rows).
Proof.
  intros Hmax (k & Hk & Hfit). unfold Weather.generate_weather_dataset.
  apply seeded_returns.
  eapply post_bind; [apply weather_rows_returns; exact Hmax |].
  intros rows Hrows. cbv beta in Hrows. rewrite Hk, bind_lift_ok.
  eapply post_bind; [apply df_sample_spec; lia |].
  intros dups [Hlen Hincl]. apply post_ret.
  exists rows, dups. rewrite Hlen, Z2Nat.id by lia. auto.
Qed.

(** The generated traffic rows, before the duplicate tail. *)
Lemma traffic_rows_spec {parser : DateParser}
    (weather_df : list Weather.row) (cfg : Traffic.config) :
  returns
    (mapM (Traffic.loop_body cfg weather_df)
       (py_range (Z.of_nat (List.length weather_df))))
    (fun rows =>
       List.length rows = List.length weather_df
       /\ forall i w, nth_error weather_df i = Some w ->
            exists r, nth_error rows i = Some r
                      /\ traffic_row_shape cfg (Z.of_nat i) w r).
Proof.
  eapply returns_weaken.
  - apply (mapM_spec _
             (fun i r => exists w,
                  nth_error weather_df (Z.to_nat i) = Some w
                  /\ traffic_row_shape cfg i w r)).
    intros i Hi. apply py_range_In in Hi. destruct Hi as (k & -> & Hk).
    unfold Traffic.loop_body. rewrite Nat2Z.id.
    destruct (nth_error weather_df k) as [w |] eqn:Hw.
    + eapply returns_weaken; [apply traffic_row_spec |].
      intros r Hr. exists w. auto.
    + apply nth_error_None in Hw. lia.
  - intros rows Hrows.
    assert (Hlen : List.length rows = List.length weather_df).
    { apply Forall2_length in Hrows. rewrite py_range_length in Hrows. lia. }
    split; [exact Hlen |].
    intros i w Hw.
    assert (Hi : (i < List.length weather_df)%nat).
    { apply nth_error_Some. congruence. }
    destruct (Forall2_nth_error_l _ _ _ i (Z.of_nat i) Hrows)
      as (r & Hr & w' & Hw' & Hshape).
    { apply py_range_nth. lia. }
    rewrite Nat2Z.id in Hw'. rewrite Hw in Hw'. inversion Hw'; subst w'.
    exists r. auto.
Qed.

(** The traffic table: one generated row per weather row, in order, then the
    sampled rows. *)
Lemma traffic_dataset_spec {seeding : Seeding} {parser : DateParser}
    (weather_df : list Weather.row) (cfg : Traffic.config) :
  tail_fits (Traffic.n_rows cfg) (Traffic.duplicate_ratio cfg)
    (Z.of_nat (List.length weather_df)) ->
  returns (Traffic.generate_traffic_dataset weather_df cfg)
    (fun t => exists rows dups,
         t = (rows ++ dups)%list
         /\ List.length rows = List.length weather_df
         /\ dup_count (Traffic.n_rows cfg) (Traffic.duplicate_ratio cfg)
            = Ok (Z.of_nat (List.length dups))
         /\ incl dups rows
         /\ forall i w, nth_error weather_df i = Some w ->
              exists r, nth_error rows i = Some r
                        /\ traffic_row_shape cfg (Z.of_nat i) w r).
Proof.
  intros (k & Hk & Hfit). unfold Traffic.generate_traffic_dataset.
  apply seeded_returns. cbv zeta.
  eapply post_bind; [apply traffic_rows_spec |].
  intros rows [Hlen Hshape]. rewrite Hk, bind_lift_ok.
  eapply post_bind; [apply df_sample_spec; lia |].
  intros dups [Hdl Hincl]. apply post_ret.
  exists rows, dups. rewrite Hdl, Z2Nat.id by lia. auto 6.
Qed.

Lemma bind_run {S A B} (m : M S A) (k : A -> M S B) (s s1 : S) (a : A) :
  m s = (Ok a, s1) -> bind m k s = k a s1.
Proof. intros H. unfold bind. rewrite H. reflexivity. Qed.

Lemma bind_raise {S A B} (m : M S A) (k : A -> M S B) (s : S) (e : pyexn) :
  fst (m s) = Raise e -> fst (bind m k s) = Raise e.
Proof.
  unfold bind. destruct (m s) as [[a | e'] s1]; simpl; intros H;
    [discriminate | inversion H; reflexivity].
Qed.

(** What both generators do once the rows are there: the duplicate count,
    the sample, the concatenation. *)
Lemma tail_raises {A} (rows : list A) (n : Z) (d : Q) (s : rand_state) :
  (forall k, dup_count n d = Ok k ->
   k < 0 \/ Z.of_nat (List.length rows) < k ->
   exists msg,
     fst ((k <- lift (dup_count n d) ;;
           dups <- df_sample rows k ;;
           ret (rows ++ dups)%list) s) = Raise (ValueError msg))
  /\ (forall e, dup_count n d = Raise e ->
      fst ((k <- lift (dup_count n d) ;;
            dups <- df_sample rows k ;;
            ret (rows ++ dups)%list) s) = Raise e).
Proof.
  split.
  - intros k Hk Hbad. rewrite Hk, bind_lift_ok.
    destruct (df_sample_raises rows k s Hbad) as (msg & Hmsg).
    exists msg. apply bind_raise. exact Hmsg.
  - intros e He. rewrite He, bind_lift_raise. reflexivity.
Qed.

(** A duplicate tail longer than the table makes [df.sample] raise, in both
    generators. *)
Lemma weather_tail_too_long {seeding : Seeding} {parser : DateParser}
    (cfg : Weather.config) (s : rand_state) (k : Z) :
  Weather.n_rows cfg <= max_rows ->
  dup_count (Weather.n_rows cfg) (Weather.duplicate_ratio cfg) = Ok k ->
  k < 0 \/ Z.max 0 (Weather.n_rows cfg) < k ->
  exists msg,
    fst (Weather.generate_weather_dataset cfg s) = Raise (ValueError msg).
Proof.
  intros Hmax Hk Hbad. unfold Weather.generate_weather_dataset.
  rewrite seeded_run.
  match goal with |- context [bind ?m ?f ?s0] =>
    destruct (returns_run m _ (weather_rows_returns cfg Hmax) s0)
      as (rows & s1 & Hrun & Hrows)
  end.
  rewrite (bind_run _ _ _ _ _ Hrun).
  apply (proj1 (tail_raises rows _ _ s1) k Hk). lia.
Qed.

Lemma traffic_tail_too_long {seeding : Seeding} {parser : DateParser}
    (weather_df : list Weather.row) (cfg : Traffic.config) (s : rand_state)
    (k : Z) :
  dup_count (Traffic.n_rows cfg) (Traffic.duplicate_ratio cfg) = Ok k ->
  k < 0 \/ Z.of_nat (List.length weather_df) < k ->
  exists msg,
    fst (Traffic.generate_traffic_dataset weather_df cfg s)
    = Raise (ValueError msg).
Proof.
  intros Hk Hbad. unfold Traffic.generate_traffic_dataset.
  rewrite seeded_run. cbv zeta.
  match goal with |- context [bind ?m ?f ?s0] =>
    destruct (returns_run m _ (traffic_rows_spec weather_df cfg) s0)
      as (rows & s1 & Hrun & Hrows & _)
  end.
  rewrite (bind_run _ _ _ _ _ Hrun).
  apply (proj1 (tail_raises rows _ _ s1) k Hk). lia.
Qed.

(* ================================================================== *)
(** * Main results *)

(** ** Row counts *)

(** C1 (amended). Let [kw] be the weather generator's own
    [int(n_rows * duplicate_ratio)], a binary64 product, and [kt] the
    traffic generator's, computed from its own [n_rows] parameter.  When
    the weather tail fits its [n_rows <= 34958088] rows the weather
    generator returns [n_rows + kw] rows; when the traffic tail fits the
    [L] rows of the weather table the traffic generator returns [L + kt]
    rows.  For a non-negative ratio the tail is the floor of the exact
    product or one more (the float product may round up to the next
    integer), the row count being below [2^53]. *)
Theorem row_count_law_amended {seeding : Seeding} {parser : DateParser}
    (wcfg : Weather.config) (tcfg : Traffic.config)
    (weather_df : list Weather.row) (s : rand_state) (kw kt : Z) :
  Weather.n_rows wcfg <= max_rows ->
  dup_count (Weather.n_rows wcfg) (Weather.duplicate_ratio wcfg) = Ok kw ->
  0 <= kw <= Weather.n_rows wcfg ->
  dup_count (Traffic.n_rows tcfg) (Traffic.duplicate_ratio tcfg) = Ok kt ->
  0 <= kt <= Z.of_nat (List.length weather_df) ->
  (exists t s',
      Weather.generate_weather_dataset wcfg s = (Ok t, s')
      /\ Z.of_nat (List.length t) = Weather.n_rows wcfg + kw)
  /\ (exists t s',
         Traffic.generate_traffic_dataset weather_df tcfg s = (Ok t, s')
         /\ Z.of_nat (List.length t)
            = Z.of_nat (List.length weather_df) + kt)
  /\ ((0 <= Weather.duplicate_ratio wcfg)%Q ->
      Qfloor (inject_Z (Weather.n_rows wcfg) * Weather.duplicate_ratio wcfg)
      <= kw
      <= Qfloor (inject_Z (Weather.n_rows wcfg)
                 * Weather.duplicate_ratio wcfg) + 1)
  /\ (0 <= Traffic.n_rows tcfg < 2 ^ 53 ->
      (0 <= Traffic.duplicate_ratio tcfg)%Q ->
      kt < 2 ^ 53 ->
      Qfloor (inject_Z (Traffic.n_rows tcfg) * Traffic.duplicate_ratio tcfg)
      <= kt
      <= Qfloor (inject_Z (Traffic.n_rows tcfg)
                 * Traffic.duplicate_ratio tcfg) + 1).
Proof.
  intros Hmax Hkw Hfit Hkt Hfit'.
  split; [| split; [| split]].
  - destruct (returns_run _ _
                (weather_dataset_spec wcfg Hmax
                   (ex_intro _ kw (conj Hkw Hfit))) s)
      as (t & s' & Hrun & rows & dups & -> & Hrows & Hdups & _).
    exists (rows ++ dups)%list, s'. split; [exact Hrun |].
    rewrite Hkw in Hdups. inversion Hdups. rewrite length_app. lia.
  - destruct (returns_run _ _
                (traffic_dataset_spec weather_df tcfg
                   (ex_intro _ kt (conj Hkt Hfit'))) s)
      as (t & s' & Hrun & rows & dups & -> & Hrows & Hdups & _).
    exists (rows ++ dups)%list, s'. split; [exact Hrun |].
    rewrite Hkt in Hdups. inversion Hdups. rewrite length_app. lia.
  - intros Hd. unfold max_rows in Hmax.
    apply dup_count_near_floor; [lia | exact Hd | exact Hkw | lia].
  - intros Hn Hd Hsmall. apply dup_count_near_floor; assumption.
Qed.

(** A hundred weather rows at the ratio 0.29 give 100 + 28 rows, the
    float product being 28.999999999999996; the default traffic run on a
    weather table of 5250 rows gives 5250 + 250 rows. *)
Lemma row_count_law_amended_witness :
  (exists t s',
      @Weather.generate_weather_dataset half_seeding iso_parser
        float_tail_config (state_of half_tape) = (Ok t, s')
      /\ Z.of_nat (List.length t) = 128)
  /\ (exists t s',
         @Traffic.generate_traffic_dataset half_seeding iso_parser
           default_size_weather_df Traffic.default_config (state_of half_tape)
         = (Ok t, s')
         /\ Z.of_nat (List.length t) = 5500).
Proof.
  assert (HL : Z.of_nat (List.length default_size_weather_df) = 5250).
  { unfold default_size_weather_df. rewrite repeat_length. reflexivity. }
  pose proof (@row_count_law_amended half_seeding iso_parser
                float_tail_config Traffic.default_config
                default_size_weather_df (state_of half_tape) 28 250) as H.
  rewrite HL in H.
  destruct H as (Hw & Ht & _).
  - vm_compute; discriminate.
  - vm_compute; reflexivity.
  - vm_compute; split; discriminate.
  - vm_compute; reflexivity.
  - vm_compute; split; discriminate.
  - split; [exact Hw | exact Ht].
Defined.

(** C1 (counterexample). With the default configuration and a weather table
    of 5250 rows the traffic generator returns 5250 + 250 = 5500 rows: its
    duplicate tail is [int(n_rows * duplicate_ratio)] for its own
    [n_rows = 5000], not [floor(5250 * 0.05) = 262]. *)
Lemma row_count_law_fails : ~ row_count_law.
Proof.
  intros [_ Hlaw].
  destruct (Hlaw half_seeding iso_parser default_size_weather_df
              Traffic.default_config (state_of half_tape))
    as (t & s' & Hrun & Hlen).
  assert (HL : List.length default_size_weather_df = Z.to_nat 5250).
  { unfold default_size_weather_df. apply repeat_length. }
  assert (Hdup : dup_count (Traffic.n_rows Traffic.default_config)
                   (Traffic.duplicate_ratio Traffic.default_config) = Ok 250)
    by (vm_compute; reflexivity).
  assert (Hfit : 0 <= 250 <= Z.of_nat (List.length default_size_weather_df))
    by (rewrite HL; lia).
  destruct (returns_run _ _
              (@traffic_dataset_spec half_seeding iso_parser
                 default_size_weather_df Traffic.default_config
                 (ex_intro _ 250 (conj Hdup Hfit)))
              (state_of half_tape))
    as (t' & s'' & Hrun' & rows & dups & -> & Hrows & Hdups & _).
  rewrite Hrun in Hrun'. inversion Hrun'; subst t.
  rewrite Hdup in Hdups. inversion Hdups as [Hd].
  rewrite length_app, Hrows, HL in Hlen.
  change (Traffic.duplicate_ratio Traffic.default_config) with (5 # 100)%Q
    in Hlen.
  replace (Qfloor (inject_Z (Z.of_nat (Z.to_nat 5250)) * (5 # 100)))
    with 262 in Hlen by reflexivity.
  lia.
Qed.

(** ** Determinism *)

(** C4. Both generators reseed the two random sources before drawing, so
    their result (table, or exception, and final source state) is the same
    from any two states of the sources: two runs with the same
    configuration, and for the traffic generator the same weather table,
    produce identical tables. *)
Theorem generators_deterministic {seeding : Seeding} {parser : DateParser}
    (wcfg : Weather.config) (tcfg : Traffic.config)
    (weather_df : list Weather.row) (s1 s2 : rand_state) :
  Weather.generate_weather_dataset wcfg s1
  = Weather.generate_weather_dataset wcfg s2
  /\ Traffic.generate_traffic_dataset weather_df tcfg s1
     = Traffic.generate_traffic_dataset weather_df tcfg s2.
Proof.
  unfold Weather.generate_weather_dataset, Traffic.generate_traffic_dataset.
  rewrite !seeded_run. split; reflexivity.
Qed.

(** ** Congestion *)

(** C10. [determine_congestion] always yields High, Medium or Low; when a
    threshold comparison raises the result is Low.  A null vehicle count
    always makes the first comparison raise; a null speed does so unless the
    vehicle count alone already decides High. *)
Theorem determine_congestion_total (vehicle_count avg_speed : pyval) :
  let level := Traffic.determine_congestion vehicle_count avg_speed in
  (level = "High" \/ level = "Medium" \/ level = "Low")
  /\ (forall e,
         Traffic.congestion_thresholds vehicle_count avg_speed = Raise e ->
         level = "Low")
  /\ (vehicle_count = VNone ->
      Traffic.congestion_thresholds vehicle_count avg_speed = Raise TypeError
      /\ level = "Low")
  /\ (avg_speed = VNone ->
      forall q, numeric_value vehicle_count = Some q ->
        ((q <= 3500)%Q ->
         Traffic.congestion_thresholds vehicle_count avg_speed
         = Raise TypeError /\ level = "Low")
        /\ ((3500 < q)%Q -> level = "High")).
Proof.
  cbv zeta. unfold Traffic.determine_congestion.
  split; [| split; [| split]].
  - destruct (Traffic.congestion_thresholds vehicle_count avg_speed)
      as [level | e] eqn:E; [| auto].
    unfold Traffic.congestion_thresholds in E.
    destruct (py_or (py_gt vehicle_count 3500) (py_lt avg_speed 15))
      as [[|] | e1]; try discriminate; [inversion E; auto |].
    destruct (py_or (py_gt vehicle_count 1500) (py_lt avg_speed 35))
      as [[|] | e2]; try discriminate; inversion E; auto.
  - intros e ->. reflexivity.
  - intros ->. split; reflexivity.
  - intros -> q Hq.
    unfold Traffic.congestion_thresholds, py_gt, py_lt.
    rewrite !(py_cmp_numeric _ _ _ _ Hq). simpl.
    split; intros Hcmp.
    + apply Qltb_false in Hcmp. rewrite Hcmp. simpl. split; reflexivity.
    + apply Qltb_true in Hcmp. rewrite Hcmp. reflexivity.
Qed.

(** ** Traffic rows *)

Lemma run_of_fst {S A} (m : M S A) (s : S) (a : A) :
  fst (m s) = Ok a -> m s = (Ok a, snd (m s)).
Proof. destruct (m s) as [r s']; simpl. intros ->. reflexivity. Qed.

Lemma nulled_not_none (nr : Q) (v x : pyval) :
  nulled nr v x -> (nr <= 0)%Q -> v <> VNone -> x <> VNone.
Proof. intros (_ & _ & H) Hnr Hv. rewrite (H Hnr). exact Hv. Qed.

Lemma perturbed_not_none (r : Q) (v : pyval) (lo hi : Q) (o : pyval) :
  perturbed r v lo hi o -> v <> VNone -> o <> VNone.
Proof.
  intros [[-> | (x & -> & _)] _] Hv; [exact Hv | discriminate].
Qed.


(** ** Which draw nulls which field *)

Lemma forward_refl (s : rand_state) : forward s s.
Proof. split; [reflexivity | lia]. Qed.

Lemma forward_trans (s1 s2 s3 : rand_state) :
  forward s1 s2 -> forward s2 s3 -> forward s1 s3.
Proof. intros [E1 L1] [E2 L2]. split; [congruence | lia]. Qed.

Lemma advances_ret {A} (a : A) : advances (ret a).
Proof. intros s. apply forward_refl. Qed.

Lemma advances_raise {A} (e : pyexn) : advances (raise (A:=A) e).
Proof. intros s. apply forward_refl. Qed.

Lemma advances_lift {A} (r : exc A) : advances (lift r).
Proof. intros s. apply forward_refl. Qed.

Lemma advances_py_draw : advances py_draw.
Proof. intros s. split; simpl; [reflexivity | lia]. Qed.

Lemma advances_bind {A B} (m : M rand_state A) (k : A -> M rand_state B) :
  advances m -> (forall a, advances (k a)) -> advances (bind m k).
Proof.
  intros Hm Hk s. unfold bind. specialize (Hm s).
  destruct (m s) as [[a | e] s1]; simpl in *; [| exact Hm].
  eapply forward_trans; [exact Hm | apply Hk].
Qed.

Lemma advances_try {A} (m : M rand_state A) (h : pyexn -> M rand_state A) :
  advances m -> (forall e, advances (h e)) -> advances (try_except m h).
Proof.
  intros Hm Hh s. unfold try_except. specialize (Hm s).
  destruct (m s) as [[a | e] s1]; simpl in *; [exact Hm |].
  eapply forward_trans; [exact Hm | apply Hh].
Qed.

Ltac advances_step :=
  first
    [ apply advances_ret | apply advances_raise | apply advances_lift
    | apply advances_py_draw
    | apply advances_bind; [| intros ?]
    | apply advances_try; [| intros ?]
    | match goal with
      | |- advances (if ?b then _ else _) => destruct b
      | |- advances (match ?x with _ => _ end) => destruct x
      end ].

Ltac advances_tac :=
  unfold random_choice, random_randint, random_uniform, randbelow,
    random_random;
  repeat advances_step.

Lemma advances_with_outliers (r : Q) (v : pyval) (lo hi : Q) :
  advances (with_outliers r v lo hi).
Proof. unfold with_outliers. advances_tac. Qed.

Lemma advances_generate_area : advances Traffic.generate_area.
Proof. unfold Traffic.generate_area. advances_tac. Qed.

Lemma advances_generate_vehicle_count {parser : DateParser} (t : pyval) :
  advances (Traffic.generate_vehicle_count t).
Proof. unfold Traffic.generate_vehicle_count. advances_tac. Qed.

Lemma advances_generate_road_condition (wc : pyval) :
  advances (Traffic.generate_road_condition wc).
Proof. unfold Traffic.generate_road_condition. advances_tac. Qed.

Lemma advances_calculate_avg_speed (vc wc road : pyval) :
  advances (Traffic.calculate_avg_speed vc wc road).
Proof. unfold Traffic.calculate_avg_speed. advances_tac. Qed.

Lemma advances_generate_accidents (wc level : pyval) :
  advances (Traffic.generate_accidents wc level).
Proof. unfold Traffic.generate_accidents. cbv zeta. advances_tac. Qed.

Lemma advances_get_traffic_visibility (v : pyval) :
  advances (Traffic.get_traffic_visibility v).
Proof. unfold Traffic.get_traffic_visibility. advances_tac. Qed.

Lemma returns_advances_run {A} (m : M rand_state A) (P : A -> Prop)
    (s : rand_state) :
  returns m P -> advances m ->
  exists a s1, m s = (Ok a, s1) /\ P a /\ forward s s1.
Proof.
  intros Hr Ha. destruct (returns_run _ _ Hr s) as (a & s1 & Hrun & HP).
  exists a, s1. repeat split; auto.
  - specialize (Ha s). rewrite Hrun in Ha. apply Ha.
  - specialize (Ha s). rewrite Hrun in Ha. apply Ha.
Qed.

(** [maybe_null] of a non-null value: one draw, which decides. *)
Lemma maybe_null_draw (nr : Q) (v : pyval) (s : rand_state) :
  v <> VNone ->
  exists x s1,
    maybe_null nr v s = (Ok x, s1)
    /\ forward s s1
    /\ pos (py_random s1) = Datatypes.S (pos (py_random s))
    /\ null_by_draw nr s (pos (py_random s)) x.
Proof.
  intros Hv. destruct (maybe_null_run nr v s) as (s1 & Hrun & Ht & Hp & _).
  eexists _, s1. split; [exact Hrun |].
  split; [split; [exact Ht | lia] |]. split; [exact Hp |].
  unfold null_by_draw, draw_at. fold (next_random s).
  destruct (Qltb (next_random s) nr) eqn:E; bool_to_Q.
  - split; auto.
  - split; [intros H; congruence | intros H; lra].
Qed.

Lemma null_by_draw_forward (nr : Q) (s s1 : rand_state) (p : nat) (x : pyval) :
  forward s s1 -> null_by_draw nr s1 p x -> null_by_draw nr s p x.
Proof.
  intros [Ht _]. unfold null_by_draw, draw_at. rewrite Ht. auto.
Qed.

(** A field [maybe_null(f(generated))]. *)
Lemma nulled_field_draw {A} (m : M rand_state A) (f : A -> pyval) (nr : Q)
    (s : rand_state) :
  returns m (fun _ => True) -> advances m -> (forall v, f v <> VNone) ->
  exists x s1 p,
    (v <- m ;; maybe_null nr (f v)) s = (Ok x, s1)
    /\ forward s s1
    /\ (pos (py_random s) <= p < pos (py_random s1))%nat
    /\ null_by_draw nr s p x.
Proof.
  intros Hr Ha Hf.
  destruct (returns_advances_run m _ s Hr Ha) as (v & s0 & Hrun & _ & Hfw).
  destruct (maybe_null_draw nr (f v) s0 (Hf v)) as (x & s1 & Hnull & Hfw1 & Hp & Hd).
  exists x, s1, (pos (py_random s0)).
  rewrite (bind_run _ _ _ _ _ Hrun).
  split; [exact Hnull |]. split; [eapply forward_trans; eauto |].
  split; [destruct Hfw; lia |].
  eapply null_by_draw_forward; eauto.
Qed.

(** A field [maybe_null(with_outliers(f(generated), lo, hi))]. *)
Lemma injected_field_draw {A} (m : M rand_state A) (f : A -> pyval)
    (r nr lo hi : Q) (s : rand_state) :
  returns m (fun _ => True) -> advances m -> (forall v, f v <> VNone) ->
  exists x s1 p,
    (v <- m ;; o <- with_outliers r (f v) lo hi ;; maybe_null nr o) s
    = (Ok x, s1)
    /\ forward s s1
    /\ (pos (py_random s) <= p < pos (py_random s1))%nat
    /\ null_by_draw nr s p x.
Proof.
  intros Hr Ha Hf.
  destruct (returns_advances_run m _ s Hr Ha) as (v & s0 & Hrun & _ & Hfw).
  destruct (returns_advances_run _ _ s0 (with_outliers_spec r (f v) lo hi)
              (advances_with_outliers r (f v) lo hi))
    as (o & s0' & Hrun' & Ho & Hfw').
  assert (Hne : o <> VNone)
    by (eapply perturbed_not_none; [exact Ho | apply Hf]).
  destruct (maybe_null_draw nr o s0' Hne) as (x & s1 & Hnull & Hfw1 & Hp & Hd).
  exists x, s1, (pos (py_random s0')).
  rewrite (bind_run _ _ _ _ _ Hrun), (bind_run _ _ _ _ _ Hrun').
  split; [exact Hnull |].
  assert (Hfw2 : forward s s0') by (eapply forward_trans; eauto).
  split; [eapply forward_trans; eauto |].
  split; [destruct Hfw2; lia |].
  eapply null_by_draw_forward; eauto.
Qed.

(** In one generated traffic row, nine distinct draws decide the nulling of
    the nine generated fields. *)
Lemma traffic_row_draws {parser : DateParser} (cfg : Traffic.config) (i : Z)
    (w : Weather.row) (s : rand_state) :
  exists r s',
    Traffic.generate_row cfg i w s = (Ok r, s')
    /\ nulled_by_own_draws (Traffic.null_ratio cfg) s r.
Proof.
  set (nr := Traffic.null_ratio cfg).
  unfold Traffic.generate_row. fold nr.
  destruct (nulled_field_draw Traffic.generate_area VStr nr s
              generate_area_returns advances_generate_area
              ltac:(intros; discriminate))
    as (area & s1 & p1 & Hrun1 & Hf1 & Hp1 & Hd1).
  rewrite (bind_run _ _ _ _ _ Hrun1).
  destruct (injected_field_draw _ VInt (Traffic.outlier_ratio cfg) nr
              20000 30000 s1
              (generate_vehicle_count_returns (Weather.date_time w))
              (advances_generate_vehicle_count (Weather.date_time w))
              ltac:(intros; discriminate))
    as (count & s2 & p2 & Hrun2 & Hf2 & Hp2 & Hd2).
  rewrite (bind_run _ _ _ _ _ Hrun2).
  destruct (nulled_field_draw _ VStr nr s2
              (returns_weaken _ _ (fun _ => True)
                 (generate_road_condition_spec (Weather.weather_condition w))
                 (fun _ _ => I))
              (advances_generate_road_condition (Weather.weather_condition w))
              ltac:(intros; discriminate))
    as (road & s3 & p3 & Hrun3 & Hf3 & Hp3 & Hd3).
  rewrite (bind_run _ _ _ _ _ Hrun3).
  destruct (injected_field_draw _ VFloat (Traffic.outlier_ratio cfg) nr
              (-1) 500 s3
              (calculate_avg_speed_returns count
                 (Weather.weather_condition w) road)
              (advances_calculate_avg_speed count
                 (Weather.weather_condition w) road)
              ltac:(intros; discriminate))
    as (speed & s4 & p4 & Hrun4 & Hf4 & Hp4 & Hd4).
  rewrite (bind_run _ _ _ _ _ Hrun4).
  destruct (maybe_null_draw nr
              (VStr (Traffic.determine_congestion count speed)) s4
              ltac:(discriminate))
    as (level & s5 & Hrun5 & Hf5 & Hp5 & Hd5).
  rewrite (bind_run _ _ _ _ _ Hrun5).
  destruct (injected_field_draw _ VInt (Traffic.outlier_ratio cfg) nr
              20 50 s5
              (generate_accidents_returns (Weather.weather_condition w) level)
              (advances_generate_accidents (Weather.weather_condition w) level)
              ltac:(intros; discriminate))
    as (acc & s6 & p6 & Hrun6 & Hf6 & Hp6 & Hd6).
  rewrite (bind_run _ _ _ _ _ Hrun6).
  destruct (injected_field_draw _ VInt (Traffic.outlier_ratio cfg) nr
              50000 120000 s6
              (returns_weaken _ _ (fun _ => True)
                 (get_traffic_visibility_spec (Weather.visibility_m w))
                 (fun _ _ => I))
              (advances_get_traffic_visibility (Weather.visibility_m w))
              ltac:(intros; discriminate))
    as (vis & s7 & p7 & Hrun7 & Hf7 & Hp7 & Hd7).
  rewrite (bind_run _ _ _ _ _ Hrun7).
  destruct (maybe_null_draw nr (VInt (9001 + i)) s7 ltac:(discriminate))
    as (tid & s8 & Hrun8 & Hf8 & Hp8 & Hd8).
  rewrite (bind_run _ _ _ _ _ Hrun8).
  destruct (maybe_null_draw nr (VStr "London") s8 ltac:(discriminate))
    as (city & s9 & Hrun9 & Hf9 & Hp9 & Hd9).
  rewrite (bind_run _ _ _ _ _ Hrun9).
  pose proof (forward_trans _ _ _ Hf1 Hf2) as F2.
  pose proof (forward_trans _ _ _ F2 Hf3) as F3.
  pose proof (forward_trans _ _ _ F3 Hf4) as F4.
  pose proof (forward_trans _ _ _ F4 Hf5) as F5.
  pose proof (forward_trans _ _ _ F5 Hf6) as F6.
  pose proof (forward_trans _ _ _ F6 Hf7) as F7.
  pose proof (forward_trans _ _ _ F7 Hf8) as F8.
  eexists _, s9. split; [reflexivity |].
  exists p1, p2, p3, p4, (pos (py_random s4)), p6, p7,
    (pos (py_random s7)), (pos (py_random s8)).
  simpl. split.
  { destruct Hf1, Hf2, Hf3, Hf4, Hf5, Hf6, Hf7, Hf8. lia. }
  repeat match goal with |- _ /\ _ => split end;
    first [ exact Hd1 | eapply null_by_draw_forward; [| eassumption];
                        assumption ].
Qed.
(** C5 (amended). When the duplicate tail fits, the traffic generator
    returns a table whose row at every position [i] of the weather table
    carries that weather row's timestamp unchanged.  The city is not copied:
    it is the constant "London" passed through the traffic generator's own
    [maybe_null], whatever the weather row's city. *)
Theorem timestamp_copied {seeding : Seeding} {parser : DateParser}
    (weather_df : list Weather.row) (cfg : Traffic.config) (s : rand_state) :
  tail_fits (Traffic.n_rows cfg) (Traffic.duplicate_ratio cfg)
    (Z.of_nat (List.length weather_df)) ->
  exists t s',
    Traffic.generate_traffic_dataset weather_df cfg s = (Ok t, s')
    /\ forall i w, nth_error weather_df i = Some w ->
         exists r, nth_error t i = Some r
                   /\ Traffic.date_time r = Weather.date_time w
                   /\ nulled (Traffic.null_ratio cfg) (VStr "London")
                        (Traffic.city r).
Proof.
  intros Hdup.
  destruct (returns_run _ _ (traffic_dataset_spec weather_df cfg Hdup) s)
    as (t & s' & Hrun & rows & dups & -> & Hrows & _ & _ & Hshape).
  exists (rows ++ dups)%list, s'. split; [exact Hrun |].
  intros i w Hw. destruct (Hshape i w Hw) as (r & Hr & Hsh).
  exists r. split.
  - rewrite nth_error_app1; [exact Hr |]. apply nth_error_Some. congruence.
  - unfold traffic_row_shape in Hsh. cbv zeta in Hsh.
    destruct Hsh as (Hdt & _ & _ & _ & _ & _ & _ & _ & _ & Hcity). auto.
Qed.

(** The one-row table whose weather city is null. *)
Lemma timestamp_copied_witness :
  exists t s',
    @Traffic.generate_traffic_dataset half_seeding iso_parser
      [snow_row_null_city] one_row_config (state_of half_tape) = (Ok t, s')
    /\ forall i w, nth_error [snow_row_null_city] i = Some w ->
         exists r, nth_error t i = Some r
                   /\ Traffic.date_time r = Weather.date_time w
                   /\ nulled (1 # 10) (VStr "London") (Traffic.city r).
Proof.
  apply (@timestamp_copied half_seeding iso_parser [snow_row_null_city]
           one_row_config (state_of half_tape)).
  exists 0. split; [vm_compute; reflexivity | vm_compute; split; discriminate].
Defined.

(** C5 (counterexample). For a weather row whose city is null, the traffic
    row at the same position has city "London". *)
Lemma keys_copied_law_fails : ~ keys_copied_law.
Proof.
  intros Hlaw.
  assert (Hrun :
    fst (@Traffic.generate_traffic_dataset half_seeding iso_parser
           [snow_row_null_city] one_row_config (state_of half_tape))
    = Ok [ {| Traffic.traffic_id := VInt 9001;
              Traffic.date_time := VStr "2024-01-01 00:00";
              Traffic.city := VStr "London";
              Traffic.area := VStr "Islington";
              Traffic.vehicle_count := VInt 382;
              Traffic.road_condition := VStr "Snowy";
              Traffic.avg_speed_kmh := VFloat (5500 # 100);
              Traffic.congestion_level := VStr "Low";
              Traffic.accident_count := VInt 0;
              Traffic.visibility_m := VInt 5153 |} ])
    by (vm_compute; reflexivity).
  apply run_of_fst in Hrun.
  destruct (Hlaw _ _ _ _ _ _ _ Hrun 0%nat snow_row_null_city eq_refl)
    as (r & Hr & _ & Hcity).
  inversion Hr; subst r. discriminate Hcity.
Qed.

(** C6 (amended). Every field of a generated traffic row except the
    timestamp passes through [maybe_null], each on a draw of its own: nine
    distinct draws decide the nine fields, a field being null exactly when
    its draw is below the null probability; so at null probability 1 all
    nine are null and at null probability 0 none is.  The numeric fields
    [vehicle_count], [avg_speed_kmh], [accident_count] and [visibility_m]
    pass through [with_outliers] first: at outlier probability 1 and null
    probability 0 each lies in its outlier bands.  The timestamp is the
    weather row's, never nulled. *)
Theorem generated_fields_nulled {parser : DateParser}
    (cfg : Traffic.config) (i : Z) (w : Weather.row) (s : rand_state) :
  exists r s',
    Traffic.generate_row cfg i w s = (Ok r, s')
    /\ Traffic.date_time r = Weather.date_time w
    /\ nulled_by_own_draws (Traffic.null_ratio cfg) s r
    /\ traffic_row_shape cfg i w r
    /\ ((1 <= Traffic.null_ratio cfg)%Q ->
        generated_fields (fun v => v = VNone) r)
    /\ ((Traffic.null_ratio cfg <= 0)%Q ->
        generated_fields (fun v => v <> VNone) r
        /\ ((1 <= Traffic.outlier_ratio cfg)%Q ->
            is_outlier 20000 30000 (Traffic.vehicle_count r)
            /\ is_outlier (-1) 500 (Traffic.avg_speed_kmh r)
            /\ is_outlier 20 50 (Traffic.accident_count r)
            /\ is_outlier 50000 120000 (Traffic.visibility_m r))).
Proof.
  destruct (returns_run _ _ (traffic_row_spec cfg i w) s)
    as (r & s' & Hrun & Hshape).
  destruct (traffic_row_draws cfg i w s) as (r' & s'' & Hrun' & Hdraws).
  rewrite Hrun in Hrun'. inversion Hrun'; subst r' s''.
  exists r, s'. split; [exact Hrun |].
  assert (Hdt : Traffic.date_time r = Weather.date_time w) by apply Hshape.
  split; [exact Hdt |]. split; [exact Hdraws |]. split; [exact Hshape |].
  unfold traffic_row_shape in Hshape. cbv zeta in Hshape.
  destruct Hshape as
    (_ & (a & Harea) & (k & ok & Hok & Hvc) & (c & Hc & Hroad)
     & (sp & osp & Hosp & Hspeed) & Hcong & (acc & oacc & Hoacc & Hacc)
     & (v & ov & Hv & Hov & Hvis) & Hid & Hcity).
  split.
  - intros Hnr. unfold generated_fields.
    repeat match goal with |- _ /\ _ => split end;
      match goal with
      | H : nulled _ _ ?x |- ?x = VNone => apply H; exact Hnr
      end.
  - intros Hnr. split.
    + unfold generated_fields.
      repeat match goal with |- _ /\ _ => split end;
        match goal with
        | H : nulled _ _ ?x |- ?x <> VNone =>
            apply (nulled_not_none _ _ _ H Hnr)
        end;
        try discriminate;
        match goal with
        | H : perturbed _ _ _ _ ?o |- ?o <> VNone =>
            apply (perturbed_not_none _ _ _ _ _ H); discriminate
        end.
    + intros Hor.
      repeat match goal with |- _ /\ _ => split end;
        match goal with
        | H : nulled _ ?o ?x, H' : perturbed _ _ ?lo ?hi ?o
          |- is_outlier ?lo ?hi ?x =>
            destruct H as (_ & _ & H); rewrite (H Hnr); apply H'; exact Hor
        end.
Qed.

(** C6 (counterexample). At null probability 1 the generated row still
    carries the weather row's timestamp. *)
Lemma every_field_nulled_law_fails : ~ every_field_nulled_law.
Proof.
  intros Hlaw.
  assert (Hrun :
    fst (@Traffic.generate_row iso_parser always_null_config 0 snow_row
           (state_of half_tape))
    = Ok {| Traffic.traffic_id := VNone;
            Traffic.date_time := VStr "2024-01-01 00:00";
            Traffic.city := VNone;
            Traffic.area := VNone;
            Traffic.vehicle_count := VNone;
            Traffic.road_condition := VNone;
            Traffic.avg_speed_kmh := VNone;
            Traffic.congestion_level := VNone;
            Traffic.accident_count := VNone;
            Traffic.visibility_m := VNone |})
    by (vm_compute; reflexivity).
  apply run_of_fst in Hrun.
  assert (Hnr : (1 <= Traffic.null_ratio always_null_config)%Q)
    by (vm_compute; discriminate).
  destruct (Hlaw _ _ _ _ _ _ _ Hnr Hrun) as (_ & Hdt & _).
  discriminate Hdt.
Qed.

Lemma random_random_run (s : rand_state) :
  random_random s = (Ok (next_random s), after 1 s).
Proof. reflexivity. Qed.

Lemma generate_area_run (s : rand_state) :
  exists a, Traffic.generate_area s = (Ok a, after 1 s).
Proof.
  unfold Traffic.generate_area, random_choice, randbelow, bind, py_draw,
    rng_next, ret, raise.
  cbn [List.length Z.of_nat Pos.of_succ_nat Pos.succ].
  set (k := Z.of_N (tape (py_random s) (pos (py_random s))) mod 7).
  assert (Hk : 0 <= k < 7) by (apply Z.mod_pos_bound; lia).
  match goal with
  | |- context [nth_error ?l ?n] => destruct (nth_error l n) as [a |] eqn:E
  end.
  - exists a. reflexivity.
  - apply nth_error_None in E. simpl in E. lia.
Qed.

Lemma generate_vehicle_count_run {parser : DateParser} (time_str : pyval)
    (s : rand_state) :
  exists k, Traffic.generate_vehicle_count time_str s = (Ok k, after 1 s).
Proof.
  unfold Traffic.generate_vehicle_count, try_except.
  destruct (to_datetime time_str) as [dt |];
    [destruct (_ || _); [| destruct (_ && _)] |];
    eexists; reflexivity.
Qed.

Lemma with_outliers_run (ratio : Q) (v : pyval) (lo hi : Q) (s : rand_state) :
  exists o,
    with_outliers ratio v lo hi s
    = (Ok o, after (if Qltb (next_random s) ratio then 3 else 1) s).
Proof.
  unfold with_outliers. rewrite (bind_run _ _ _ _ _ (random_random_run s)).
  destruct (Qltb (next_random s) ratio).
  - rewrite (bind_run _ _ _ _ _ (random_random_run (after 1 s))).
    destruct (Qltb _ (1 # 2)); eexists; reflexivity.
  - eexists; reflexivity.
Qed.

Lemma maybe_null_after (ratio : Q) (v : pyval) (s : rand_state) :
  maybe_null ratio v s
  = (Ok (if Qltb (next_random s) ratio then VNone else v), after 1 s).
Proof. reflexivity. Qed.

Lemma generate_road_condition_residual (wc : pyval) (s : rand_state) :
  wc <> VStr "Snow" -> wc <> VStr "Rain" -> wc <> VStr "Storm" ->
  Traffic.generate_road_condition wc s
  = (Ok (if Qltb (next_random s) (5 # 100) then "Damaged" else "Dry"),
     after 1 s).
Proof.
  intros Hsnow Hrain Hstorm.
  unfold Traffic.generate_road_condition, py_in_strs. cbn [existsb].
  apply py_eq_str_false in Hsnow, Hrain, Hstorm.
  rewrite Hsnow, Hrain, Hstorm. cbn [orb].
  rewrite (bind_run _ _ _ _ _ (random_random_run s)).
  destruct (Qltb (next_random s) (5 # 100)); reflexivity.
Qed.

(** The road condition a traffic row stores is the third field of the loop
    body: the fields generated after it do not touch it. *)
Lemma road_condition_stored {parser : DateParser} (cfg : Traffic.config)
    (i : Z) (w : Weather.row) (s s3 : rand_state) (wc_road : string)
    (road : pyval) :
  Traffic.generate_road_condition (Weather.weather_condition w)
    (after 1 (after (if Qltb (next_random (after 3 s))
                          (Traffic.outlier_ratio cfg) then 3 else 1)
                (after 3 s)))
  = (Ok wc_road, s3) ->
  road = (if Qltb (next_random s3) (Traffic.null_ratio cfg)
          then VNone else VStr wc_road) ->
  forall r s',
    Traffic.generate_row cfg i w s = (Ok r, s') ->
    Traffic.road_condition r = road.
Proof.
  intros Hroad Hval r s' Hrun.
  unfold Traffic.generate_row in Hrun.
  destruct (generate_area_run s) as (a & Ha).
  assert (Harea :
    (a <- Traffic.generate_area ;;
     maybe_null (Traffic.null_ratio cfg) (VStr a)) s
    = (Ok (if Qltb (next_random (after 1 s)) (Traffic.null_ratio cfg)
           then VNone else VStr a), after 2 s)).
  { rewrite (bind_run _ _ _ _ _ Ha). apply maybe_null_after. }
  rewrite (bind_run _ _ _ _ _ Harea) in Hrun.
  destruct (generate_vehicle_count_run (Weather.date_time w) (after 2 s))
    as (k & Hk).
  destruct (with_outliers_run (Traffic.outlier_ratio cfg) (VInt k)
              20000 30000 (after 3 s)) as (o & Ho).
  set (s2 := after (if Qltb (next_random (after 3 s))
                         (Traffic.outlier_ratio cfg) then 3 else 1)
               (after 3 s)) in *.
  assert (Hcount :
    (k <- Traffic.generate_vehicle_count (Weather.date_time w) ;;
     o <- with_outliers (Traffic.outlier_ratio cfg) (VInt k) 20000 30000 ;;
     maybe_null (Traffic.null_ratio cfg) o) (after 2 s)
    = (Ok (if Qltb (next_random s2) (Traffic.null_ratio cfg)
           then VNone else o), after 1 s2)).
  { rewrite (bind_run _ _ _ _ _ Hk).
    change (after 1 (after 2 s)) with (after 3 s).
    rewrite (bind_run _ _ _ _ _ Ho). apply maybe_null_after. }
  rewrite (bind_run _ _ _ _ _ Hcount) in Hrun.
  assert (Hfield :
    (r <- Traffic.generate_road_condition (Weather.weather_condition w) ;;
     maybe_null (Traffic.null_ratio cfg) (VStr r)) (after 1 s2)
    = (Ok road, after 1 s3)).
  { rewrite (bind_run _ _ _ _ _ Hroad), maybe_null_after, Hval.
    reflexivity. }
  rewrite (bind_run _ _ _ _ _ Hfield) in Hrun.
  match type of Hrun with
  | ?m ?s0 = _ =>
      assert (Hpost : post m (fun r => Traffic.road_condition r = road)
                        (fun _ => True))
  end.
  { repeat (eapply post_bind; [apply post_trivial | intros ? _]).
    apply post_ret. reflexivity. }
  match type of Hrun with
  | ?m ?s0 = _ => specialize (Hpost s0); rewrite Hrun in Hpost
  end.
  exact Hpost.
Qed.

(** C8. [generate_road_condition] returns "Snowy" for the weather
    condition Snow and "Wet" for Rain or Storm, without drawing; for any
    other weather condition (a null one included) it takes one draw and
    returns "Damaged" when the draw is below 0.05 and "Dry" otherwise.  In
    the generated traffic row the stored road condition is that value
    passed through [maybe_null] on the next draw: it is null exactly when
    that draw is below the null probability, and otherwise Snowy for Snow,
    Wet for Rain or Storm, and Damaged or Dry by the residual draw for the
    other conditions.  The draws are at fixed places of the row's draw
    sequence, [road_draw_position] and the one after it. *)
Theorem road_condition_forced {parser : DateParser}
    (cfg : Traffic.config) (i : Z) (w : Weather.row) (s : rand_state) :
  (Traffic.generate_road_condition (VStr "Snow") s = (Ok "Snowy", s)
   /\ Traffic.generate_road_condition (VStr "Rain") s = (Ok "Wet", s)
   /\ Traffic.generate_road_condition (VStr "Storm") s = (Ok "Wet", s)
   /\ forall wc,
        wc <> VStr "Snow" -> wc <> VStr "Rain" -> wc <> VStr "Storm" ->
        Traffic.generate_road_condition wc s
        = (Ok (if Qltb (next_random s) (5 # 100) then "Damaged" else "Dry"),
           after 1 s))
  /\ exists r s',
       Traffic.generate_row cfg i w s = (Ok r, s')
       /\ let wc := Weather.weather_condition w in
          let null_ratio := Traffic.null_ratio cfg in
          let p := road_draw_position cfg s in
          (wc = VStr "Snow" ->
           Traffic.road_condition r
           = if Qltb (draw_at s p) null_ratio then VNone else VStr "Snowy")
          /\ (wc = VStr "Rain" \/ wc = VStr "Storm" ->
              Traffic.road_condition r
              = if Qltb (draw_at s p) null_ratio then VNone else VStr "Wet")
          /\ (wc <> VStr "Snow" -> wc <> VStr "Rain" -> wc <> VStr "Storm" ->
              Traffic.road_condition r
              = if Qltb (draw_at s (S p)) null_ratio then VNone
                else VStr (if Qltb (draw_at s p) (5 # 100)
                           then "Damaged" else "Dry")).
Proof.
  split.
  - split; [reflexivity |]. split; [reflexivity |]. split; [reflexivity |].
    intros wc. apply generate_road_condition_residual.
  - destruct (returns_run _ _ (traffic_row_spec cfg i w) s)
      as (r & s' & Hrun & _).
    exists r, s'. split; [exact Hrun |]. cbv zeta.
    assert (Hpos :
      forall k, draw_at s (k + road_draw_position cfg s)
      = next_random
          (after k (after 1 (after (if Qltb (next_random (after 3 s))
                                         (Traffic.outlier_ratio cfg)
                                    then 3 else 1) (after 3 s))))).
    { intros k. unfold road_draw_position, draw_at, next_random. cbv zeta.
      change (unit_float (tape (py_random (after 3 s))
                            (pos (py_random (after 3 s)))))
        with (unit_float (tape (py_random s) (3 + pos (py_random s)))).
      destruct (Qltb _ (Traffic.outlier_ratio cfg)); simpl; f_equal; f_equal;
        lia. }
    pose proof (Hpos 0%nat) as H0. pose proof (Hpos 1%nat) as H1.
    cbn [Nat.add] in H0, H1. clear Hpos.
    split; [| split].
    + intros Hwc.
      eapply (road_condition_stored cfg i w s); [| | exact Hrun].
      * rewrite Hwc. reflexivity.
      * rewrite H0. reflexivity.
    + intros Hwc.
      eapply (road_condition_stored cfg i w s); [| | exact Hrun].
      * destruct Hwc as [Hwc | Hwc]; rewrite Hwc; reflexivity.
      * rewrite H0. reflexivity.
    + intros Hsnow Hrain Hstorm.
      eapply (road_condition_stored cfg i w s); [| | exact Hrun].
      * apply generate_road_condition_residual; assumption.
      * rewrite H1, H0. reflexivity.
Qed.



(** ** The merger *)

Lemma option_eqb_eq {A} (eqb : A -> A -> bool) (a b : option A) :
  (forall x y, eqb x y = true <-> x = y) ->
  Merge.option_eqb eqb a b = true <-> a = b.
Proof.
  intros H.
  destruct a as [x |], b as [y |]; simpl; split; intros E;
    try discriminate; try reflexivity.
  - apply H in E. congruence.
  - inversion E. apply H. reflexivity.
Qed.

Lemma key_eqb_eq (a b : Merge.merge_key) : Merge.key_eqb a b = true <-> a = b.
Proof.
  destruct a as [d1 c1], b as [d2 c2]. unfold Merge.key_eqb; simpl.
  rewrite andb_true_iff.
  pose proof (option_eqb_eq Z.eqb d1 d2 Z.eqb_eq) as Hd.
  pose proof (option_eqb_eq String.eqb c1 c2 String.eqb_eq) as Hc.
  split.
  - intros [E1 E2]. apply Hd in E1. apply Hc in E2. congruence.
  - intros E. inversion E; subst. split; [apply Hd | apply Hc]; reflexivity.
Qed.

Lemma filter_at_most_one {A K} (f : A -> K) (p : A -> bool) (l : list A) :
  NoDup (map f l) ->
  (forall x y, p x = true -> p y = true -> f x = f y) ->
  (List.length (filter p l) <= 1)%nat.
Proof.
  intros Hnd Hp. induction l as [| x xs IH]; simpl; [lia |].
  simpl in Hnd. inversion Hnd as [| ? ? Hnotin Hnd']; subst.
  destruct (p x) eqn:Ex; [| apply IH; exact Hnd'].
  assert (Hnil : filter p xs = []).
  { destruct (filter p xs) as [| y ys] eqn:Ef; [reflexivity |].
    assert (Hy : In y (filter p xs)) by (rewrite Ef; left; reflexivity).
    apply filter_In in Hy. destruct Hy as [Hin Hpy].
    exfalso. apply Hnotin. rewrite (Hp x y Ex Hpy).
    apply in_map; exact Hin. }
  rewrite Hnil. simpl. lia.
Qed.

Section MergeBounds.
Variables T W : Type.
Implicit Types (traffic_df : list (Merge.frame_row (option Timestamp) T))
               (weather_df : list (Merge.frame_row (option Timestamp) W)).

Lemma merge_cons_traffic t traffic_df weather_df :
  List.length (Merge.pd_merge_inner (t :: traffic_df) weather_df)
  = (List.length
       (filter (fun w => Merge.key_eqb (Merge.key_of w) (Merge.key_of t))
               weather_df)
     + List.length (Merge.pd_merge_inner traffic_df weather_df))%nat.
Proof.
  unfold Merge.pd_merge_inner. simpl.
  rewrite length_app, length_map. reflexivity.
Qed.

Lemma merge_cons_weather w traffic_df weather_df :
  List.length (Merge.pd_merge_inner traffic_df (w :: weather_df))
  = (List.length
       (filter (fun t => Merge.key_eqb (Merge.key_of w) (Merge.key_of t))
               traffic_df)
     + List.length (Merge.pd_merge_inner traffic_df weather_df))%nat.
Proof.
  induction traffic_df as [| t ts IH].
  - reflexivity.
  - rewrite !merge_cons_traffic. simpl filter at 1 2.
    destruct (Merge.key_eqb (Merge.key_of w) (Merge.key_of t)); simpl;
      rewrite IH; lia.
Qed.

Lemma merge_nil_weather traffic_df :
  Merge.pd_merge_inner (W:=W) traffic_df [] = [].
Proof.
  unfold Merge.pd_merge_inner.
  induction traffic_df as [| t ts IH]; simpl; auto.
Qed.

(** With unique weather keys every traffic row matches at most once. *)
Lemma merge_le_traffic traffic_df weather_df :
  NoDup (map Merge.key_of weather_df) ->
  (List.length (Merge.pd_merge_inner traffic_df weather_df)
   <= List.length traffic_df)%nat.
Proof.
  intros Hnd. induction traffic_df as [| t ts IH]; [simpl; lia |].
  rewrite merge_cons_traffic. simpl List.length.
  assert (H1 : (List.length
                  (filter (fun w => Merge.key_eqb (Merge.key_of w)
                                      (Merge.key_of t)) weather_df)
                <= 1)%nat).
  { apply (filter_at_most_one Merge.key_of); [exact Hnd |].
    intros x y Hx Hy. apply key_eqb_eq in Hx, Hy. congruence. }
  lia.
Qed.

(** With unique traffic keys every weather row matches at most once. *)
Lemma merge_le_weather traffic_df weather_df :
  NoDup (map Merge.key_of traffic_df) ->
  (List.length (Merge.pd_merge_inner traffic_df weather_df)
   <= List.length weather_df)%nat.
Proof.
  intros Hnd. induction weather_df as [| w ws IH].
  - rewrite merge_nil_weather. simpl; lia.
  - rewrite merge_cons_weather. simpl List.length.
    assert (H1 : (List.length
                    (filter (fun t => Merge.key_eqb (Merge.key_of w)
                                        (Merge.key_of t)) traffic_df)
                  <= 1)%nat).
    { apply (filter_at_most_one Merge.key_of); [exact Hnd |].
      intros x y Hx Hy. apply key_eqb_eq in Hx, Hy. congruence. }
    lia.
Qed.

End MergeBounds.

(** C3 (amended). When the (timestamp, city) keys are unique within the
    weather table and within the traffic table, the inner join has at most
    [min(weather rows, traffic rows)] rows. *)
Theorem merge_bound_unique_keys (T W : Type)
    (traffic_df : list (Merge.frame_row (option Timestamp) T))
    (weather_df : list (Merge.frame_row (option Timestamp) W)) :
  NoDup (map Merge.key_of traffic_df) ->
  NoDup (map Merge.key_of weather_df) ->
  (List.length (Merge.pd_merge_inner traffic_df weather_df)
   <= Nat.min (List.length weather_df) (List.length traffic_df))%nat.
Proof.
  intros Ht Hw.
  pose proof (merge_le_traffic T W traffic_df weather_df Hw).
  pose proof (merge_le_weather T W traffic_df weather_df Ht).
  lia.
Qed.

(** Three traffic rows and two weather rows, all keys distinct per table. *)
Lemma merge_bound_unique_keys_witness :
  (List.length
     (Merge.pd_merge_inner
        [keyed base 9001; keyed (add_hours base 2) 9002;
         keyed (add_hours base 4) 9003]
        [keyed base 5001; keyed (add_hours base 2) 5002])
   <= 2)%nat.
Proof.
  apply (merge_bound_unique_keys Z Z
           [keyed base 9001; keyed (add_hours base 2) 9002;
            keyed (add_hours base 4) 9003]
           [keyed base 5001; keyed (add_hours base 2) 5002]).
  - vm_compute. repeat constructor; simpl; intuition discriminate.
  - vm_compute. repeat constructor; simpl; intuition discriminate.
Defined.

(** C3 (counterexample). Two weather rows and two traffic rows that all
    carry the same key, as the duplicate tails of the generators produce,
    join to four rows. *)
Lemma merge_bound_law_fails : ~ merge_bound_law.
Proof.
  intros Hlaw.
  specialize (Hlaw Z Z [keyed base 9001; keyed base 9001]
                [keyed base 5001; keyed base 5001]).
  vm_compute in Hlaw. lia.
Qed.

(** When the join is not empty the merged table is written and the success
    line printed. *)
Lemma nonempty_join_saved {sp : SeriesParser} (T W : Type)
    (st : Merge.world T W) weather_df traffic_df row rows :
  Merge.silver_weather st = Some weather_df ->
  Merge.silver_traffic st = Some traffic_df ->
  Merge.merge_frames weather_df traffic_df = Ok (row :: rows) ->
  exists st',
    Merge.merge_data st = (Ok tt, st')
    /\ Merge.gold_merged st' = Some (row :: rows)
    /\ Merge.stdout st'
       = (Merge.stdout st
          ++ [Merge.Text "Phase 4: Merging Datasets (Silver -> Gold)...";
              Merge.Text "Reading weather data...";
              Merge.Text "Reading traffic data...";
              Merge.Text "Merging datasets...";
              Merge.MergedDataShape (Datatypes.S (List.length rows));
              Merge.SavingTo Merge.output_path;
              Merge.Text "Merged dataset saved to Gold Layer."])%list.
Proof.
  intros Hw Ht Hjoin. unfold Merge.merge_frames in Hjoin.
  destruct (Merge.convert_date_time weather_df) as [wdf |] eqn:Ew;
    [| discriminate].
  destruct (Merge.convert_date_time traffic_df) as [tdf |] eqn:Et;
    [| discriminate].
  inversion Hjoin as [Hm].
  eexists. unfold Merge.merge_data, bind, try_except, Merge.print,
    Merge.read_parquet, Merge.to_parquet, lift, ret, raise; simpl.
  repeat (first [rewrite Hw | rewrite Ht | rewrite Ew | rewrite Et
                 | rewrite Hm]; simpl).
  split; [reflexivity |]. split; [reflexivity |].
  simpl. rewrite <- !app_assoc. reflexivity.
Qed.

(** C2. When the inner join of the two stored tables has no row,
    [merge_data] raises the validation error, which its handler prints as
    the last line; the merged table in the store is left as it was and the
    success line is not printed. *)
Theorem empty_join_reported {sp : SeriesParser} (T W : Type)
    (st : Merge.world T W) weather_df traffic_df :
  Merge.silver_weather st = Some weather_df ->
  Merge.silver_traffic st = Some traffic_df ->
  Merge.merge_frames weather_df traffic_df = Ok [] ->
  exists st',
    Merge.merge_data st = (Ok tt, st')
    /\ Merge.gold_merged st' = Merge.gold_merged st
    /\ Merge.silver_weather st' = Merge.silver_weather st
    /\ Merge.silver_traffic st' = Merge.silver_traffic st
    /\ Merge.stdout st'
       = (Merge.stdout st
          ++ [Merge.Text "Phase 4: Merging Datasets (Silver -> Gold)...";
              Merge.Text "Reading weather data...";
              Merge.Text "Reading traffic data...";
              Merge.Text "Merging datasets...";
              Merge.MergedDataShape 0;
              Merge.ErrorDuringMerge Merge.zero_rows_error])%list.
Proof.
  intros Hw Ht Hjoin. unfold Merge.merge_frames in Hjoin.
  destruct (Merge.convert_date_time weather_df) as [wdf |] eqn:Ew;
    [| discriminate].
  destruct (Merge.convert_date_time traffic_df) as [tdf |] eqn:Et;
    [| discriminate].
  inversion Hjoin as [Hm].
  exists {| Merge.silver_weather := Merge.silver_weather st;
            Merge.silver_traffic := Merge.silver_traffic st;
            Merge.gold_merged := Merge.gold_merged st;
            Merge.stdout :=
              (Merge.stdout st
               ++ [Merge.Text "Phase 4: Merging Datasets (Silver -> Gold)...";
                   Merge.Text "Reading weather data...";
                   Merge.Text "Reading traffic data...";
                   Merge.Text "Merging datasets...";
                   Merge.MergedDataShape 0;
                   Merge.ErrorDuringMerge Merge.zero_rows_error])%list |}.
  split; [| simpl; auto].
  unfold Merge.merge_data, bind, try_except, Merge.print,
    Merge.read_parquet, Merge.to_parquet, lift, ret, raise; simpl.
  repeat (first [rewrite Hw | rewrite Ht | rewrite Ew | rewrite Et
                 | rewrite Hm]; simpl).
  rewrite <- !app_assoc. reflexivity.
Qed.

(** A store whose weather and traffic tables have different timestamps. *)
Lemma empty_join_reported_witness :
  exists st',
    Merge.merge_data (sp:=iso_series_parser) disjoint_world = (Ok tt, st')
    /\ Merge.gold_merged st' = None
    /\ Merge.silver_weather st' = Some [silver "2024-01-01 00:00" 5001]
    /\ Merge.silver_traffic st' = Some [silver "2024-01-01 02:00" 9001]
    /\ Merge.stdout st'
       = [Merge.Text "Phase 4: Merging Datasets (Silver -> Gold)...";
          Merge.Text "Reading weather data...";
          Merge.Text "Reading traffic data...";
          Merge.Text "Merging datasets...";
          Merge.MergedDataShape 0;
          Merge.ErrorDuringMerge Merge.zero_rows_error].
Proof.
  apply (@empty_join_reported iso_series_parser Z Z disjoint_world
           [silver "2024-01-01 00:00" 5001] [silver "2024-01-01 02:00" 9001]).
  - reflexivity.
  - reflexivity.
  - vm_compute. reflexivity.
Defined.

(* ================================================================== *)
(** * Further properties of the generators and the merger *)

(** ** Rounding *)

Lemma round_half_even_mono (q q' : Q) :
  (q <= q')%Q -> round_half_even q <= round_half_even q'.
Proof.
  intros H.
  pose proof (Qfloor_resp_le _ _ H) as Hf.
  pose proof (round_half_even_floor q) as [_ Hhi].
  pose proof (round_half_even_floor q') as [Hlo' _].
  destruct (Z.eq_dec (Qfloor q) (Qfloor q')) as [Heq | Hne]; [| lia].
  unfold round_half_even. rewrite <- Heq.
  destruct (Qcompare (q - inject_Z (Qfloor q)) (1 # 2)) eqn:E;
    destruct (Qcompare (q' - inject_Z (Qfloor q)) (1 # 2)) eqn:E';
    try (destruct (Z.even (Qfloor q))); try lia;
    repeat match goal with
           | H : Qcompare _ _ = Eq |- _ => apply Qeq_alt in H
           | H : Qcompare _ _ = Lt |- _ => apply Qlt_alt in H
           | H : Qcompare _ _ = Gt |- _ => apply Qgt_alt in H
           end; lra.
Qed.

Lemma round2_mono (q q' : Q) : (q <= q')%Q -> (round2 q <= round2 q')%Q.
Proof.
  intros H. unfold round2, Qle; simpl.
  assert (H100 : (q * 100 <= q' * 100)%Q) by lra.
  apply round_half_even_mono in H100. lia.
Qed.

Lemma round2_between (lo hi : Z) (x : Q) :
  (inject_Z lo <= x)%Q -> (x <= inject_Z hi)%Q ->
  (inject_Z lo <= round2 x)%Q /\ (round2 x <= inject_Z hi)%Q.
Proof.
  intros Hlo Hhi.
  assert (H1 : (inject_Z (lo * 100) <= x * 100)%Q).
  { rewrite inject_Z_mult. change (inject_Z 100) with 100%Q. lra. }
  assert (H2 : (x * 100 <= inject_Z (hi * 100))%Q).
  { rewrite inject_Z_mult. change (inject_Z 100) with 100%Q. lra. }
  apply round_half_even_ge in H1. apply round_half_even_le in H2.
  unfold round2, Qle; simpl. split; lia.
Qed.

Lemma rounded_uniform_between (lo hi : Z) :
  lo <= hi ->
  returns (x <- random_uniform (inject_Z lo) (inject_Z hi) ;; ret (round2 x))
          (fun t => (inject_Z lo <= t)%Q /\ (t <= inject_Z hi)%Q).
Proof.
  intros H.
  eapply post_bind.
  - apply returns_random_uniform. rewrite <- Zle_Qle. exact H.
  - intros x [Hlo Hhi]. apply post_ret. apply round2_between; assumption.
Qed.

(** ** Weather: ranges of the field generators *)

Ltac season_cases season :=
  unfold Weather.dict_get;
  destruct (py_eq_str season "Winter") eqn:Ewinter;
  [| destruct (py_eq_str season "Spring") eqn:Espring;
     [| destruct (py_eq_str season "Summer") eqn:Esummer;
        [| destruct (py_eq_str season "Autumn") eqn:Eautumn]]];
  repeat match goal with
         | H : py_eq_str _ _ = true |- _ => apply py_eq_str_true in H
         | H : py_eq_str _ _ = false |- _ => apply py_eq_str_false in H
         end.

Ltac season_finish :=
  repeat match goal with |- _ /\ _ => split end;
  intros; subst; try discriminate; try congruence;
  unfold inject_Z in *; try lra; try lia.

Lemma temperature_by_season_spec (season : pyval) :
  returns (Weather.temperature_by_season season) (temperature_for season).
Proof.
  unfold Weather.temperature_by_season, temperature_for.
  season_cases season; cbv iota beta.
  - eapply returns_weaken; [apply (rounded_uniform_between (-5) 15); lia |].
    intros t [Hlo Hhi]. season_finish.
  - eapply returns_weaken; [apply (rounded_uniform_between 5 20); lia |].
    intros t [Hlo Hhi]. season_finish.
  - eapply returns_weaken; [apply (rounded_uniform_between 10 35); lia |].
    intros t [Hlo Hhi]. season_finish.
  - eapply returns_weaken; [apply (rounded_uniform_between 5 25); lia |].
    intros t [Hlo Hhi]. season_finish.
  - eapply returns_weaken; [apply (rounded_uniform_between 0 30); lia |].
    intros t [Hlo Hhi]. season_finish.
Qed.

(** X1. [temperature_by_season] returns a temperature inside the range of
    its season: Winter -5..15, Spring 5..20, Summer 10..35, Autumn 5..25, and
    0..30 for any other cell (a null season included); so always within
    -5..35. *)
Theorem temperature_within_season_range (season : pyval) (s : rand_state) :
  exists t s',
    Weather.temperature_by_season season s = (Ok t, s')
    /\ (season = VStr "Winter" -> (-5 <= t)%Q /\ (t <= 15)%Q)
    /\ (season = VStr "Spring" -> (5 <= t)%Q /\ (t <= 20)%Q)
    /\ (season = VStr "Summer" -> (10 <= t)%Q /\ (t <= 35)%Q)
    /\ (season = VStr "Autumn" -> (5 <= t)%Q /\ (t <= 25)%Q)
    /\ (season <> VStr "Winter" -> season <> VStr "Spring" ->
        season <> VStr "Summer" -> season <> VStr "Autumn" ->
        (0 <= t)%Q /\ (t <= 30)%Q)
    /\ (-5 <= t)%Q /\ (t <= 35)%Q.
Proof. apply (returns_run _ _ (temperature_by_season_spec season)). Qed.

Lemma generate_humidity_spec (season : pyval) :
  returns (Weather.generate_humidity season) (humidity_for season).
Proof.
  unfold Weather.generate_humidity, humidity_for.
  season_cases season; cbv iota beta.
  - eapply returns_weaken; [apply (returns_random_randint 40 90); lia |].
    intros h Hh. cbv beta in Hh. season_finish.
  - eapply returns_weaken; [apply (returns_random_randint 30 80); lia |].
    intros h Hh. cbv beta in Hh. season_finish.
  - eapply returns_weaken; [apply (returns_random_randint 20 70); lia |].
    intros h Hh. cbv beta in Hh. season_finish.
  - eapply returns_weaken; [apply (returns_random_randint 50 100); lia |].
    intros h Hh. cbv beta in Hh. season_finish.
  - eapply returns_weaken; [apply (returns_random_randint 20 100); lia |].
    intros h Hh. cbv beta in Hh. season_finish.
Qed.

(** X2. [generate_humidity] returns an integer inside the range of its
    season: Winter 40..90, Spring 30..80, Summer 20..70, Autumn 50..100, and
    20..100 for any other cell; so always within 20..100. *)
Theorem humidity_within_season_range (season : pyval) (s : rand_state) :
  exists h s',
    Weather.generate_humidity season s = (Ok h, s')
    /\ (season = VStr "Winter" -> 40 <= h <= 90)
    /\ (season = VStr "Spring" -> 30 <= h <= 80)
    /\ (season = VStr "Summer" -> 20 <= h <= 70)
    /\ (season = VStr "Autumn" -> 50 <= h <= 100)
    /\ (season <> VStr "Winter" -> season <> VStr "Spring" ->
        season <> VStr "Summer" -> season <> VStr "Autumn" ->
        20 <= h <= 100)
    /\ 20 <= h <= 100.
Proof. apply (returns_run _ _ (generate_humidity_spec season)). Qed.

Lemma post_bind_lift {S A B} (r : exc A) (k : A -> M S B)
    (Q : B -> Prop) (E : pyexn -> Prop) :
  match r with Ok a => post (k a) Q E | Raise e => E e end ->
  post (bind (lift r) k) Q E.
Proof.
  intros H s. unfold bind, lift. destruct r as [a | e]; simpl.
  - apply H.
  - exact H.
Qed.

Lemma py_cmp_value op (v : pyval) (c q : Q) :
  numeric_value v = Some q -> py_cmp op v c = Ok (op q c).
Proof. destruct v; simpl; intros H; inversion H; reflexivity. Qed.

Ltac rain_numeric q :=
  unfold py_lt, py_cmp; cbn [py_num];
  apply post_bind_lift;
  destruct (Qltb q 60) eqn:E60; bool_to_Q;
  [ apply post_ret; repeat split; try lra; intros; try lra;
    try discriminate; reflexivity |];
  eapply post_bind; [apply returns_random_random |];
  intros u _; cbv beta;
  destruct (Qltb (3 # 10) u);
  [ apply post_ret; repeat split; try lra; intros; try lra;
    try discriminate; reflexivity |];
  apply post_bind_lift;
  destruct (Qltb q 80) eqn:E80; bool_to_Q;
  (eapply returns_weaken;
   [ first [ apply (rounded_uniform_between 1 15); lia
           | apply (rounded_uniform_between 10 80); lia ] |];
   intros x [Hlo Hhi]; unfold inject_Z in Hlo, Hhi;
   repeat split; try lra; intros; try discriminate;
   match goal with
   | H : numeric_value _ = Some _ |- _ => simpl in H; inversion H; subst; lra
   end).

Lemma generate_rain_spec (humidity : pyval) :
  num_or_null humidity ->
  returns (Weather.generate_rain humidity) (rain_for humidity).
Proof.
  intros Hnum. unfold Weather.generate_rain, rain_for.
  destruct humidity as [| z | q | |]; try contradiction.
  - eapply returns_weaken; [apply (rounded_uniform_between 0 20); lia |].
    intros x [Hlo Hhi]. unfold inject_Z in Hlo, Hhi.
    repeat split; try lra; intros q Hq; discriminate.
  - rain_numeric (inject_Z z).
  - rain_numeric q.
Qed.

(** X3. [generate_rain] never returns a negative amount: for a null or
    numeric humidity it returns a value within 0..80, at most 20 for a null
    humidity and at most 15 for a humidity below 80.  A humidity below 60
    gives exactly 0 without reading the random source.  A textual humidity
    raises [TypeError]. *)
Theorem rain_from_humidity (humidity : pyval) (s : rand_state) :
  (num_or_null humidity ->
   exists x s',
     Weather.generate_rain humidity s = (Ok x, s')
     /\ (0 <= x)%Q /\ (x <= 80)%Q
     /\ (humidity = VNone -> (x <= 20)%Q)
     /\ (forall q, numeric_value humidity = Some q -> (q < 80)%Q ->
         (x <= 15)%Q))
  /\ (forall q, numeric_value humidity = Some q -> (q < 60)%Q ->
      Weather.generate_rain humidity s = (Ok 0%Q, s))
  /\ (forall txt, humidity = VStr txt ->
      fst (Weather.generate_rain humidity s) = Raise TypeError).
Proof.
  split; [| split].
  - intros Hnum.
    destruct (returns_run _ _ (generate_rain_spec humidity Hnum) s)
      as (x & s' & Hrun & H0 & H80 & Hnone & H15 & _).
    exists x, s'. auto.
  - intros q Hq Hlt. apply Qltb_true in Hlt.
    destruct humidity; simpl in Hq; inversion Hq; subst;
      unfold Weather.generate_rain, py_lt, py_cmp, bind, lift, ret;
      cbn [py_num]; rewrite Hlt; reflexivity.
  - intros txt ->. reflexivity.
Qed.

Lemma generate_wind_speed_spec (weather_condition : pyval) :
  returns (Weather.generate_wind_speed weather_condition)
    (wind_for weather_condition).
Proof.
  unfold Weather.generate_wind_speed, wind_for. cbv zeta.
  assert (Htyp :
    returns (x <- random_uniform 0 80 ;; ret (round2 x))
      (fun x => (0 <= x)%Q /\ (x <= 150)%Q
                /\ (weather_condition <> VStr "Storm" -> (x <= 80)%Q))).
  { eapply returns_weaken; [apply (rounded_uniform_between 0 80); lia |].
    intros x [Hlo Hhi]. unfold inject_Z in Hlo, Hhi.
    repeat split; try lra. }
  destruct (py_eq_str weather_condition "Storm") eqn:E; [| exact Htyp].
  apply py_eq_str_true in E.
  eapply post_bind; [apply returns_random_random |].
  intros u _. cbv beta.
  destruct (Qltb u (2 # 10)).
  { eapply returns_weaken; [apply (rounded_uniform_between 100 150); lia |].
    intros x [Hlo Hhi]. unfold inject_Z in Hlo, Hhi.
    repeat split; try lra. intros; congruence. }
  eapply post_bind; [apply returns_random_random |].
  intros u' _. cbv beta.
  destruct (Qltb u' (py_float (6 # 10))); [| exact Htyp].
  eapply returns_weaken; [apply (rounded_uniform_between 50 80); lia |].
  intros x [Hlo Hhi]. unfold inject_Z in Hlo, Hhi.
  repeat split; try lra.
Qed.

(** X4. [generate_wind_speed] returns a speed within 0..150, and within
    0..80 unless the weather condition is Storm. *)
Theorem wind_speed_range (weather_condition : pyval) (s : rand_state) :
  exists x s',
    Weather.generate_wind_speed weather_condition s = (Ok x, s')
    /\ (0 <= x)%Q /\ (x <= 150)%Q
    /\ (weather_condition <> VStr "Storm" -> (x <= 80)%Q).
Proof. apply (returns_run _ _ (generate_wind_speed_spec weather_condition)). Qed.

Lemma py_in_strs_false (v : pyval) (l : list string) :
  py_in_strs v l = false -> forall s, In s l -> v <> VStr s.
Proof.
  unfold py_in_strs. intros H s Hin Hv.
  assert (Ht : existsb (py_eq_str v) l = true).
  { apply existsb_exists. exists s. split; [exact Hin |].
    apply py_eq_str_true; exact Hv. }
  congruence.
Qed.

Lemma py_in_strs_true (v : pyval) (l : list string) :
  py_in_strs v l = true -> exists s, In s l /\ v = VStr s.
Proof.
  unfold py_in_strs. intros H. apply existsb_exists in H.
  destruct H as (s & Hin & Hs). apply py_eq_str_true in Hs. eauto.
Qed.

Lemma generate_visibility_spec (weather_condition : pyval) :
  returns (Weather.generate_visibility weather_condition)
    (visibility_reading_for weather_condition).
Proof.
  unfold Weather.generate_visibility, visibility_reading_for. cbv zeta.
  assert (Hgood :
    returns (k <- random_randint 8000 12000 ;; ret (VInt k))
      (fun v => (exists txt, v = VStr txt /\ In txt visibility_sentinels)
                \/ (exists k, v = VInt k /\ 50 <= k <= 12000
                    /\ (weather_condition <> VStr "Fog" ->
                        weather_condition <> VStr "Rain" ->
                        weather_condition <> VStr "Storm" ->
                        weather_condition <> VStr "Snow" -> 8000 <= k)))).
  { eapply post_bind; [apply (returns_random_randint 8000 12000); lia |].
    intros k Hk. cbv beta in Hk. apply post_ret. right. exists k.
    repeat split; try lia. }
  eapply post_bind; [apply returns_random_random |].
  intros u _. cbv beta.
  destruct (Qltb u (3 # 100)).
  { eapply post_bind; [apply returns_random_choice; discriminate |].
    intros txt Htxt. apply post_ret. left. exists txt. auto. }
  destruct (py_in_strs weather_condition ["Fog"; "Rain"; "Storm"; "Snow"])
    eqn:Eadv; [| exact Hgood].
  apply py_in_strs_true in Eadv. destruct Eadv as (name & Hin & Hname).
  assert (Hadv : forall k, 50 <= k <= 12000 ->
    (exists txt, VInt k = VStr txt /\ In txt visibility_sentinels)
    \/ (exists k', VInt k = VInt k' /\ 50 <= k' <= 12000
        /\ (weather_condition <> VStr "Fog" ->
            weather_condition <> VStr "Rain" ->
            weather_condition <> VStr "Storm" ->
            weather_condition <> VStr "Snow" -> 8000 <= k'))).
  { intros k Hk. right. exists k. repeat split; try lia.
    intros. exfalso. simpl in Hin.
    destruct Hin as [<- | [<- | [<- | [<- | []]]]]; contradiction. }
  eapply post_bind; [apply returns_random_random |].
  intros u1 _. cbv beta.
  destruct (Qltb u1 (15 # 100)).
  { eapply post_bind; [apply (returns_random_randint 50 1000); lia |].
    intros k Hk. cbv beta in Hk. apply post_ret. apply Hadv. lia. }
  eapply post_bind; [apply returns_random_random |].
  intros u2 _. cbv beta.
  destruct (Qltb u2 (py_float (6 # 10))); [| exact Hgood].
  eapply post_bind; [apply (returns_random_randint 1000 8000); lia |].
  intros k Hk. cbv beta in Hk. apply post_ret. apply Hadv. lia.
Qed.

(** X5. [generate_visibility] returns one of the four textual sentinels or
    an integer within 50..12000; unless the weather condition is Fog, Rain,
    Storm or Snow, an integer reading is at least 8000. *)
Theorem visibility_reading_range (weather_condition : pyval)
    (s : rand_state) :
  exists v s',
    Weather.generate_visibility weather_condition s = (Ok v, s')
    /\ ((exists txt, v = VStr txt
                     /\ In txt ["unknown"; "N/A"; "error"; "???"])
        \/ (exists k, v = VInt k /\ 50 <= k <= 12000
                      /\ (weather_condition <> VStr "Fog" ->
                          weather_condition <> VStr "Rain" ->
                          weather_condition <> VStr "Storm" ->
                          weather_condition <> VStr "Snow" -> 8000 <= k))).
Proof.
  apply (returns_run _ _ (generate_visibility_spec weather_condition)).
Qed.

Ltac split4 := split; [| split; [| split]].

Ltac pressure_temperature q :=
  unfold py_gt, py_lt, py_cmp; cbn [py_num];
  apply post_bind_lift;
  destruct (Qltb 30 q) eqn:Ehot; bool_to_Q;
  [ apply post_ret; cbn [fst snd]; split4; try lra;
    intros Hc [Hn | (t & Ht & Ht0 & Ht30)];
    [discriminate | simpl in Ht; inversion Ht; subst; lra] |];
  apply post_bind_lift;
  destruct (Qltb q 0) eqn:Ecold; bool_to_Q;
  [ apply post_ret; cbn [fst snd]; split4; try lra;
    intros Hc [Hn | (t & Ht & Ht0 & Ht30)];
    [discriminate | simpl in Ht; inversion Ht; subst; lra]
  | apply post_ret; split4; try lra; intros Hc _; auto ].

Lemma generate_air_pressure_spec (weather_condition temperature_c : pyval) :
  num_or_null temperature_c ->
  returns (Weather.generate_air_pressure weather_condition temperature_c)
    (pressure_for weather_condition temperature_c).
Proof.
  intros Hnum. unfold Weather.generate_air_pressure.
  set (calm := weather_condition <> VStr "Storm"
               /\ weather_condition <> VStr "Rain"
               /\ weather_condition <> VStr "Snow").
  eapply (post_bind _ _
            (fun b => (950 <= fst b)%Q /\ (fst b <= snd b)%Q
                      /\ (snd b <= 1050)%Q
                      /\ (calm -> fst b = 990%Q /\ snd b = 1030%Q))).
  { destruct (py_eq_str weather_condition "Storm") eqn:Estorm.
    { apply py_eq_str_true in Estorm.
      eapply post_bind; [apply (returns_random_uniform 950 970); lra |].
      intros low [Hl1 Hl2].
      eapply post_bind; [apply (returns_random_uniform 980 1000); lra |].
      intros high [Hh1 Hh2]. apply post_ret. cbn [fst snd].
      split4; try lra. intros (Hc & _). contradiction. }
    destruct (py_in_strs weather_condition ["Rain"; "Snow"]) eqn:Ewet.
    { apply py_in_strs_true in Ewet. destruct Ewet as (name & Hin & Hname).
      eapply post_bind; [apply (returns_random_uniform 960 990); lra |].
      intros low [Hl1 Hl2].
      eapply post_bind; [apply (returns_random_uniform 1000 1050); lra |].
      intros high [Hh1 Hh2]. apply post_ret. cbn [fst snd].
      split4; try lra. intros (_ & Hr & Hs). exfalso. simpl in Hin.
      destruct Hin as [<- | [<- | []]]; contradiction. }
    apply post_ret. cbn [fst snd]. split4; try lra. intros _. auto. }
  intros b (Hb1 & Hb2 & Hb3 & Hcalm).
  eapply (post_bind _ _
            (fun b' => (940 <= fst b')%Q /\ (fst b' <= snd b')%Q
                       /\ (snd b' <= 1060)%Q
                       /\ (calm ->
                           (temperature_c = VNone
                            \/ exists t, numeric_value temperature_c = Some t
                                         /\ (0 <= t)%Q /\ (t <= 30)%Q) ->
                           fst b' = 990%Q /\ snd b' = 1030%Q))).
  { destruct temperature_c as [| z | q | |]; try contradiction.
    - apply post_ret. split4; try lra. intros Hc _. auto.
    - pressure_temperature (inject_Z z).
    - pressure_temperature q. }
  intros b' (Hb1' & Hb2' & Hb3' & Hmild).
  eapply post_bind; [apply (returns_random_uniform (fst b') (snd b')); lra |].
  intros x [Hx1 Hx2]. apply post_ret. unfold pressure_for.
  assert (Hall : (inject_Z 940 <= x)%Q /\ (x <= inject_Z 1060)%Q)
    by (unfold inject_Z; split; lra).
  destruct (round2_between 940 1060 x (proj1 Hall) (proj2 Hall)) as [R1 R2].
  unfold inject_Z in R1, R2.
  split; [exact R1 |]. split; [exact R2 |].
  intros Hs Hr Hw Htemp.
  destruct (Hmild (conj Hs (conj Hr Hw)) Htemp) as [E1 E2].
  rewrite E1 in Hx1. rewrite E2 in Hx2.
  assert (Hcalmx : (inject_Z 990 <= x)%Q /\ (x <= inject_Z 1030)%Q)
    by (unfold inject_Z; split; lra).
  destruct (round2_between 990 1030 x (proj1 Hcalmx) (proj2 Hcalmx))
    as [C1 C2].
  unfold inject_Z in C1, C2. split; assumption.
Qed.

(** X6. For a null or numeric temperature, [generate_air_pressure] returns
    a pressure within 940..1060, and within 990..1030 when the weather
    condition is not Storm, Rain or Snow and the temperature is null or
    within 0..30. *)
Theorem air_pressure_range (weather_condition temperature_c : pyval)
    (s : rand_state) :
  num_or_null temperature_c ->
  exists p s',
    Weather.generate_air_pressure weather_condition temperature_c s
    = (Ok p, s')
    /\ (940 <= p)%Q /\ (p <= 1060)%Q
    /\ (weather_condition <> VStr "Storm" ->
        weather_condition <> VStr "Rain" ->
        weather_condition <> VStr "Snow" ->
        (temperature_c = VNone
         \/ exists t, numeric_value temperature_c = Some t
                      /\ (0 <= t)%Q /\ (t <= 30)%Q) ->
        (990 <= p)%Q /\ (p <= 1030)%Q).
Proof.
  intros Hnum.
  apply (returns_run _ _
           (generate_air_pressure_spec weather_condition temperature_c Hnum)).
Qed.

(** A storm over a freezing -3 degrees. *)
Lemma air_pressure_range_witness :
  exists p s',
    Weather.generate_air_pressure (VStr "Storm") (VFloat (-3))
      (state_of half_tape) = (Ok p, s')
    /\ (940 <= p)%Q /\ (p <= 1060)%Q
    /\ (VStr "Storm" <> VStr "Storm" ->
        VStr "Storm" <> VStr "Rain" ->
        VStr "Storm" <> VStr "Snow" ->
        (VFloat (-3) = VNone
         \/ exists t, numeric_value (VFloat (-3)) = Some t
                      /\ (0 <= t)%Q /\ (t <= 30)%Q) ->
        (990 <= p)%Q /\ (p <= 1030)%Q).
Proof.
  apply (air_pressure_range (VStr "Storm") (VFloat (-3)) (state_of half_tape)).
  simpl. exact I.
Defined.

Lemma generate_datetime_spec (cfg : Weather.config) (index : Z) :
  0 <= index < max_rows ->
  returns (Weather.generate_datetime cfg index)
    (fun str =>
       (In str malformed_stamps \/ In str (renderings index))
       /\ ((Weather.bad_format_ratio cfg <= 0)%Q -> In str (renderings index))
       /\ ((1 <= Weather.bad_format_ratio cfg)%Q -> In str malformed_stamps)).
Proof.
  intros Hi. unfold Weather.generate_datetime.
  eapply post_bind; [apply returns_random_random |].
  intros u [Hu0 Hu1]. cbv beta.
  destruct (Qltb u (Weather.bad_format_ratio cfg)) eqn:E; bool_to_Q.
  - eapply returns_weaken; [apply returns_random_choice; discriminate |].
    intros str Hstr. repeat split; auto. intros; lra.
  - rewrite (plus_hours_in_range index Hi), bind_lift_ok.
    eapply returns_weaken; [apply returns_random_choice; discriminate |].
    intros str Hstr. repeat split; auto. intros; lra.
Qed.

(** X7. For a row position within [0, 34958088), [generate_datetime]
    returns one of the three malformed sentinels or one of the three
    renderings of [base + 2 * index] hours; with a malformed-timestamp ratio
    of 0 it is always a rendering, with a ratio of 1 always a sentinel.
    From position 34958088 on, [base + timedelta(hours=2 * index)] leaves
    the year 9999: the function still returns a sentinel when the first
    draw is below the ratio, and raises [OverflowError] otherwise. *)
Theorem datetime_sentinel_or_rendering (cfg : Weather.config) (index : Z)
    (s : rand_state) :
  (0 <= index < max_rows ->
   exists str s',
     Weather.generate_datetime cfg index s = (Ok str, s')
     /\ (In str ["2099-13-40 25:61"; "Unknown"; "TBD"]
         \/ In str [strftime "%Y-%m-%d %H:%M" (add_hours base (2 * index));
                    strftime "%d/%m/%Y %I%p" (add_hours base (2 * index));
                    strftime "%Y-%m-%dT%H:%MZ" (add_hours base (2 * index))])
     /\ ((Weather.bad_format_ratio cfg <= 0)%Q ->
         In str [strftime "%Y-%m-%d %H:%M" (add_hours base (2 * index));
                 strftime "%d/%m/%Y %I%p" (add_hours base (2 * index));
                 strftime "%Y-%m-%dT%H:%MZ" (add_hours base (2 * index))])
     /\ ((1 <= Weather.bad_format_ratio cfg)%Q ->
         In str ["2099-13-40 25:61"; "Unknown"; "TBD"]))
  /\ (max_rows <= index ->
      ((next_random s < Weather.bad_format_ratio cfg)%Q ->
       exists str s',
         Weather.generate_datetime cfg index s = (Ok str, s')
         /\ In str ["2099-13-40 25:61"; "Unknown"; "TBD"])
      /\ ((Weather.bad_format_ratio cfg <= next_random s)%Q ->
          fst (Weather.generate_datetime cfg index s) = Raise OverflowError)).
Proof.
  split.
  - intros Hi.
    apply (returns_run _ _ (generate_datetime_spec cfg index Hi)).
  - intros Hi. unfold Weather.generate_datetime.
    rewrite (bind_run _ _ _ _ _ (random_random_run s)).
    split; intros Hu.
    + apply Qltb_true in Hu. rewrite Hu.
      apply (returns_run _ _
               (returns_random_choice ["2099-13-40 25:61"; "Unknown"; "TBD"]
                  ltac:(discriminate))).
    + apply Qltb_false in Hu. rewrite Hu.
      rewrite (plus_hours_overflow index Hi), bind_lift_raise. reflexivity.
Qed.

Lemma get_season_spec {parser : DateParser} (dt_str : pyval) :
  returns (Weather.get_season dt_str)
    (fun v => exists name,
         v = VStr name /\ In name season_names
         /\ (forall t, to_datetime dt_str = Some t ->
             name = Weather.season_of_month (ts_month t))).
Proof.
  unfold Weather.get_season.
  eapply post_try with (E' := fun _ => False); [| intros e []].
  destruct (to_datetime dt_str) as [t |] eqn:E.
  - apply post_ret. exists (Weather.season_of_month (ts_month t)).
    split; [reflexivity |]. split.
    + unfold Weather.season_of_month, season_names.
      repeat match goal with
             | |- context [if ?b then _ else _] => destruct b
             end; simpl; auto.
    + intros t' Ht'. inversion Ht'. reflexivity.
  - eapply post_bind; [apply returns_random_choice; discriminate |].
    intros name Hname. apply post_ret. exists name.
    repeat split; auto. intros t Ht; discriminate.
Qed.

Lemma season_of_month_cases (m : Z) :
  (m = 12 \/ m = 1 \/ m = 2 -> Weather.season_of_month m = "Winter")
  /\ (3 <= m <= 5 -> Weather.season_of_month m = "Spring")
  /\ (6 <= m <= 8 -> Weather.season_of_month m = "Summer")
  /\ (9 <= m <= 11 -> Weather.season_of_month m = "Autumn").
Proof.
  unfold Weather.season_of_month.
  destruct (m =? 12) eqn:E12; destruct (m =? 1) eqn:E1;
    destruct (m =? 2) eqn:E2; destruct (m =? 3) eqn:E3;
    destruct (m =? 4) eqn:E4; destruct (m =? 5) eqn:E5;
    destruct (m =? 6) eqn:E6; destruct (m =? 7) eqn:E7;
    destruct (m =? 8) eqn:E8; cbn [orb];
    repeat match goal with
           | H : (_ =? _) = true |- _ => apply Z.eqb_eq in H
           | H : (_ =? _) = false |- _ => apply Z.eqb_neq in H
           end;
    repeat split; intros Hm; try reflexivity; lia.
Qed.

(** X8. [get_season] never returns null: it returns one of the four season
    names.  For a cell that parses it returns the season of the parsed month
    (12, 1, 2 Winter; 3..5 Spring; 6..8 Summer; 9..11 Autumn) without
    reading the random source, so the same from any two source states. *)
Theorem season_from_month {parser : DateParser} (dt_str : pyval)
    (s1 s2 : rand_state) :
  (exists name s',
      Weather.get_season dt_str s1 = (Ok (VStr name), s')
      /\ In name ["Winter"; "Spring"; "Summer"; "Autumn"])
  /\ (forall t, to_datetime dt_str = Some t ->
      let m := ts_month t in
      Weather.get_season dt_str s1
      = (Ok (VStr (Weather.season_of_month m)), s1)
      /\ fst (Weather.get_season dt_str s1) = fst (Weather.get_season dt_str s2)
      /\ (m = 12 \/ m = 1 \/ m = 2 -> Weather.season_of_month m = "Winter")
      /\ (3 <= m <= 5 -> Weather.season_of_month m = "Spring")
      /\ (6 <= m <= 8 -> Weather.season_of_month m = "Summer")
      /\ (9 <= m <= 11 -> Weather.season_of_month m = "Autumn")).
Proof.
  split.
  - destruct (returns_run _ _ (get_season_spec dt_str) s1)
      as (v & s' & Hrun & name & -> & Hin & _).
    exists name, s'. auto.
  - intros t Ht. cbv zeta.
    split; [| split; [| apply season_of_month_cases]];
      unfold Weather.get_season, try_except, ret; rewrite Ht; reflexivity.
Qed.

Lemma generate_weather_condition_spec (rain_mm temperature_c : pyval) :
  num_or_null rain_mm -> num_or_null temperature_c ->
  returns (Weather.generate_weather_condition rain_mm temperature_c)
          (condition_for rain_mm temperature_c).
Proof.
  intros Hr Ht s.
  unfold Weather.generate_weather_condition, condition_for,
    py_le, py_ge, py_gt, py_cmp.
  destruct temperature_c; try contradiction;
    destruct rain_mm; try contradiction; run_monad; split_cases;
    bool_to_Q; try (choice_cases; fail);
    (split; [choice_cases; simpl; tauto |]);
    repeat split; intros Hc; try discriminate Hc;
    try (choice_cases; discriminate);
    try (eexists; split; [reflexivity | lra]);
    try (left; reflexivity);
    try (right; eexists; split; [reflexivity | split; lra]).
Qed.

(** ** Weather: one generated row *)

Lemma weather_row_spec {parser : DateParser} (cfg : Weather.config) (i : Z) :
  0 <= i < max_rows ->
  returns (Weather.generate_row cfg i) (weather_row_shape cfg i).
Proof.
  intros Hi. unfold Weather.generate_row.
  eapply post_bind;
    [eapply (nulled_field _ _ VStr); apply generate_datetime_spec; exact Hi |].
  intros date_time (str & (Hstr & _ & _) & Hdate).
  eapply post_bind;
    [eapply (nulled_field _ _ (fun v => v)); apply get_season_spec |].
  intros season (sv & (name & -> & Hname & Hmonth) & Hseason).
  eapply post_bind;
    [eapply (injected_field _ _ VFloat); apply temperature_by_season_spec |].
  intros temperature_c (t & ot & Ht & Hot & Htemp).
  assert (Htnum : num_or_null temperature_c).
  { eapply nulled_num; [exact Htemp |].
    eapply perturbed_num; [exact Hot |]. exact I. }
  eapply post_bind;
    [eapply (injected_field _ _ VInt); apply generate_humidity_spec |].
  intros humidity (h & oh & Hh & Hoh & Hhum).
  assert (Hhnum : num_or_null humidity).
  { eapply nulled_num; [exact Hhum |].
    eapply perturbed_num; [exact Hoh |]. exact I. }
  eapply post_bind;
    [eapply (injected_field _ _ VFloat);
     apply generate_rain_spec; exact Hhnum |].
  intros rain_mm (x & ox & Hx & Hox & Hrain).
  assert (Hrnum : num_or_null rain_mm).
  { eapply nulled_num; [exact Hrain |].
    eapply perturbed_num; [exact Hox |]. exact I. }
  eapply post_bind;
    [eapply (nulled_field _ _ VStr);
     apply generate_weather_condition_spec; assumption |].
  intros weather_condition (c & Hc & Hcond).
  eapply post_bind;
    [eapply (injected_field _ _ VFloat); apply generate_wind_speed_spec |].
  intros wind (w & ow & Hw & How & Hwind).
  eapply post_bind;
    [eapply (injected_field _ _ (fun v => v));
     apply generate_visibility_spec |].
  intros visibility (v & ov & Hv & Hov & Hvis).
  eapply post_bind;
    [eapply (injected_field _ _ VFloat);
     apply generate_air_pressure_spec; exact Htnum |].
  intros pressure (p & op & Hp & Hop & Hpres).
  eapply post_bind; [apply maybe_null_spec |].
  intros weather_id Hid.
  eapply post_bind; [apply maybe_null_spec |].
  intros city Hcity.
  apply post_ret. unfold weather_row_shape.
  cbn [Weather.weather_id Weather.date_time Weather.city Weather.season
       Weather.temperature_c Weather.humidity Weather.rain_mm
       Weather.weather_condition Weather.wind_speed_kmh Weather.visibility_m
       Weather.air_pressure_hpa].
  repeat match goal with |- _ /\ _ => split end;
    first [ assumption
          | eexists; split; [eassumption | assumption]
          | eexists; split; [eassumption | split; assumption]
          | eexists _, _; split; [eassumption | split; eassumption] ].
Qed.

(** ** Sampling without replacement *)


Lemma set_nth_split {A} (l : list A) (i : nat) (a : A) :
  nth_error l i = Some a ->
  exists l1 l2, l = (l1 ++ a :: l2)%list
                /\ forall b, set_nth l i b = (l1 ++ b :: l2)%list.
Proof.
  revert i. induction l as [| x xs IH]; intros [| i] H; simpl in H;
    try discriminate.
  - inversion H; subst. exists [], xs. split; reflexivity.
  - destruct (IH i H) as (l1 & l2 & -> & Hset).
    exists (x :: l1), l2. split; [reflexivity |].
    intros b. simpl. rewrite Hset. reflexivity.
Qed.

Lemma nth_error_set_nth_other {A} (l : list A) (i j : nat) (b : A) :
  i <> j -> nth_error (set_nth l i b) j = nth_error l j.
Proof.
  revert i j. induction l as [| x xs IH]; intros [| i] [| j] H; simpl;
    try reflexivity; try congruence.
  apply IH. congruence.
Qed.

Lemma swap_Permutation {A} (l : list A) (i j : nat) :
  Permutation (swap l i j) l.
Proof.
  unfold swap.
  destruct (nth_error l i) as [a |] eqn:Ei; [| reflexivity].
  destruct (nth_error l j) as [b |] eqn:Ej; [| reflexivity].
  destruct (Nat.eq_dec i j) as [-> | Hij].
  - rewrite Ei in Ej. inversion Ej; subst b.
    destruct (set_nth_split l j a Ei) as (l1 & l2 & Hl & Hset).
    rewrite (Hset a), <- Hl.
    destruct (set_nth_split l j a Ei) as (m1 & m2 & Hm & Hset').
    rewrite (Hset' a), <- Hm. reflexivity.
  - destruct (set_nth_split l i a Ei) as (l1 & l2 & Hl & Hset).
    assert (Ej' : nth_error (set_nth l i b) j = Some b)
      by (rewrite nth_error_set_nth_other; assumption).
    destruct (set_nth_split _ j b Ej') as (m1 & m2 & Hm & Hset').
    rewrite (Hset' a).
    assert (Hmid : Permutation (l1 ++ l2) (m1 ++ m2)).
    { apply (Permutation_cons_inv (a := b)).
      rewrite (Permutation_middle l1 l2 b), (Permutation_middle m1 m2 b).
      rewrite <- Hm, (Hset b). reflexivity. }
    rewrite Hl, <- !Permutation_middle. apply perm_skip.
    symmetry; exact Hmid.
Qed.

Lemma np_shuffle_Permutation (i : nat) (x : list nat) :
  returns (np_shuffle i x) (fun p => Permutation p x).
Proof.
  revert x. induction i as [| i IH]; intros x; simpl.
  - apply post_ret. reflexivity.
  - eapply (post_bind _ _ (fun _ => True)); [intros s; exact I |].
    intros r _. eapply returns_weaken; [apply IH |].
    intros p Hp. cbv beta in Hp. rewrite Hp. apply swap_Permutation.
Qed.

Lemma NoDup_firstn {A} (n : nat) (l : list A) : NoDup l -> NoDup (firstn n l).
Proof.
  intros H. rewrite <- (firstn_skipn n l) in H.
  apply NoDup_app_remove_r in H. exact H.
Qed.

Lemma take_rows_Forall2 {A} (df : list A) (idxs : list nat) (rs : list A) :
  take_rows df idxs = Ok rs ->
  Forall2 (fun j r => nth_error df j = Some r) idxs rs.
Proof.
  revert rs. induction idxs as [| j idxs IH]; intros rs H; simpl in H.
  - inversion H. constructor.
  - destruct (nth_error df j) as [r |] eqn:Hnth; [| discriminate].
    destruct (take_rows df idxs) as [rs' |]; [| discriminate].
    inversion H; subst. constructor; auto.
Qed.

Lemma df_sample_sampled {A} (df : list A) (n : Z) :
  0 <= n <= Z.of_nat (List.length df) ->
  returns (df_sample df n)
          (fun d => List.length d = Z.to_nat n /\ sampled_from df d).
Proof.
  intros Hn. unfold df_sample.
  destruct (n <? 0) eqn:Hneg; [apply Z.ltb_lt in Hneg; lia |].
  destruct (Z.of_nat (List.length df) <? n) eqn:Hbig;
    [apply Z.ltb_lt in Hbig; lia |].
  eapply (post_bind _ _
            (fun p => List.length p = List.length df
                      /\ Forall (fun j => (j < List.length df)%nat) p
                      /\ NoDup p)).
  - intros s.
    pose proof (np_permutation_spec (List.length df) s) as H1.
    pose proof (np_shuffle_Permutation (List.length df - 1)
                  (seq 0 (List.length df)) s) as H2.
    unfold np_permutation in *.
    destruct (fst (np_shuffle _ _ s)) as [p | e]; [| contradiction].
    destruct H1 as [Hl Hf]. repeat split; auto.
    eapply Permutation_NoDup; [symmetry; exact H2 | apply seq_NoDup].
  - intros perm (Hlen & Hperm & Hnd). apply post_lift.
    destruct (take_rows_spec df (firstn (Z.to_nat n) perm))
      as (rs & Hrs & Hl & _).
    + apply Forall_forall. intros j Hj. apply firstn_incl in Hj.
      rewrite Forall_forall in Hperm. apply Hperm; exact Hj.
    + rewrite Hrs. split.
      * rewrite Hl, length_firstn. lia.
      * exists (firstn (Z.to_nat n) perm). split.
        -- apply NoDup_firstn; exact Hnd.
        -- apply take_rows_Forall2; exact Hrs.
Qed.

(** X9. [df.sample(n)] for [0 <= n <= len(df)] returns [n] rows taken from
    pairwise distinct positions of the frame: no row position is sampled
    twice. *)
Theorem sample_without_replacement {A} (df : list A) (n : Z)
    (s : rand_state) :
  0 <= n <= Z.of_nat (List.length df) ->
  exists d s',
    df_sample df n s = (Ok d, s')
    /\ Z.of_nat (List.length d) = n
    /\ exists idxs,
         NoDup idxs
         /\ Forall2 (fun j r => nth_error df j = Some r) idxs d.
Proof.
  intros Hn.
  destruct (returns_run _ _ (df_sample_sampled df n Hn) s)
    as (d & s' & Hrun & Hlen & Hs).
  exists d, s'. split; [exact Hrun |]. split; [lia | exact Hs].
Qed.

(** Two rows out of three. *)
Lemma sample_without_replacement_witness :
  exists d s',
    df_sample [10; 20; 30] 2 (state_of half_tape) = (Ok d, s')
    /\ Z.of_nat (List.length d) = 2
    /\ exists idxs,
         NoDup idxs
         /\ Forall2 (fun j r => nth_error [10; 20; 30] j = Some r) idxs d.
Proof.
  apply (sample_without_replacement [10; 20; 30] 2 (state_of half_tape)).
  simpl. lia.
Defined.

(** ** Weather: the stored rows of the generated table *)

Lemma Forall2_nth_error_r {A B} (R : A -> B -> Prop) l l' k y :
  Forall2 R l l' -> nth_error l' k = Some y ->
  exists x, nth_error l k = Some x /\ R x y.
Proof.
  intros H. revert k. induction H as [| a b l l' Hab H IH]; intros k Hk.
  - destruct k; discriminate.
  - destruct k as [| k]; simpl in *.
    + inversion Hk; subst. eauto.
    + apply IH; exact Hk.
Qed.

Lemma sampled_from_incl {A} (df d : list A) : sampled_from df d -> incl d df.
Proof.
  intros (idxs & _ & H) r Hr.
  induction H as [| j r' idxs d Hj H IH]; [contradiction |].
  destruct Hr as [<- | Hr]; [eapply nth_error_In; eauto | auto].
Qed.

Lemma weather_table_spec {seeding : Seeding} {parser : DateParser}
    (cfg : Weather.config) :
  Weather.n_rows cfg <= max_rows ->
  tail_fits (Weather.n_rows cfg) (Weather.duplicate_ratio cfg)
    (Weather.n_rows cfg) ->
  returns (Weather.generate_weather_dataset cfg)
    (fun t => exists rows dups,
         t = (rows ++ dups)%list
         /\ Z.of_nat (List.length rows) = Weather.n_rows cfg
         /\ sampled_from rows dups
         /\ forall k r, nth_error rows k = Some r ->
              weather_row_shape cfg (Z.of_nat k) r).
Proof.
  intros Hmax (n & Hn & Hfit). unfold Weather.generate_weather_dataset.
  apply seeded_returns.
  eapply post_bind.
  - apply (mapM_spec _ (weather_row_shape cfg)).
    intros i Hi. apply py_range_bounds in Hi.
    apply weather_row_spec. lia.
  - intros rows Hrows.
    assert (Hlen : List.length rows = Z.to_nat (Weather.n_rows cfg)).
    { apply Forall2_length in Hrows. rewrite py_range_length in Hrows.
      lia. }
    rewrite Hn, bind_lift_ok.
    eapply post_bind; [apply df_sample_sampled; lia |].
    intros dups [_ Hs]. apply post_ret.
    exists rows, dups. split; [reflexivity |]. split; [lia |].
    split; [exact Hs |].
    intros k r Hk.
    destruct (Forall2_nth_error_r _ _ _ _ _ Hrows Hk) as (i & Hi & Hshape).
    assert (Hk' : (k < Z.to_nat (Weather.n_rows cfg))%nat).
    { rewrite <- Hlen. apply nth_error_Some. congruence. }
    rewrite (py_range_nth _ _ Hk') in Hi. inversion Hi; subst i.
    exact Hshape.
Qed.

Lemma weather_table_rows {seeding : Seeding} {parser : DateParser}
    (cfg : Weather.config) (P : Weather.row -> Prop) :
  (forall i r, weather_row_shape cfg i r -> P r) ->
  Weather.n_rows cfg <= max_rows ->
  tail_fits (Weather.n_rows cfg) (Weather.duplicate_ratio cfg)
    (Weather.n_rows cfg) ->
  forall s, exists t s',
    Weather.generate_weather_dataset cfg s = (Ok t, s')
    /\ forall r, In r t -> P r.
Proof.
  intros HP Hmax Hdup s.
  destruct (returns_run _ _ (weather_table_spec cfg Hmax Hdup) s)
    as (t & s' & Hrun & rows & dups & -> & _ & Hs & Hshape).
  exists (rows ++ dups)%list, s'. split; [exact Hrun |].
  assert (Hrows : forall r, In r rows -> P r).
  { intros r Hr. apply In_nth_error in Hr. destruct Hr as [k Hk].
    eapply HP, Hshape, Hk. }
  intros r Hr. apply in_app_or in Hr. destruct Hr as [Hr | Hr].
  - apply Hrows; exact Hr.
  - apply Hrows. eapply sampled_from_incl; eauto.
Qed.

Lemma stored_intro (P : pyval -> Prop) (orat nr : Q) (v o x : pyval)
    (lo hi : Q) :
  perturbed orat v lo hi o -> nulled nr o x -> P v -> stored P lo hi x.
Proof.
  intros [[-> | Hout] _] [[-> | ->] _] HP; unfold stored; auto.
Qed.

Lemma shape_condition {parser : DateParser} cfg i r :
  weather_row_shape cfg i r -> condition_consistent r.
Proof.
  unfold weather_row_shape. cbv zeta.
  intros (_ & _ & _ & _ & _ & (c & Hc & [Hn _]) & _).
  unfold condition_for in Hc. destruct Hc as (Hin & Hsnow & Hstorm & Hrain & Hfog).
  unfold condition_consistent.
  destruct Hn as [Hn | Hn]; rewrite Hn.
  - split; [left; reflexivity |]. repeat split; intros H; discriminate.
  - split; [right; exists c; auto |].
    repeat split; intros H; inversion H; subst; auto.
Qed.

Lemma shape_season {parser : DateParser} cfg i r :
  weather_row_shape cfg i r -> season_consistent r.
Proof.
  unfold weather_row_shape. cbv zeta.
  intros (_ & (name & Hin & Hmonth & [Hn _]) & (t & ot & Ht & Hot & Htemp)
          & (h & oh & Hh & Hoh & Hhum) & _).
  unfold season_consistent. split; [| split; [| split]].
  - destruct Hn as [-> | ->]; [left; reflexivity | right; eauto].
  - intros t' name' Ht' Hs. rewrite (Hmonth t' Ht') in *.
    destruct Hn as [Hn | Hn]; rewrite Hn in Hs; inversion Hs; reflexivity.
  - eapply stored_intro; eauto.
  - eapply stored_intro; eauto.
Qed.

Lemma shape_rain {parser : DateParser} cfg i r :
  weather_row_shape cfg i r -> rain_consistent r.
Proof.
  unfold weather_row_shape. cbv zeta.
  intros (_ & _ & _ & _ & (x & ox & Hx & Hox & Hrain) & _).
  unfold rain_consistent. eapply stored_intro; eauto.
Qed.

Lemma shape_sensors {parser : DateParser} cfg i r :
  weather_row_shape cfg i r -> sensors_consistent r.
Proof.
  unfold weather_row_shape. cbv zeta.
  intros (_ & _ & _ & _ & _ & _ & (w & ow & Hw & How & Hwind)
          & (v & ov & Hv & Hov & Hvis) & (p & op & Hp & Hop & Hpres) & _).
  unfold sensors_consistent. split; [| split]; eapply stored_intro; eauto.
Qed.

(** X10. For at most 34958088 rows and a duplicate tail that fits: in
    every row of the table the weather generator returns (the duplicate
    tail included), the stored condition is null or one of the
    five condition names, and it agrees with the stored temperature and
    rain: Snow only beside a numeric temperature of at most 5, Storm only
    beside a rain of at least 50, Rain only beside a rain of at least 10,
    Fog only beside a null rain or a rain strictly between 0 and 10. *)
Theorem weather_rows_condition_consistent {seeding : Seeding}
    {parser : DateParser} (cfg : Weather.config) (s : rand_state) :
  Weather.n_rows cfg <= max_rows ->
  tail_fits (Weather.n_rows cfg) (Weather.duplicate_ratio cfg)
    (Weather.n_rows cfg) ->
  exists t s',
    Weather.generate_weather_dataset cfg s = (Ok t, s')
    /\ forall r, In r t -> condition_consistent r.
Proof.
  intros Hmax Hdup. apply weather_table_rows; [| exact Hmax | exact Hdup].
  intros i r. apply shape_condition.
Qed.

(** The default run. *)
Lemma weather_rows_condition_consistent_witness :
  exists t s',
    @Weather.generate_weather_dataset half_seeding iso_parser
      Weather.default_config (state_of half_tape) = (Ok t, s')
    /\ forall r, In r t -> condition_consistent r.
Proof.
  apply (@weather_rows_condition_consistent half_seeding iso_parser
           Weather.default_config (state_of half_tape)).
  - vm_compute; discriminate.
  - exists 250.
    split; [vm_compute; reflexivity | vm_compute; split; discriminate].
Defined.

(** X11. For at most 34958088 rows and a duplicate tail that fits: in
    every row of the table the weather generator returns, the
    stored season is null or one of the four season names and, when the
    stored timestamp parses, it is the season of the parsed month; the
    stored temperature is null, an outlier in -55..-30 or 60..85, or a
    float inside the range of the stored season; the stored humidity is
    null, an outlier in -35..-10 or 150..175, or an integer inside the
    range of the stored season. *)
Theorem weather_rows_season_consistent {seeding : Seeding}
    {parser : DateParser} (cfg : Weather.config) (s : rand_state) :
  Weather.n_rows cfg <= max_rows ->
  tail_fits (Weather.n_rows cfg) (Weather.duplicate_ratio cfg)
    (Weather.n_rows cfg) ->
  exists t s',
    Weather.generate_weather_dataset cfg s = (Ok t, s')
    /\ forall r, In r t -> season_consistent r.
Proof.
  intros Hmax Hdup. apply weather_table_rows; [| exact Hmax | exact Hdup].
  intros i r. apply shape_season.
Qed.

(** The default run. *)
Lemma weather_rows_season_consistent_witness :
  exists t s',
    @Weather.generate_weather_dataset half_seeding iso_parser
      Weather.default_config (state_of half_tape) = (Ok t, s')
    /\ forall r, In r t -> season_consistent (parser:=iso_parser) r.
Proof.
  apply (@weather_rows_season_consistent half_seeding iso_parser
           Weather.default_config (state_of half_tape)).
  - vm_compute; discriminate.
  - exists 250.
    split; [vm_compute; reflexivity | vm_compute; split; discriminate].
Defined.

(** X12. For at most 34958088 rows and a duplicate tail that fits: in
    every row of the table the weather generator returns, the
    stored rain is null, an outlier in 75..100 or 200..225, or a float
    within 0..80 that agrees with the stored humidity: at most 20 beside a
    null humidity, at most 15 beside a humidity below 80, and exactly 0
    beside a humidity below 60. *)
Theorem weather_rows_rain_consistent {seeding : Seeding}
    {parser : DateParser} (cfg : Weather.config) (s : rand_state) :
  Weather.n_rows cfg <= max_rows ->
  tail_fits (Weather.n_rows cfg) (Weather.duplicate_ratio cfg)
    (Weather.n_rows cfg) ->
  exists t s',
    Weather.generate_weather_dataset cfg s = (Ok t, s')
    /\ forall r, In r t -> rain_consistent r.
Proof.
  intros Hmax Hdup. apply weather_table_rows; [| exact Hmax | exact Hdup].
  intros i r. apply shape_rain.
Qed.

(** The default run. *)
Lemma weather_rows_rain_consistent_witness :
  exists t s',
    @Weather.generate_weather_dataset half_seeding iso_parser
      Weather.default_config (state_of half_tape) = (Ok t, s')
    /\ forall r, In r t -> rain_consistent r.
Proof.
  apply (@weather_rows_rain_consistent half_seeding iso_parser
           Weather.default_config (state_of half_tape)).
  - vm_compute; discriminate.
  - exists 250.
    split; [vm_compute; reflexivity | vm_compute; split; discriminate].
Defined.

(** X13. For at most 34958088 rows and a duplicate tail that fits: in
    every row of the table the weather generator returns, the
    stored wind speed is null, an outlier in 175..200 or 350..375, or a
    float within 0..150 (0..80 unless the stored condition is Storm); the
    stored visibility is null, an outlier in 49975..50000 or
    120000..120025, a textual sentinel, or an integer within 50..12000 (at
    least 8000 unless the stored condition is Fog, Rain, Storm or Snow);
    the stored pressure is null, an outlier in 875..900 or 1100..1125, or a
    float within 940..1060. *)
Theorem weather_rows_sensors_consistent {seeding : Seeding}
    {parser : DateParser} (cfg : Weather.config) (s : rand_state) :
  Weather.n_rows cfg <= max_rows ->
  tail_fits (Weather.n_rows cfg) (Weather.duplicate_ratio cfg)
    (Weather.n_rows cfg) ->
  exists t s',
    Weather.generate_weather_dataset cfg s = (Ok t, s')
    /\ forall r, In r t -> sensors_consistent r.
Proof.
  intros Hmax Hdup. apply weather_table_rows; [| exact Hmax | exact Hdup].
  intros i r. apply shape_sensors.
Qed.

(** The default run. *)
Lemma weather_rows_sensors_consistent_witness :
  exists t s',
    @Weather.generate_weather_dataset half_seeding iso_parser
      Weather.default_config (state_of half_tape) = (Ok t, s')
    /\ forall r, In r t -> sensors_consistent r.
Proof.
  apply (@weather_rows_sensors_consistent half_seeding iso_parser
           Weather.default_config (state_of half_tape)).
  - vm_compute; discriminate.
  - exists 250.
    split; [vm_compute; reflexivity | vm_compute; split; discriminate].
Defined.

(** X14. For at most 34958088 rows (beyond that the timestamp of row
    34958088 leaves the year 9999 and the generator raises) and a duplicate
    tail that fits: the table the weather generator returns is laid out as [n_rows]
    base rows followed by the duplicate tail: the base row at position [k]
    carries the identifier [5001 + k] or null, the city "London" or null,
    and a timestamp that is null, a malformed sentinel or a rendering of
    [base + 2 * k] hours; every tail row is the copy of a base row, and no
    base position is copied twice. *)
Theorem weather_table_has_layout {seeding : Seeding} {parser : DateParser}
    (cfg : Weather.config) (s : rand_state) :
  Weather.n_rows cfg <= max_rows ->
  tail_fits (Weather.n_rows cfg) (Weather.duplicate_ratio cfg)
    (Weather.n_rows cfg) ->
  exists t s',
    Weather.generate_weather_dataset cfg s = (Ok t, s')
    /\ weather_table_layout (Weather.n_rows cfg) t.
Proof.
  intros Hmax Hdup.
  destruct (returns_run _ _ (weather_table_spec cfg Hmax Hdup) s)
    as (t & s' & Hrun & rows & dups & -> & Hlen & Hs & Hshape).
  exists (rows ++ dups)%list, s'. split; [exact Hrun |].
  exists rows, dups. split; [reflexivity |]. split; [exact Hlen |].
  split; [exact Hs |].
  intros k r Hk. specialize (Hshape k r Hk).
  unfold weather_row_shape in Hshape. cbv zeta in Hshape.
  destruct Hshape as ((str & Hstr & [Hd _]) & _ & _ & _ & _ & _ & _ & _ & _
                      & [Hid _] & [Hcity _]).
  split; [exact Hid |]. split; [exact Hcity |].
  destruct Hd as [-> | ->]; [left; reflexivity | right; eauto].
Qed.

(** The default run. *)
Lemma weather_table_has_layout_witness :
  exists t s',
    @Weather.generate_weather_dataset half_seeding iso_parser
      Weather.default_config (state_of half_tape) = (Ok t, s')
    /\ weather_table_layout 5000 t.
Proof.
  apply (@weather_table_has_layout half_seeding iso_parser
           Weather.default_config (state_of half_tape)).
  - vm_compute; discriminate.
  - exists 250.
    split; [vm_compute; reflexivity | vm_compute; split; discriminate].
Defined.

(** ** A duplicate tail that does not fit *)

(** X15. For at most 34958088 rows: when [int(n_rows * duplicate_ratio)]
    is negative or exceeds the number of generated rows (a duplicate ratio
    above 1, for instance), the weather generator raises the [ValueError]
    of [df.sample] instead of returning a table; and when the float product
    is infinite it raises the [OverflowError] of [int]. *)
Theorem weather_bad_tail_raises {seeding : Seeding} {parser : DateParser}
    (cfg : Weather.config) (s : rand_state) :
  Weather.n_rows cfg <= max_rows ->
  (forall k,
      dup_count (Weather.n_rows cfg) (Weather.duplicate_ratio cfg) = Ok k ->
      k < 0 \/ Z.max 0 (Weather.n_rows cfg) < k ->
      exists msg,
        fst (Weather.generate_weather_dataset cfg s)
        = Raise (ValueError msg))
  /\ (forall e,
         dup_count (Weather.n_rows cfg) (Weather.duplicate_ratio cfg)
         = Raise e ->
         fst (Weather.generate_weather_dataset cfg s) = Raise e).
Proof.
  intros Hmax. unfold Weather.generate_weather_dataset.
  rewrite seeded_run.
  match goal with |- context [bind ?m ?f ?s0] =>
    destruct (returns_run m _ (weather_rows_returns cfg Hmax) s0)
      as (rows & s1 & Hrun & Hrows)
  end.
  rewrite (bind_run _ _ _ _ _ Hrun).
  destruct (tail_raises rows (Weather.n_rows cfg)
              (Weather.duplicate_ratio cfg) s1) as [Hval Hover].
  split.
  - intros k Hk Hbad. apply (Hval k Hk). lia.
  - exact Hover.
Qed.

(** Ten rows with a duplicate ratio of 2. *)
Lemma weather_bad_tail_raises_witness :
  exists msg,
    fst (@Weather.generate_weather_dataset half_seeding iso_parser
           {| Weather.n_rows := 10; Weather.duplicate_ratio := 2;
              Weather.null_ratio := 1 # 10; Weather.outlier_ratio := 1 # 10;
              Weather.bad_format_ratio := 1 # 100 |} (state_of half_tape))
    = Raise (ValueError msg).
Proof.
  apply (proj1
           (@weather_bad_tail_raises half_seeding iso_parser
              {| Weather.n_rows := 10; Weather.duplicate_ratio := 2;
                 Weather.null_ratio := 1 # 10;
                 Weather.outlier_ratio := 1 # 10;
                 Weather.bad_format_ratio := 1 # 100 |} (state_of half_tape)
              ltac:(vm_compute; discriminate)) 20).
  - vm_compute. reflexivity.
  - right. vm_compute. reflexivity.
Defined.

(** X16. When [int(n_rows * duplicate_ratio)] is negative or exceeds the
    length of the weather table, the traffic generator raises the
    [ValueError] of [df.sample] instead of returning a table: with the
    default configuration (5000, 0.05) that is every weather table of fewer
    than 250 rows, the empty one included.  When [n_rows] is beyond the
    floats or the float product is infinite, it raises the [OverflowError]
    of the conversion. *)
Theorem traffic_bad_tail_raises {seeding : Seeding} {parser : DateParser}
    (weather_df : list Weather.row) (cfg : Traffic.config) (s : rand_state) :
  (forall k,
      dup_count (Traffic.n_rows cfg) (Traffic.duplicate_ratio cfg) = Ok k ->
      k < 0 \/ Z.of_nat (List.length weather_df) < k ->
      exists msg,
        fst (Traffic.generate_traffic_dataset weather_df cfg s)
        = Raise (ValueError msg))
  /\ (forall e,
         dup_count (Traffic.n_rows cfg) (Traffic.duplicate_ratio cfg)
         = Raise e ->
         fst (Traffic.generate_traffic_dataset weather_df cfg s) = Raise e).
Proof.
  unfold Traffic.generate_traffic_dataset.
  rewrite seeded_run. cbv zeta.
  match goal with |- context [bind ?m ?f ?s0] =>
    destruct (returns_run m _ (traffic_rows_spec weather_df cfg) s0)
      as (rows & s1 & Hrun & Hrows & _)
  end.
  rewrite (bind_run _ _ _ _ _ Hrun).
  destruct (tail_raises rows (Traffic.n_rows cfg)
              (Traffic.duplicate_ratio cfg) s1) as [Hval Hover].
  split.
  - intros k Hk Hbad. apply (Hval k Hk). lia.
  - exact Hover.
Qed.

(** The empty weather table under the default configuration. *)
Lemma traffic_bad_tail_raises_witness :
  exists msg,
    fst (@Traffic.generate_traffic_dataset half_seeding iso_parser []
           Traffic.default_config (state_of half_tape))
    = Raise (ValueError msg).
Proof.
  apply (proj1
           (@traffic_bad_tail_raises half_seeding iso_parser []
              Traffic.default_config (state_of half_tape)) 250).
  - vm_compute. reflexivity.
  - right. vm_compute. reflexivity.
Defined.

(** ** Traffic: the field generators *)

Lemma hour_count_spec (h : Z) :
  returns
    (if ((7 <=? h) && (h <=? 9)) || ((16 <=? h) && (h <=? 19))
     then random_randint 2000 5000
     else if (0 <=? h) && (h <=? 5) then random_randint 0 500
     else random_randint 800 2500)
    (fun k =>
       0 <= k <= 5000
       /\ (rush_hour h -> 2000 <= k <= 5000)
       /\ (late_night h -> 0 <= k <= 500)
       /\ (~ rush_hour h -> ~ late_night h -> 800 <= k <= 2500)).
Proof.
  unfold rush_hour, late_night.
  destruct (((7 <=? h) && (h <=? 9)) || ((16 <=? h) && (h <=? 19))) eqn:Er;
    [| destruct ((0 <=? h) && (h <=? 5)) eqn:En].
  - eapply returns_weaken; [apply (returns_random_randint 2000 5000); lia |].
    intros k Hk. cbv beta in Hk.
    rewrite orb_true_iff, !andb_true_iff, !Z.leb_le in Er. lia.
  - eapply returns_weaken; [apply (returns_random_randint 0 500); lia |].
    intros k Hk. cbv beta in Hk.
    rewrite orb_false_iff, !andb_false_iff, !Z.leb_gt in Er.
    rewrite !andb_true_iff, !Z.leb_le in En. lia.
  - eapply returns_weaken; [apply (returns_random_randint 800 2500); lia |].
    intros k Hk. cbv beta in Hk.
    rewrite orb_false_iff, !andb_false_iff, !Z.leb_gt in Er.
    rewrite !andb_false_iff, !Z.leb_gt in En. lia.
Qed.

Lemma generate_vehicle_count_spec {parser : DateParser} (time_str : pyval) :
  returns (Traffic.generate_vehicle_count time_str)
    (fun k =>
       0 <= k <= 5000
       /\ (to_datetime time_str = None -> 100 <= k <= 3000)
       /\ (forall dt, to_datetime time_str = Some dt ->
             (rush_hour (ts_hour dt) -> 2000 <= k <= 5000)
             /\ (late_night (ts_hour dt) -> 0 <= k <= 500)
             /\ (~ rush_hour (ts_hour dt) -> ~ late_night (ts_hour dt) ->
                 800 <= k <= 2500))).
Proof.
  unfold Traffic.generate_vehicle_count.
  eapply post_try with (E' := fun _ => False); [| intros e []].
  destruct (to_datetime time_str) as [dt |] eqn:E.
  - cbv zeta.
    eapply returns_weaken; [apply (hour_count_spec (ts_hour dt)) |].
    intros k (Hk & Hr & Hn & Ho). split; [exact Hk |].
    split; [discriminate |].
    intros dt' Hdt. inversion Hdt; subst dt'. auto.
  - eapply returns_weaken; [apply (returns_random_randint 100 3000); lia |].
    intros k Hk. cbv beta in Hk. split; [lia |]. split; [lia |].
    intros dt Hdt. discriminate.
Qed.

(** X17. [generate_vehicle_count] returns a count within 0..5000: within
    100..3000 when the timestamp does not parse, and otherwise by the hour
    of the parsed timestamp: 2000..5000 in the rush hours (7-9, 16-19),
    0..500 late at night (0-5), 800..2500 at any other hour.  It never
    raises. *)
Theorem vehicle_count_by_hour {parser : DateParser} (time_str : pyval)
    (s : rand_state) :
  exists k s',
    Traffic.generate_vehicle_count time_str s = (Ok k, s')
    /\ 0 <= k <= 5000
    /\ (to_datetime time_str = None -> 100 <= k <= 3000)
    /\ (forall dt, to_datetime time_str = Some dt ->
          (rush_hour (ts_hour dt) -> 2000 <= k <= 5000)
          /\ (late_night (ts_hour dt) -> 0 <= k <= 500)
          /\ (~ rush_hour (ts_hour dt) -> ~ late_night (ts_hour dt) ->
              800 <= k <= 2500)).
Proof. apply (returns_run _ _ (generate_vehicle_count_spec time_str)). Qed.

Lemma round2_le (hi : Z) (x : Q) :
  (x <= inject_Z hi)%Q -> (round2 x <= inject_Z hi)%Q.
Proof.
  intros Hhi.
  assert (H2 : (x * 100 <= inject_Z (hi * 100))%Q).
  { rewrite inject_Z_mult. change (inject_Z 100) with 100%Q. lra. }
  apply round_half_even_le in H2.
  unfold round2, Qle; simpl. lia.
Qed.

Lemma Qmax_lower (a b : Q) : (a <= Qmax a b)%Q.
Proof.
  unfold Qmax. destruct (Qle_bool a b) eqn:E.
  - apply Qle_bool_iff; exact E.
  - apply Qle_refl.
Qed.

Lemma Qmax_upper (a b c : Q) : (a <= c)%Q -> (b <= c)%Q -> (Qmax a b <= c)%Q.
Proof. intros Ha Hb. unfold Qmax. destruct (Qle_bool a b); assumption. Qed.

Lemma speed_floor_upper (hi : Z) (x : Q) :
  3 <= hi -> (x <= inject_Z hi)%Q ->
  (Qmax 3 (round2 x) <= inject_Z hi)%Q.
Proof.
  intros H3 Hx. apply Qmax_upper.
  - change 3%Q with (inject_Z 3). rewrite <- Zle_Qle. exact H3.
  - apply round2_le; exact Hx.
Qed.

(** The speed before the weather, road and jitter terms. *)
Lemma base_speed_spec (vehicle_count : pyval) :
  returns
    (try_except
       (dense <- lift (py_gt vehicle_count 3000) ;;
        if dense then x <- random_uniform 10 30 ;; ret (round2 x)
        else
          busy <- lift (py_gt vehicle_count 1500) ;;
          if busy then x <- random_uniform 30 50 ;; ret (round2 x)
          else x <- random_uniform 50 90 ;; ret (round2 x))
       (fun _ => x <- random_uniform 60 90 ;; ret (round2 x)))
    (fun b =>
       (10 <= b)%Q /\ (b <= 90)%Q
       /\ (forall q, numeric_value vehicle_count = Some q ->
             ((3000 < q)%Q -> (b <= 30)%Q)
             /\ ((1500 < q)%Q -> (b <= 50)%Q)
             /\ ((q <= 1500)%Q -> (50 <= b)%Q))
       /\ (vehicle_count = VNone -> (60 <= b)%Q)).
Proof.
  assert (Hnum : forall q, numeric_value vehicle_count = Some q ->
    returns
      (dense <- lift (py_gt vehicle_count 3000) ;;
        if dense then x <- random_uniform 10 30 ;; ret (round2 x)
        else
          busy <- lift (py_gt vehicle_count 1500) ;;
          if busy then x <- random_uniform 30 50 ;; ret (round2 x)
          else x <- random_uniform 50 90 ;; ret (round2 x))
      (fun b =>
       (10 <= b)%Q /\ (b <= 90)%Q
       /\ (forall q, numeric_value vehicle_count = Some q ->
             ((3000 < q)%Q -> (b <= 30)%Q)
             /\ ((1500 < q)%Q -> (b <= 50)%Q)
             /\ ((q <= 1500)%Q -> (50 <= b)%Q))
       /\ (vehicle_count = VNone -> (60 <= b)%Q))).
  { intros q Hq. unfold py_gt.
    apply post_bind_lift. rewrite (py_cmp_value _ _ _ _ Hq).
    destruct (Qltb 3000 q) eqn:E1; bool_to_Q.
    - eapply returns_weaken; [apply (rounded_uniform_between 10 30); lia |].
      intros b [Hlo Hhi]. unfold inject_Z in Hlo, Hhi.
      split; [lra |]. split; [lra |]. split.
      + intros q' Hq'. rewrite Hq in Hq'. inversion Hq'; subst q'.
        repeat split; intros; lra.
      + intros ->; discriminate.
    - apply post_bind_lift. rewrite (py_cmp_value _ _ _ _ Hq).
      destruct (Qltb 1500 q) eqn:E2; bool_to_Q.
      + eapply returns_weaken; [apply (rounded_uniform_between 30 50); lia |].
        intros b [Hlo Hhi]. unfold inject_Z in Hlo, Hhi.
        split; [lra |]. split; [lra |]. split.
        * intros q' Hq'. rewrite Hq in Hq'. inversion Hq'; subst q'.
          repeat split; intros; lra.
        * intros ->; discriminate.
      + eapply returns_weaken; [apply (rounded_uniform_between 50 90); lia |].
        intros b [Hlo Hhi]. unfold inject_Z in Hlo, Hhi.
        split; [lra |]. split; [lra |]. split.
        * intros q' Hq'. rewrite Hq in Hq'. inversion Hq'; subst q'.
          repeat split; intros; lra.
        * intros ->; discriminate. }
  assert (Hfallback :
    returns (x <- random_uniform 60 90 ;; ret (round2 x))
      (fun b =>
       (10 <= b)%Q /\ (b <= 90)%Q
       /\ (forall q, None = Some q ->
             ((3000 < q)%Q -> (b <= 30)%Q)
             /\ ((1500 < q)%Q -> (b <= 50)%Q)
             /\ ((q <= 1500)%Q -> (50 <= b)%Q))
       /\ (60 <= b)%Q)).
  { eapply returns_weaken; [apply (rounded_uniform_between 60 90); lia |].
    intros b [Hlo Hhi]. unfold inject_Z in Hlo, Hhi.
    split; [lra |]. split; [lra |]. split; [discriminate | lra]. }
  destruct vehicle_count as [| z | q | | txt].
  - eapply post_try with (E' := fun _ => True).
    + apply post_bind_lift. exact I.
    + intros e _. eapply returns_weaken; [exact Hfallback |].
      intros b (H1 & H2 & H3 & H4). auto.
  - apply post_try with (E' := fun _ => False); [| intros e []].
    apply (Hnum (inject_Z z)). reflexivity.
  - apply post_try with (E' := fun _ => False); [| intros e []].
    apply (Hnum q). reflexivity.
  - apply post_try with (E' := fun _ => False); [| intros e []].
    apply post_bind_lift. cbn. apply post_bind_lift. cbn.
    eapply returns_weaken; [apply (rounded_uniform_between 50 90); lia |].
    intros b [Hlo Hhi]. unfold inject_Z in Hlo, Hhi.
    split; [lra |]. split; [lra |]. split; discriminate.
  - eapply post_try with (E' := fun _ => True).
    + apply post_bind_lift. exact I.
    + intros e _. eapply returns_weaken; [exact Hfallback |].
      intros b (H1 & H2 & H3 & H4). repeat split; try assumption;
        discriminate.
Qed.

Lemma calculate_avg_speed_spec
    (vehicle_count weather_condition road_condition : pyval) :
  returns
    (Traffic.calculate_avg_speed vehicle_count weather_condition
       road_condition)
    (fun v =>
       (3 <= v)%Q /\ (v <= 100)%Q
       /\ (forall q, numeric_value vehicle_count = Some q ->
             ((3000 < q)%Q -> (v <= 40)%Q)
             /\ ((1500 < q)%Q -> (v <= 60)%Q))
       /\ (In weather_condition [VStr "Rain"; VStr "Snow"; VStr "Storm"] ->
           (v <= 85)%Q)
       /\ (weather_condition = VStr "Fog" -> (v <= 90)%Q)
       /\ (road_condition = VStr "Damaged" -> (v <= 80)%Q)
       /\ (vehicle_count = VNone -> (15 <= v)%Q)).
Proof.
  unfold Traffic.calculate_avg_speed.
  eapply post_bind; [apply base_speed_spec |].
  intros b (Hlo & Hhi & Hnum & Hnone). cbv zeta.
  eapply post_bind; [apply (returns_random_uniform (-10) 10); lra |].
  intros j [Hj1 Hj2]. apply post_ret.
  set (b1 := if py_in_strs weather_condition ["Rain"; "Snow"; "Storm"]
             then (b - 15)%Q
             else if py_eq_str weather_condition "Fog" then (b - 10)%Q
             else b).
  set (b2 := if py_eq_str road_condition "Damaged" then (b1 - 20)%Q else b1).
  assert (Hb1 : (b - 15 <= b1)%Q /\ (b1 <= b)%Q
                /\ (In weather_condition
                       [VStr "Rain"; VStr "Snow"; VStr "Storm"] ->
                    (b1 <= b - 15)%Q)
                /\ (weather_condition = VStr "Fog" -> (b1 <= b - 10)%Q)).
  { subst b1.
    destruct (py_in_strs weather_condition ["Rain"; "Snow"; "Storm"]) eqn:Ea.
    - repeat split; intros; lra.
    - pose proof (py_in_strs_false _ _ Ea) as Hn.
      destruct (py_eq_str weather_condition "Fog") eqn:Ef.
      + split; [lra |]. split; [lra |]. split; [| intros; lra].
        intros [H | [H | [H | []]]]; symmetry in H;
          exfalso; eapply Hn; try exact H; simpl; auto.
      + apply py_eq_str_false in Ef.
        split; [lra |]. split; [lra |]. split; [| intros; contradiction].
        intros [H | [H | [H | []]]]; symmetry in H;
          exfalso; eapply Hn; try exact H; simpl; auto. }
  destruct Hb1 as (Hb1lo & Hb1hi & Hadv & Hfog).
  assert (Hb2 : (b1 - 20 <= b2)%Q /\ (b2 <= b1)%Q
                /\ (road_condition = VStr "Damaged" -> (b2 <= b1 - 20)%Q)).
  { subst b2. destruct (py_eq_str road_condition "Damaged") eqn:Ed.
    - repeat split; intros; lra.
    - apply py_eq_str_false in Ed. repeat split; try lra.
      intros; contradiction. }
  destruct Hb2 as (Hb2lo & Hb2hi & Hdam).
  clearbody b1 b2.
  split; [apply Qmax_lower |].
  split; [apply (speed_floor_upper 100); [lia | unfold inject_Z; lra] |].
  split.
  { intros q Hq. destruct (Hnum q Hq) as (H30 & H50 & _). split; intros Hd.
    - specialize (H30 Hd).
      apply (speed_floor_upper 40); [lia | unfold inject_Z; lra].
    - specialize (H50 Hd).
      apply (speed_floor_upper 60); [lia | unfold inject_Z; lra]. }
  split.
  { intros Ha. specialize (Hadv Ha).
    apply (speed_floor_upper 85); [lia | unfold inject_Z; lra]. }
  split.
  { intros Hf. specialize (Hfog Hf).
    apply (speed_floor_upper 90); [lia | unfold inject_Z; lra]. }
  split.
  { intros Hd. specialize (Hdam Hd).
    apply (speed_floor_upper 80); [lia | unfold inject_Z; lra]. }
  intros Hn. specialize (Hnone Hn).
  eapply Qle_trans; [| apply Qle_bool_iff; unfold Qmax;
                       destruct (Qle_bool 3 (round2 (b2 + j))) eqn:E;
                       [apply Qle_bool_iff, Qle_refl |]].
  - apply (proj1 (round2_between 15 100 (b2 + j) ltac:(unfold inject_Z; lra)
                    ltac:(unfold inject_Z; lra))).
  - exfalso.
    pose proof (proj1 (round2_between 15 100 (b2 + j)
                         ltac:(unfold inject_Z; lra)
                         ltac:(unfold inject_Z; lra))) as H15.
    assert (H3 : (3 <= round2 (b2 + j))%Q) by (unfold inject_Z in H15; lra).
    apply Qle_bool_iff in H3. congruence.
Qed.

(** X18. [calculate_avg_speed] always returns a speed within 3..100 km/h.
    A numeric vehicle count above 3000 caps it at 40 and one above 1500 at
    60; Rain, Snow or Storm cap it at 85, Fog at 90, a Damaged road at 80;
    and when the vehicle count is null the speed is at least 15. *)
Theorem avg_speed_bounds
    (vehicle_count weather_condition road_condition : pyval)
    (s : rand_state) :
  exists v s',
    Traffic.calculate_avg_speed vehicle_count weather_condition
      road_condition s = (Ok v, s')
    /\ (3 <= v)%Q /\ (v <= 100)%Q
    /\ (forall q, numeric_value vehicle_count = Some q ->
          ((3000 < q)%Q -> (v <= 40)%Q)
          /\ ((1500 < q)%Q -> (v <= 60)%Q))
    /\ (In weather_condition [VStr "Rain"; VStr "Snow"; VStr "Storm"] ->
        (v <= 85)%Q)
    /\ (weather_condition = VStr "Fog" -> (v <= 90)%Q)
    /\ (road_condition = VStr "Damaged" -> (v <= 80)%Q)
    /\ (vehicle_count = VNone -> (15 <= v)%Q).
Proof.
  apply (returns_run _ _
           (calculate_avg_speed_spec vehicle_count weather_condition
              road_condition)).
Qed.

Lemma adverse_weather_test (weather_condition : pyval) :
  py_in_strs weather_condition ["Rain"; "Storm"; "Snow"; "Fog"] = true
  <-> adverse_weather weather_condition.
Proof.
  unfold adverse_weather. split.
  - apply py_in_strs_true.
  - intros (name & Hin & ->).
    destruct (py_in_strs (VStr name) ["Rain"; "Storm"; "Snow"; "Fog"]) eqn:E;
      [reflexivity |].
    exfalso. eapply py_in_strs_false; eauto.
Qed.

Lemma high_test (congestion_level : pyval) :
  py_eq_str congestion_level "High" = true <-> congestion_level = VStr "High".
Proof.
  split; [apply py_eq_str_true |]. intros ->. reflexivity.
Qed.

Lemma accident_choice_spec :
  returns (random_choice [1; 1; 1; 2; 2; 3]) (fun k => 1 <= k <= 3).
Proof.
  eapply returns_weaken; [apply returns_random_choice; discriminate |].
  intros k Hk. simpl in Hk. lia.
Qed.

Lemma generate_accidents_cases (weather_condition congestion_level : pyval)
    (s : rand_state) :
  exists p,
    Traffic.generate_accidents weather_condition congestion_level s
    = (if Qltb (next_random s) p
       then random_choice [1; 1; 1; 2; 2; 3] (snd (random_random s))
       else (Ok 0, snd (random_random s)))
    /\ p = (if py_in_strs weather_condition ["Rain"; "Storm"; "Snow"; "Fog"]
            then if py_eq_str congestion_level "High"
                 then (5 # 100) + (15 # 100) + (10 # 100)
                 else (5 # 100) + (15 # 100)
            else if py_eq_str congestion_level "High"
                 then (5 # 100) + (10 # 100)
                 else 5 # 100)%Q.
Proof.
  unfold Traffic.generate_accidents. cbv zeta.
  destruct (py_in_strs weather_condition ["Rain"; "Storm"; "Snow"; "Fog"]),
    (py_eq_str congestion_level "High");
    eexists; (split; [| reflexivity]);
    unfold bind at 1; unfold random_random at 1; unfold bind at 1;
    unfold py_draw at 1; cbn [rng_next fst snd ret]; unfold next_random;
    destruct (Qltb _ _); reflexivity.
Qed.

Lemma generate_accidents_spec (weather_condition congestion_level : pyval)
    (s : rand_state) :
  exists k s',
    Traffic.generate_accidents weather_condition congestion_level s
    = (Ok k, s')
    /\ 0 <= k <= 3
    /\ ((3 # 10 <= next_random s)%Q -> k = 0)
    /\ ((next_random s < 5 # 100)%Q -> 1 <= k)
    /\ (~ adverse_weather weather_condition ->
        congestion_level <> VStr "High" ->
        (5 # 100 <= next_random s)%Q -> k = 0)
    /\ (adverse_weather weather_condition ->
        (next_random s < 2 # 10)%Q -> 1 <= k).
Proof.
  destruct (generate_accidents_cases weather_condition congestion_level s)
    as (p & Hrun & Hp).
  rewrite Hrun. set (s1 := snd (random_random s)).
  pose proof (adverse_weather_test weather_condition) as Ha.
  pose proof (high_test congestion_level) as Hh.
  destruct (Qltb (next_random s) p) eqn:Eu; bool_to_Q.
  - destruct (returns_run _ _ accident_choice_spec s1) as (k & s' & Hc & Hk).
    exists k, s'. split; [exact Hc |]. split; [lia |].
    destruct (py_in_strs weather_condition ["Rain"; "Storm"; "Snow"; "Fog"]),
      (py_eq_str congestion_level "High"); subst p;
      repeat split; intros; try lia; try lra; exfalso;
      try (match goal with H : ~ adverse_weather _ |- _ =>
             apply H, Ha; reflexivity end);
      try (match goal with H : _ <> VStr "High" |- _ =>
             apply H, Hh; reflexivity end).
  - exists 0, s1. split; [reflexivity |]. split; [lia |].
    destruct (py_in_strs weather_condition ["Rain"; "Storm"; "Snow"; "Fog"]),
      (py_eq_str congestion_level "High"); subst p;
      repeat split; intros; try lia; try lra; exfalso;
      match goal with H : adverse_weather _ |- _ =>
        apply Ha in H; discriminate end.
Qed.

(** X19. [generate_accidents] returns 0, 1, 2 or 3.  With [u] the next
    draw of [random.random()]: no accident when [u >= 0.3]; at least one
    when [u < 0.05]; in calm weather without High congestion, none when
    [u >= 0.05]; in adverse weather (Rain, Storm, Snow, Fog) at least one
    when [u < 0.2]. *)
Theorem accident_count_range (weather_condition congestion_level : pyval)
    (s : rand_state) :
  exists k s',
    Traffic.generate_accidents weather_condition congestion_level s
    = (Ok k, s')
    /\ 0 <= k <= 3
    /\ ((3 # 10 <= next_random s)%Q -> k = 0)
    /\ ((next_random s < 5 # 100)%Q -> 1 <= k)
    /\ (~ adverse_weather weather_condition ->
        congestion_level <> VStr "High" ->
        (5 # 100 <= next_random s)%Q -> k = 0)
    /\ (adverse_weather weather_condition ->
        (next_random s < 2 # 10)%Q -> 1 <= k).
Proof. apply generate_accidents_spec. Qed.

(** X20. Risk factors never remove an accident: if [generate_accidents]
    reports [k >= 1] accidents for one weather condition and congestion
    level, then from the same state of the random source it reports the
    same [k] for any inputs that are adverse whenever the first were and
    High whenever the first were. *)
Theorem accidents_monotone_in_risk
    (weather_condition congestion_level : pyval)
    (weather_condition' congestion_level' : pyval)
    (s : rand_state) (k : Z) :
  (adverse_weather weather_condition -> adverse_weather weather_condition') ->
  (congestion_level = VStr "High" -> congestion_level' = VStr "High") ->
  fst (Traffic.generate_accidents weather_condition congestion_level s)
  = Ok k ->
  1 <= k ->
  fst (Traffic.generate_accidents weather_condition' congestion_level' s)
  = Ok k.
Proof.
  intros Hadv Hhigh Hrun Hk.
  destruct (generate_accidents_cases weather_condition congestion_level s)
    as (p & Hr & Hp).
  destruct (generate_accidents_cases weather_condition' congestion_level' s)
    as (p' & Hr' & Hp').
  rewrite Hr in Hrun. rewrite Hr'.
  assert (Hle : (p <= p')%Q).
  { pose proof (adverse_weather_test weather_condition) as Ha.
    pose proof (adverse_weather_test weather_condition') as Ha'.
    pose proof (high_test congestion_level) as Hh.
    pose proof (high_test congestion_level') as Hh'.
    destruct (py_in_strs weather_condition ["Rain"; "Storm"; "Snow"; "Fog"]),
      (py_in_strs weather_condition' ["Rain"; "Storm"; "Snow"; "Fog"]),
      (py_eq_str congestion_level "High"),
      (py_eq_str congestion_level' "High"); subst p p';
      try (unfold Qle; simpl; lia); exfalso.
    all: try (assert (Hf : false = true)
                by (apply Ha', Hadv, Ha; reflexivity); discriminate).
    all: try (assert (Hf : false = true)
                by (apply Hh', Hhigh, Hh; reflexivity); discriminate). }
  destruct (Qltb (next_random s) p) eqn:Eu; bool_to_Q.
  - destruct (Qltb (next_random s) p') eqn:Eu'; bool_to_Q;
      [exact Hrun | lra].
  - simpl in Hrun. inversion Hrun. lia.
Qed.

Lemma accidents_monotone_in_risk_witness :
  fst (Traffic.generate_accidents (VStr "Clear") (VStr "Low")
         (state_of (zero_at 0%nat))) = Ok 2
  /\ fst (Traffic.generate_accidents (VStr "Storm") (VStr "High")
            (state_of (zero_at 0%nat))) = Ok 2.
Proof.
  split; [vm_compute; reflexivity |].
  apply (accidents_monotone_in_risk (VStr "Clear") (VStr "Low")
           (VStr "Storm") (VStr "High") (state_of (zero_at 0%nat)) 2).
  - intros (name & Hin & H). inversion H; subst name.
    simpl in Hin. repeat destruct Hin as [Hin | Hin]; try discriminate.
    contradiction.
  - discriminate.
  - vm_compute; reflexivity.
  - lia.
Defined.

Lemma determine_congestion_numeric (vehicle_count avg_speed : pyval)
    (q p : Q) :
  numeric_value vehicle_count = Some q ->
  numeric_value avg_speed = Some p ->
  Traffic.determine_congestion vehicle_count avg_speed
  = if Qltb 3500 q || Qltb p 15 then "High"
    else if Qltb 1500 q || Qltb p 35 then "Medium"
    else "Low".
Proof.
  intros Hq Hp.
  unfold Traffic.determine_congestion, Traffic.congestion_thresholds,
    py_gt, py_lt.
  rewrite !(py_cmp_value _ _ _ _ Hq), !(py_cmp_value _ _ _ _ Hp).
  destruct (Qltb 3500 q), (Qltb p 15), (Qltb 1500 q), (Qltb p 35);
    reflexivity.
Qed.

(** X21. On numeric inputs [determine_congestion] is monotone: more
    vehicles at no higher a speed never lower the level (Low < Medium <
    High). *)
Theorem congestion_monotone (vehicle_count avg_speed : pyval)
    (vehicle_count' avg_speed' : pyval) (q p q' p' : Q) :
  numeric_value vehicle_count = Some q ->
  numeric_value avg_speed = Some p ->
  numeric_value vehicle_count' = Some q' ->
  numeric_value avg_speed' = Some p' ->
  (q <= q')%Q -> (p' <= p)%Q ->
  congestion_rank (Traffic.determine_congestion vehicle_count avg_speed)
  <= congestion_rank
       (Traffic.determine_congestion vehicle_count' avg_speed').
Proof.
  intros Hq Hp Hq' Hp' Hle Hge.
  rewrite (determine_congestion_numeric _ _ _ _ Hq Hp),
    (determine_congestion_numeric _ _ _ _ Hq' Hp').
  destruct (Qltb 3500 q) eqn:E1, (Qltb p 15) eqn:E2,
    (Qltb 1500 q) eqn:E3, (Qltb p 35) eqn:E4,
    (Qltb 3500 q') eqn:E1', (Qltb p' 15) eqn:E2',
    (Qltb 1500 q') eqn:E3', (Qltb p' 35) eqn:E4';
    cbn [orb]; try (vm_compute; discriminate);
    exfalso; bool_to_Q; lra.
Qed.

Lemma congestion_monotone_witness :
  congestion_rank (Traffic.determine_congestion (VInt 1000) (VFloat 50))
  <= congestion_rank (Traffic.determine_congestion (VInt 2000) (VFloat 40)).
Proof.
  apply (congestion_monotone (VInt 1000) (VFloat 50) (VInt 2000) (VFloat 40)
           (inject_Z 1000) 50 (inject_Z 2000) 40);
    try reflexivity; unfold Qle; simpl; lia.
Defined.

(** ** Traffic rows *)

Lemma traffic_measurements_spec {parser : DateParser} (cfg : Traffic.config)
    (i : Z) (w : Weather.row) :
  returns (Traffic.generate_row cfg i w) (traffic_measurements w).
Proof.
  unfold Traffic.generate_row. cbv zeta.
  eapply post_bind.
  { apply (nulled_field _ (fun a => In a boroughs) VStr).
    apply returns_random_choice. discriminate. }
  intros area (a & Ha & [Harea _]).
  eapply post_bind.
  { eapply (injected_field _ _ VInt). apply generate_vehicle_count_spec. }
  intros vehicle_count (k & ok & Hk & Hok & Hvc).
  eapply post_bind;
    [eapply (nulled_field _ _ VStr); apply generate_road_condition_spec |].
  intros road_condition _.
  eapply post_bind.
  { eapply (injected_field _ _ VFloat). apply calculate_avg_speed_spec. }
  intros avg_speed (sp & osp & Hsp & Hosp & Hspeed).
  eapply post_bind; [apply maybe_null_spec |].
  intros congestion [Hcong _].
  eapply post_bind.
  { eapply (injected_field _ (fun k => 0 <= k <= 3) VInt).
    intros s0.
    destruct (generate_accidents_spec (Weather.weather_condition w)
                congestion s0) as (n & s1 & Hrun & Hn & _).
    rewrite Hrun. exact Hn. }
  intros accidents (acc & oacc & Hacc & Hoacc & Haccs).
  eapply post_bind;
    [eapply (injected_field _ _ VInt); apply get_traffic_visibility_spec |].
  intros visibility _.
  eapply post_bind; [apply maybe_null_spec |].
  intros traffic_id _.
  eapply post_bind; [apply maybe_null_spec |].
  intros city _.
  apply post_ret. unfold traffic_measurements.
  cbn [Traffic.date_time Traffic.area Traffic.vehicle_count
       Traffic.road_condition Traffic.avg_speed_kmh Traffic.congestion_level
       Traffic.accident_count].
  split; [reflexivity |].
  split; [destruct Harea as [-> | ->]; [left; reflexivity | right; eauto] |].
  split.
  { eapply stored_intro; eauto. exists k.
    destruct Hk as (H1 & H2 & H3). auto. }
  split.
  { eapply stored_intro; eauto. exists sp.
    destruct Hsp as (H1 & H2 & H3 & H4 & H5 & H6 & H7).
    repeat (split; [first [reflexivity | assumption] |]). assumption. }
  split; [exact Hcong |].
  eapply stored_intro; eauto. exists acc. auto.
Qed.

(** ** The traffic table *)

Lemma traffic_table_spec {seeding : Seeding} {parser : DateParser}
    (weather_df : list Weather.row) (cfg : Traffic.config) :
  tail_fits (Traffic.n_rows cfg) (Traffic.duplicate_ratio cfg)
    (Z.of_nat (List.length weather_df)) ->
  returns (Traffic.generate_traffic_dataset weather_df cfg)
    (fun t => exists rows dups,
         t = (rows ++ dups)%list
         /\ List.length rows = List.length weather_df
         /\ dup_count (Traffic.n_rows cfg) (Traffic.duplicate_ratio cfg)
            = Ok (Z.of_nat (List.length dups))
         /\ sampled_from rows dups
         /\ forall k r, nth_error rows k = Some r ->
              exists w, nth_error weather_df k = Some w
                        /\ traffic_measurements w r).
Proof.
  intros (n & Hn & Hfit). unfold Traffic.generate_traffic_dataset.
  apply seeded_returns. cbv zeta.
  eapply post_bind.
  - apply (mapM_spec _
             (fun i r => exists w,
                  nth_error weather_df (Z.to_nat i) = Some w
                  /\ traffic_measurements w r)).
    intros i Hi. apply py_range_In in Hi. destruct Hi as (k & -> & Hk).
    unfold Traffic.loop_body. rewrite Nat2Z.id.
    destruct (nth_error weather_df k) as [w |] eqn:Hw.
    + eapply returns_weaken; [apply traffic_measurements_spec |].
      intros r Hr. exists w. auto.
    + apply nth_error_None in Hw. lia.
  - intros rows Hrows.
    assert (Hlen : List.length rows = List.length weather_df).
    { apply Forall2_length in Hrows. rewrite py_range_length in Hrows. lia. }
    rewrite Hn, bind_lift_ok.
    eapply post_bind; [apply df_sample_sampled; lia |].
    intros dups [Hdl Hs]. apply post_ret.
    exists rows, dups. split; [reflexivity |]. split; [exact Hlen |].
    split; [rewrite Hdl, Z2Nat.id by lia; reflexivity |].
    split; [exact Hs |].
    intros k r Hk.
    destruct (Forall2_nth_error_r _ _ _ _ _ Hrows Hk) as (i & Hi & w & Hw & Hm).
    assert (Hk' : (k < Z.to_nat (Z.of_nat (List.length weather_df)))%nat).
    { rewrite Nat2Z.id, <- Hlen. apply nth_error_Some. congruence. }
    rewrite (py_range_nth _ _ Hk') in Hi. inversion Hi; subst i.
    rewrite Nat2Z.id in Hw. eauto.
Qed.

Lemma traffic_table_rows {seeding : Seeding} {parser : DateParser}
    (weather_df : list Weather.row) (cfg : Traffic.config)
    (P : Traffic.row -> Prop) :
  (forall w r, In w weather_df -> traffic_measurements w r -> P r) ->
  tail_fits (Traffic.n_rows cfg) (Traffic.duplicate_ratio cfg)
    (Z.of_nat (List.length weather_df)) ->
  forall s, exists t s',
    Traffic.generate_traffic_dataset weather_df cfg s = (Ok t, s')
    /\ forall r, In r t -> P r.
Proof.
  intros HP Hdup s.
  destruct (returns_run _ _ (traffic_table_spec weather_df cfg Hdup) s)
    as (t & s' & Hrun & rows & dups & -> & _ & _ & Hs & Hshape).
  exists (rows ++ dups)%list, s'. split; [exact Hrun |].
  assert (Hrows : forall r, In r rows -> P r).
  { intros r Hr. apply In_nth_error in Hr. destruct Hr as [k Hk].
    destruct (Hshape k r Hk) as (w & Hw & Hm).
    eapply HP; [eapply nth_error_In; exact Hw | exact Hm]. }
  intros r Hr. apply in_app_or in Hr. destruct Hr as [Hr | Hr].
  - apply Hrows; exact Hr.
  - apply Hrows. eapply sampled_from_incl; eauto.
Qed.

(** X22. Vehicle counts of the traffic table.  When the duplicate tail
    fits, the generator returns a table in which every row's vehicle count
    is null, an outlier in [19975, 20000] or [30000, 30025], or an integer
    within 0..5000 that follows the hour of the row's own timestamp
    (100..3000 when it does not parse, 2000..5000 in the rush hours, 0..500
    late at night, 800..2500 otherwise); and every row's area is null or
    one of the seven boroughs. *)
Theorem traffic_rows_vehicle_counts {seeding : Seeding} {parser : DateParser}
    (weather_df : list Weather.row) (cfg : Traffic.config) (s : rand_state) :
  tail_fits (Traffic.n_rows cfg) (Traffic.duplicate_ratio cfg)
    (Z.of_nat (List.length weather_df)) ->
  exists t s',
    Traffic.generate_traffic_dataset weather_df cfg s = (Ok t, s')
    /\ forall r, In r t ->
         stored (vehicle_count_for (Traffic.date_time r)) 20000 30000
           (Traffic.vehicle_count r)
         /\ (Traffic.area r = VNone
             \/ exists a, Traffic.area r = VStr a /\ In a boroughs).
Proof.
  intros Hdup. apply traffic_table_rows; [| exact Hdup].
  intros w r _ (Hdt & Harea & Hvc & _). rewrite Hdt. auto.
Qed.

Lemma traffic_rows_vehicle_counts_witness :
  exists t s',
    @Traffic.generate_traffic_dataset half_seeding iso_parser
      [snow_row] one_row_config (state_of half_tape) = (Ok t, s')
    /\ forall r, In r t ->
         stored (@vehicle_count_for iso_parser (Traffic.date_time r))
           20000 30000 (Traffic.vehicle_count r)
         /\ (Traffic.area r = VNone
             \/ exists a, Traffic.area r = VStr a /\ In a boroughs).
Proof.
  apply (@traffic_rows_vehicle_counts half_seeding iso_parser [snow_row]
           one_row_config (state_of half_tape)).
  exists 0. split; [vm_compute; reflexivity | vm_compute; split; discriminate].
Defined.

(** X23. Speeds and accidents of the traffic table.  When the duplicate
    tail fits, every row of the returned table was generated for some row
    [w] of the weather table with the same timestamp, and: its average
    speed is null, an outlier in [-26, -1] or [500, 525], or a speed within
    3..100 that respects the caps set by the row's stored vehicle count
    (above 3000: at most 40; above 1500: at most 60), by [w]'s weather
    condition (Rain, Snow, Storm: at most 85; Fog: at most 90) and by the
    row's stored road condition (Damaged: at most 80); its accident count
    is null, an outlier in [-5, 20] or [50, 75], or one of 0, 1, 2, 3. *)
Theorem traffic_rows_speeds {seeding : Seeding} {parser : DateParser}
    (weather_df : list Weather.row) (cfg : Traffic.config) (s : rand_state) :
  tail_fits (Traffic.n_rows cfg) (Traffic.duplicate_ratio cfg)
    (Z.of_nat (List.length weather_df)) ->
  exists t s',
    Traffic.generate_traffic_dataset weather_df cfg s = (Ok t, s')
    /\ forall r, In r t ->
         exists w, In w weather_df
           /\ Traffic.date_time r = Weather.date_time w
           /\ stored (speed_for (Traffic.vehicle_count r)
                        (Weather.weather_condition w)
                        (Traffic.road_condition r))
                (-1) 500 (Traffic.avg_speed_kmh r)
           /\ stored accidents_for 20 50 (Traffic.accident_count r).
Proof.
  intros Hdup.
  apply (traffic_table_rows weather_df cfg
           (fun r => exists w, In w weather_df
              /\ Traffic.date_time r = Weather.date_time w
              /\ stored (speed_for (Traffic.vehicle_count r)
                           (Weather.weather_condition w)
                           (Traffic.road_condition r))
                   (-1) 500 (Traffic.avg_speed_kmh r)
              /\ stored accidents_for 20 50 (Traffic.accident_count r)));
    [| exact Hdup].
  intros w r Hw (Hdt & _ & _ & Hsp & _ & Hacc). exists w. auto.
Qed.

Lemma traffic_rows_speeds_witness :
  exists t s',
    @Traffic.generate_traffic_dataset half_seeding iso_parser
      [snow_row] one_row_config (state_of half_tape) = (Ok t, s')
    /\ forall r, In r t ->
         exists w, In w [snow_row]
           /\ Traffic.date_time r = Weather.date_time w
           /\ stored (speed_for (Traffic.vehicle_count r)
                        (Weather.weather_condition w)
                        (Traffic.road_condition r))
                (-1) 500 (Traffic.avg_speed_kmh r)
           /\ stored accidents_for 20 50 (Traffic.accident_count r).
Proof.
  apply (@traffic_rows_speeds half_seeding iso_parser [snow_row]
           one_row_config (state_of half_tape)).
  exists 0. split; [vm_compute; reflexivity | vm_compute; split; discriminate].
Defined.

Lemma congestion_of_stored (vehicle_count avg_speed level : pyval) :
  level = VNone
  \/ level = VStr (Traffic.determine_congestion vehicle_count avg_speed) ->
  (vehicle_count = VNone -> level = VNone \/ level = VStr "Low")
  /\ (forall q, numeric_value vehicle_count = Some q -> (3500 < q)%Q ->
        level = VNone \/ level = VStr "High")
  /\ (forall q p, numeric_value vehicle_count = Some q ->
        numeric_value avg_speed = Some p -> (p < 15)%Q ->
        level = VNone \/ level = VStr "High")
  /\ (forall q p, numeric_value vehicle_count = Some q ->
        numeric_value avg_speed = Some p -> (q <= 1500)%Q -> (35 <= p)%Q ->
        level = VNone \/ level = VStr "Low").
Proof.
  intros [-> | ->]; [repeat split; intros; left; reflexivity |].
  split; [| split; [| split]].
  - intros ->. right. reflexivity.
  - intros q Hq Hd. right. f_equal.
    unfold Traffic.determine_congestion, Traffic.congestion_thresholds, py_gt.
    rewrite !(py_cmp_value _ _ _ _ Hq).
    apply Qltb_true in Hd. rewrite Hd. reflexivity.
  - intros q p Hq Hp Hd. right. f_equal.
    rewrite (determine_congestion_numeric _ _ _ _ Hq Hp).
    apply Qltb_true in Hd. rewrite Hd, orb_true_r. reflexivity.
  - intros q p Hq Hp Hd Hs. right. f_equal.
    rewrite (determine_congestion_numeric _ _ _ _ Hq Hp).
    assert (H1 : Qltb 3500 q = false) by (apply Qltb_false; lra).
    assert (H2 : Qltb p 15 = false) by (apply Qltb_false; lra).
    assert (H3 : Qltb 1500 q = false) by (apply Qltb_false; lra).
    assert (H4 : Qltb p 35 = false) by (apply Qltb_false; lra).
    rewrite H1, H2, H3, H4. reflexivity.
Qed.

(** X24. Congestion levels of the traffic table follow the stored fields.
    When the duplicate tail fits, in every row of the returned table the
    congestion level is null or the level [determine_congestion] gives for
    the row's own stored vehicle count and stored speed (after outliers and
    nulls were injected into them).  So a row with a null vehicle count is
    never Medium or High; a row whose stored count exceeds 3500, such as
    an injected outlier, is High or null; so is a row with a numeric count
    and a stored speed below 15, such as a low outlier. *)
Theorem traffic_rows_congestion {seeding : Seeding} {parser : DateParser}
    (weather_df : list Weather.row) (cfg : Traffic.config) (s : rand_state) :
  tail_fits (Traffic.n_rows cfg) (Traffic.duplicate_ratio cfg)
    (Z.of_nat (List.length weather_df)) ->
  exists t s',
    Traffic.generate_traffic_dataset weather_df cfg s = (Ok t, s')
    /\ forall r, In r t ->
         let level := Traffic.congestion_level r in
         (level = VNone
          \/ level = VStr (Traffic.determine_congestion
                             (Traffic.vehicle_count r)
                             (Traffic.avg_speed_kmh r)))
         /\ (Traffic.vehicle_count r = VNone ->
             level = VNone \/ level = VStr "Low")
         /\ (forall q, numeric_value (Traffic.vehicle_count r) = Some q ->
               (3500 < q)%Q -> level = VNone \/ level = VStr "High")
         /\ (forall q p, numeric_value (Traffic.vehicle_count r) = Some q ->
               numeric_value (Traffic.avg_speed_kmh r) = Some p ->
               (p < 15)%Q -> level = VNone \/ level = VStr "High")
         /\ (forall q p, numeric_value (Traffic.vehicle_count r) = Some q ->
               numeric_value (Traffic.avg_speed_kmh r) = Some p ->
               (q <= 1500)%Q -> (35 <= p)%Q ->
               level = VNone \/ level = VStr "Low").
Proof.
  intros Hdup. apply traffic_table_rows; [| exact Hdup].
  intros w r _ (_ & _ & _ & _ & Hc & _). cbv zeta.
  split; [exact Hc |]. apply congestion_of_stored; exact Hc.
Qed.

Lemma traffic_rows_congestion_witness :
  exists t s',
    @Traffic.generate_traffic_dataset half_seeding iso_parser
      [snow_row] one_row_config (state_of half_tape) = (Ok t, s')
    /\ forall r, In r t ->
         let level := Traffic.congestion_level r in
         (level = VNone
          \/ level = VStr (Traffic.determine_congestion
                             (Traffic.vehicle_count r)
                             (Traffic.avg_speed_kmh r)))
         /\ (Traffic.vehicle_count r = VNone ->
             level = VNone \/ level = VStr "Low")
         /\ (forall q, numeric_value (Traffic.vehicle_count r) = Some q ->
               (3500 < q)%Q -> level = VNone \/ level = VStr "High")
         /\ (forall q p, numeric_value (Traffic.vehicle_count r) = Some q ->
               numeric_value (Traffic.avg_speed_kmh r) = Some p ->
               (p < 15)%Q -> level = VNone \/ level = VStr "High")
         /\ (forall q p, numeric_value (Traffic.vehicle_count r) = Some q ->
               numeric_value (Traffic.avg_speed_kmh r) = Some p ->
               (q <= 1500)%Q -> (35 <= p)%Q ->
               level = VNone \/ level = VStr "Low").
Proof.
  apply (@traffic_rows_congestion half_seeding iso_parser [snow_row]
           one_row_config (state_of half_tape)).
  exists 0. split; [vm_compute; reflexivity | vm_compute; split; discriminate].
Defined.

(** X25. Layout of the traffic table.  When the duplicate tail fits, the
    returned table is the generated rows, one per weather row and in the
    weather table's order, each with the timestamp of its weather row,
    followed by [int(n_rows * duplicate_ratio)] rows (the truncated float
    product) drawn from them at pairwise distinct positions (sampling
    without replacement). *)
Theorem traffic_table_has_layout {seeding : Seeding} {parser : DateParser}
    (weather_df : list Weather.row) (cfg : Traffic.config) (s : rand_state) :
  tail_fits (Traffic.n_rows cfg) (Traffic.duplicate_ratio cfg)
    (Z.of_nat (List.length weather_df)) ->
  exists rows dups s',
    Traffic.generate_traffic_dataset weather_df cfg s
    = (Ok (rows ++ dups)%list, s')
    /\ List.length rows = List.length weather_df
    /\ dup_count (Traffic.n_rows cfg) (Traffic.duplicate_ratio cfg)
       = Ok (Z.of_nat (List.length dups))
    /\ sampled_from rows dups
    /\ forall k r, nth_error rows k = Some r ->
         exists w, nth_error weather_df k = Some w
                   /\ Traffic.date_time r = Weather.date_time w.
Proof.
  intros Hdup.
  destruct (returns_run _ _ (traffic_table_spec weather_df cfg Hdup) s)
    as (t & s' & Hrun & rows & dups & -> & Hlen & Hdl & Hs & Hshape).
  exists rows, dups, s'. split; [exact Hrun |]. split; [exact Hlen |].
  split; [exact Hdl |]. split; [exact Hs |].
  intros k r Hk. destruct (Hshape k r Hk) as (w & Hw & Hdt & _). eauto.
Qed.

(** Four weather rows two hours apart and a tail of two duplicates. *)
Lemma traffic_table_has_layout_witness :
  exists rows dups s',
    @Traffic.generate_traffic_dataset half_seeding iso_parser
      four_weather_rows four_row_config (state_of half_tape)
    = (Ok (rows ++ dups)%list, s')
    /\ List.length rows = List.length four_weather_rows
    /\ dup_count (Traffic.n_rows four_row_config)
         (Traffic.duplicate_ratio four_row_config)
       = Ok (Z.of_nat (List.length dups))
    /\ sampled_from rows dups
    /\ forall k r, nth_error rows k = Some r ->
         exists w, nth_error four_weather_rows k = Some w
                   /\ Traffic.date_time r = Weather.date_time w.
Proof.
  apply (@traffic_table_has_layout half_seeding iso_parser four_weather_rows
           four_row_config (state_of half_tape)).
  exists 2. split; [vm_compute; reflexivity | vm_compute; split; discriminate].
Defined.

(** ** The merger *)

Ltac merge_run H :=
  unfold Merge.merge_data, bind, try_except, Merge.print,
    Merge.read_parquet, Merge.to_parquet, lift, ret, raise in H;
  simpl in H.

Lemma merge_data_cases {sp : SeriesParser} (T W : Type)
    (st : Merge.world T W) (res : exc unit) (st' : Merge.world T W) :
  Merge.merge_data st = (res, st') ->
  res = Ok tt
  /\ Merge.silver_weather st' = Merge.silver_weather st
  /\ Merge.silver_traffic st' = Merge.silver_traffic st
  /\ exists mid final,
       Merge.stdout st'
       = (Merge.stdout st ++ phase_line :: mid ++ [final])%list
       /\ ~ In success_line mid
       /\ ((final = success_line
            /\ exists weather_df traffic_df row rows,
                 Merge.silver_weather st = Some weather_df
                 /\ Merge.silver_traffic st = Some traffic_df
                 /\ Merge.merge_frames weather_df traffic_df
                    = Ok (row :: rows)
                 /\ Merge.gold_merged st' = Some (row :: rows))
           \/ (exists e, final = Merge.ErrorDuringMerge e
                         /\ Merge.gold_merged st' = Merge.gold_merged st)).
Proof.
  intros Hrun.
  destruct (Merge.silver_weather st) as [weather_df |] eqn:Hw.
  2: { merge_run Hrun. rewrite Hw in Hrun. simpl in Hrun.
       inversion Hrun; subst; clear Hrun. simpl.
       split; [reflexivity |]. split; [auto |]. split; [reflexivity |].
       exists [Merge.Text "Reading weather data..."], 
         (Merge.ErrorDuringMerge
            (FileNotFoundError "s3://silver/weather_cleaned.parquet")).
       split; [rewrite <- !app_assoc; reflexivity |].
       split; [intros [H | []]; discriminate |].
       right. eexists. split; reflexivity. }
  destruct (Merge.silver_traffic st) as [traffic_df |] eqn:Ht.
  2: { merge_run Hrun. rewrite Hw in Hrun. simpl in Hrun.
       rewrite Ht in Hrun. simpl in Hrun.
       inversion Hrun; subst; clear Hrun. simpl.
       split; [reflexivity |]. split; [auto |]. split; [auto |].
       exists [Merge.Text "Reading weather data...";
               Merge.Text "Reading traffic data..."], 
         (Merge.ErrorDuringMerge
            (FileNotFoundError "s3://silver/traffic_cleaned.parquet")).
       split; [rewrite <- !app_assoc; reflexivity |].
       split; [intros [H | [H | []]]; discriminate |].
       right. eexists. split; reflexivity. }
  unfold Merge.merge_frames.
  destruct (Merge.convert_date_time weather_df) as [wdf | e] eqn:Ew.
  2: { merge_run Hrun. rewrite Hw in Hrun. simpl in Hrun.
       rewrite Ht in Hrun. simpl in Hrun. rewrite Ew in Hrun. simpl in Hrun.
       inversion Hrun; subst; clear Hrun. simpl.
       split; [reflexivity |]. split; [auto |]. split; [auto |].
       exists [Merge.Text "Reading weather data...";
               Merge.Text "Reading traffic data..."], 
         (Merge.ErrorDuringMerge e).
       split; [rewrite <- !app_assoc; reflexivity |].
       split; [intros [H | [H | []]]; discriminate |].
       right. eexists. split; reflexivity. }
  destruct (Merge.convert_date_time traffic_df) as [tdf | e] eqn:Et.
  2: { merge_run Hrun. rewrite Hw in Hrun. simpl in Hrun.
       rewrite Ht in Hrun. simpl in Hrun. rewrite Ew in Hrun. simpl in Hrun.
       rewrite Et in Hrun. simpl in Hrun.
       inversion Hrun; subst; clear Hrun. simpl.
       split; [reflexivity |]. split; [auto |]. split; [auto |].
       exists [Merge.Text "Reading weather data...";
               Merge.Text "Reading traffic data..."], 
         (Merge.ErrorDuringMerge e).
       split; [rewrite <- !app_assoc; reflexivity |].
       split; [intros [H | [H | []]]; discriminate |].
       right. eexists. split; reflexivity. }
  merge_run Hrun. rewrite Hw in Hrun. simpl in Hrun.
  rewrite Ht in Hrun. simpl in Hrun. rewrite Ew in Hrun. simpl in Hrun.
  rewrite Et in Hrun. simpl in Hrun.
  destruct (Merge.pd_merge_inner tdf wdf) as [| row rows] eqn:Em;
    simpl in Hrun; inversion Hrun; subst; clear Hrun; simpl.
  - split; [reflexivity |]. split; [auto |]. split; [auto |].
    exists [Merge.Text "Reading weather data...";
            Merge.Text "Reading traffic data...";
            Merge.Text "Merging datasets...";
            Merge.MergedDataShape 0], 
      (Merge.ErrorDuringMerge Merge.zero_rows_error).
    split; [rewrite <- !app_assoc; reflexivity |].
    split; [intros [H | [H | [H | [H | []]]]]; discriminate |].
    right. eexists. split; reflexivity.
  - split; [reflexivity |]. split; [auto |]. split; [auto |].
    exists [Merge.Text "Reading weather data...";
            Merge.Text "Reading traffic data...";
            Merge.Text "Merging datasets...";
            Merge.MergedDataShape (Datatypes.S (List.length rows));
            Merge.SavingTo Merge.output_path], success_line.
    split; [rewrite <- !app_assoc; reflexivity |].
    split; [intros [H | [H | [H | [H | [H | []]]]]]; discriminate |].
    left. split; [reflexivity |].
    exists weather_df, traffic_df, row, rows.
    rewrite Ew, Et, Em. auto.
Qed.

(** X26. Outcomes of [merge_data], for every state of the store.  It
    never raises and never changes the two silver tables.  It prints the
    phase line first and ends with exactly one of two lines: the success
    line, in which case both silver tables were present, their join has at
    least one row and that join is what the gold table now holds; or an
    error line, in which case the gold table is what it was before.  The
    success line is printed nowhere else, and an empty table is never
    written. *)
Theorem merge_data_outcomes {sp : SeriesParser} (T W : Type)
    (st : Merge.world T W) :
  exists st' mid final,
    Merge.merge_data st = (Ok tt, st')
    /\ Merge.silver_weather st' = Merge.silver_weather st
    /\ Merge.silver_traffic st' = Merge.silver_traffic st
    /\ Merge.stdout st'
       = (Merge.stdout st ++ phase_line :: mid ++ [final])%list
    /\ ~ In success_line mid
    /\ ((final = success_line
         /\ exists weather_df traffic_df row rows,
              Merge.silver_weather st = Some weather_df
              /\ Merge.silver_traffic st = Some traffic_df
              /\ Merge.merge_frames weather_df traffic_df = Ok (row :: rows)
              /\ Merge.gold_merged st' = Some (row :: rows))
        \/ (exists e, final = Merge.ErrorDuringMerge e
                      /\ Merge.gold_merged st' = Merge.gold_merged st)).
Proof.
  destruct (Merge.merge_data st) as [res st'] eqn:Hrun.
  destruct (merge_data_cases T W st res st' Hrun)
    as (-> & Hsw & Hstr & mid & final & Hout & Hmid & Hcases).
  exists st', mid, final. auto 7.
Qed.

(** X27. Failures before the join.  If the weather table is missing from
    the silver store, [merge_data] prints the [FileNotFoundError] for its
    path right after "Reading weather data..." and does not go on to the
    traffic table; if only the traffic table is missing, it reports that
    path after "Reading traffic data..."; if a timestamp column does not
    convert, it reports the parser's exception (the weather column's when
    both fail) before "Merging datasets..." is printed.  In all these cases
    the gold table is left as it was. *)
Theorem early_failures_reported {sp : SeriesParser} (T W : Type)
    (st : Merge.world T W) :
  exists st',
    Merge.merge_data st = (Ok tt, st')
    /\ (Merge.silver_weather st = None ->
        Merge.gold_merged st' = Merge.gold_merged st
        /\ Merge.stdout st'
           = (Merge.stdout st
              ++ [phase_line; Merge.Text "Reading weather data...";
                  Merge.ErrorDuringMerge
                    (FileNotFoundError
                       "s3://silver/weather_cleaned.parquet")])%list)
    /\ (Merge.silver_weather st <> None ->
        Merge.silver_traffic st = None ->
        Merge.gold_merged st' = Merge.gold_merged st
        /\ Merge.stdout st'
           = (Merge.stdout st
              ++ [phase_line; Merge.Text "Reading weather data...";
                  Merge.Text "Reading traffic data...";
                  Merge.ErrorDuringMerge
                    (FileNotFoundError
                       "s3://silver/traffic_cleaned.parquet")])%list)
    /\ (forall weather_df traffic_df e,
          Merge.silver_weather st = Some weather_df ->
          Merge.silver_traffic st = Some traffic_df ->
          Merge.merge_frames weather_df traffic_df = Raise e ->
          Merge.gold_merged st' = Merge.gold_merged st
          /\ Merge.stdout st'
             = (Merge.stdout st
                ++ [phase_line; Merge.Text "Reading weather data...";
                    Merge.Text "Reading traffic data...";
                    Merge.ErrorDuringMerge e])%list
          /\ (forall e',
                Merge.convert_date_time weather_df = Raise e' -> e = e')).
Proof.
  destruct (Merge.merge_data st) as [res st'] eqn:Hrun.
  destruct (merge_data_cases T W st res st' Hrun) as (-> & _).
  exists st'. split; [reflexivity |].
  split; [| split].
  - intros Hw. merge_run Hrun. rewrite Hw in Hrun. simpl in Hrun.
    inversion Hrun; subst; clear Hrun. simpl.
    split; [reflexivity |]. rewrite <- !app_assoc. reflexivity.
  - intros Hw Ht.
    destruct (Merge.silver_weather st) as [weather_df |] eqn:Ew;
      [| contradiction].
    merge_run Hrun. rewrite Ew in Hrun. simpl in Hrun.
    rewrite Ht in Hrun. simpl in Hrun.
    inversion Hrun; subst; clear Hrun. simpl.
    split; [reflexivity |]. rewrite <- !app_assoc. reflexivity.
  - intros weather_df traffic_df e Hw Ht Hm.
    unfold Merge.merge_frames in Hm.
    merge_run Hrun. rewrite Hw in Hrun. simpl in Hrun.
    rewrite Ht in Hrun. simpl in Hrun.
    destruct (Merge.convert_date_time weather_df) as [wdf | e1] eqn:Ew.
    + destruct (Merge.convert_date_time traffic_df) as [tdf | e2] eqn:Et;
        [discriminate |].
      inversion Hm; subst e2. simpl in Hrun.
      inversion Hrun; subst; clear Hrun. simpl.
      split; [reflexivity |].
      split; [rewrite <- !app_assoc; reflexivity |].
      intros e' He'. discriminate.
    + inversion Hm; subst e1. simpl in Hrun.
      inversion Hrun; subst; clear Hrun. simpl.
      split; [reflexivity |].
      split; [rewrite <- !app_assoc; reflexivity |].
      intros e' He'. congruence.
Qed.

(** ** The inner join *)

Section JoinRows.
Variables T W : Type.
Implicit Types (traffic_df : list (Merge.frame_row (option Timestamp) T))
               (weather_df : list (Merge.frame_row (option Timestamp) W)).

Lemma inner_join_pairs traffic_df weather_df (m : Merge.merged_row T W) :
  In m (Merge.pd_merge_inner traffic_df weather_df)
  <-> exists t w,
        In t traffic_df /\ In w weather_df
        /\ Merge.key_of w = Merge.key_of t
        /\ m = Merge.join_rows t w.
Proof.
  unfold Merge.pd_merge_inner. rewrite in_flat_map. split.
  - intros (t & Ht & Hm). apply in_map_iff in Hm.
    destruct Hm as (w & <- & Hw). apply filter_In in Hw.
    destruct Hw as [Hw Hk]. apply key_eqb_eq in Hk.
    exists t, w. auto.
  - intros (t & w & Ht & Hw & Hk & ->).
    exists t. split; [exact Ht |]. apply in_map.
    apply filter_In. split; [exact Hw |]. apply key_eqb_eq; exact Hk.
Qed.

Lemma merged_key_join t w :
  merged_key (Merge.join_rows (T:=T) (W:=W) t w) = Merge.key_of t.
Proof. reflexivity. Qed.

Lemma count_merged_app k (l1 l2 : list (Merge.merged_row T W)) :
  count_merged k (l1 ++ l2) = (count_merged k l1 + count_merged k l2)%nat.
Proof. unfold count_merged. rewrite filter_app, length_app. reflexivity. Qed.

Lemma count_merged_joins k (t : Merge.frame_row (option Timestamp) T)
    (ws : list (Merge.frame_row (option Timestamp) W)) :
  count_merged k (map (Merge.join_rows t) ws)
  = if Merge.key_eqb (Merge.key_of t) k then List.length ws else 0%nat.
Proof.
  unfold count_merged. induction ws as [| w ws IH]; simpl.
  - destruct (Merge.key_eqb (Merge.key_of t) k); reflexivity.
  - rewrite merged_key_join.
    destruct (Merge.key_eqb (Merge.key_of t) k) eqn:E; simpl; rewrite IH;
      reflexivity.
Qed.

Lemma filter_key_ext k (t : Merge.frame_row (option Timestamp) T)
    weather_df :
  Merge.key_of t = k ->
  filter (fun w => Merge.key_eqb (Merge.key_of w) (Merge.key_of t)) weather_df
  = filter (fun w => Merge.key_eqb (Merge.key_of w) k) weather_df.
Proof. intros ->. reflexivity. Qed.

Lemma count_key_cons {P} k (r : Merge.frame_row (option Timestamp) P) df :
  count_key k (r :: df)
  = if Merge.key_eqb (Merge.key_of r) k then Datatypes.S (count_key k df)
    else count_key k df.
Proof.
  unfold count_key. simpl.
  destruct (Merge.key_eqb (Merge.key_of r) k); reflexivity.
Qed.

(** X29. Duplicate keys multiply in the join: for every key, the number of
    merged rows carrying it is the number of traffic rows carrying it times
    the number of weather rows carrying it. *)
Theorem join_key_multiplicity traffic_df weather_df (k : Merge.merge_key) :
  count_merged k (Merge.pd_merge_inner traffic_df weather_df)
  = (count_key k traffic_df * count_key k weather_df)%nat.
Proof.
  induction traffic_df as [| t ts IH]; [reflexivity |].
  change (Merge.pd_merge_inner (t :: ts) weather_df)
    with (map (Merge.join_rows t)
            (filter (fun w => Merge.key_eqb (Merge.key_of w) (Merge.key_of t))
               weather_df)
          ++ Merge.pd_merge_inner ts weather_df)%list.
  rewrite count_merged_app, count_merged_joins, IH, count_key_cons.
  destruct (Merge.key_eqb (Merge.key_of t) k) eqn:E; [| lia].
  apply key_eqb_eq in E. rewrite (filter_key_ext k t weather_df E).
  fold (count_key k weather_df). lia.
Qed.

End JoinRows.

Lemma convert_date_time_rows {sp : SeriesParser} {P : Type}
    (df : list (Merge.frame_row pyval P))
    (df' : list (Merge.frame_row (option Timestamp) P)) :
  Merge.convert_date_time df = Ok df' ->
  List.length df' = List.length df
  /\ forall r', In r' df' ->
       exists r, In r df
         /\ Merge.city r' = Merge.city r
         /\ Merge.visibility_m r' = Merge.visibility_m r
         /\ Merge.rest r' = Merge.rest r.
Proof.
  unfold Merge.convert_date_time.
  destruct (to_datetime_series (map Merge.date_time df)) as [col | e];
    [| discriminate].
  destruct (Nat.eqb (List.length col) (List.length df)) eqn:El;
    [| discriminate].
  apply Nat.eqb_eq in El. intros H. inversion H; subst df'; clear H.
  split.
  - rewrite length_map, length_combine. lia.
  - intros r' Hr'. apply in_map_iff in Hr'.
    destruct Hr' as ([r d] & <- & Hin). apply in_combine_l in Hin.
    exists r. simpl. auto.
Qed.

(** X30. The columns of a merged row come from the right tables.  When
    both timestamp columns convert, every row of the join carries the
    [visibility_m] and the other columns of one stored traffic row as
    [visibility_traffic] and the traffic columns, and those of one stored
    weather row as [visibility_weather] and the weather columns; the two
    rows have the same city, which is the merged row's city. *)
Theorem merged_rows_from_sources {sp : SeriesParser} (T W : Type)
    (weather_df : list (Merge.frame_row pyval W))
    (traffic_df : list (Merge.frame_row pyval T))
    (rows : list (Merge.merged_row T W)) :
  Merge.merge_frames weather_df traffic_df = Ok rows ->
  forall m, In m rows ->
    exists t w,
      In t traffic_df /\ In w weather_df
      /\ Merge.city t = Merge.city w
      /\ Merge.m_city m = Merge.city t
      /\ Merge.visibility_traffic m = Merge.visibility_m t
      /\ Merge.traffic_rest m = Merge.rest t
      /\ Merge.visibility_weather m = Merge.visibility_m w
      /\ Merge.weather_rest m = Merge.rest w.
Proof.
  unfold Merge.merge_frames. intros H m Hm.
  destruct (Merge.convert_date_time weather_df) as [wdf | e] eqn:Ew;
    [| discriminate].
  destruct (Merge.convert_date_time traffic_df) as [tdf | e] eqn:Et;
    [| discriminate].
  inversion H; subst rows; clear H.
  apply (inner_join_pairs T W) in Hm. destruct Hm as (t' & w' & Ht' & Hw' & Hk & ->).
  destruct (convert_date_time_rows _ _ Ew) as [_ Hws].
  destruct (convert_date_time_rows _ _ Et) as [_ Hts].
  destruct (Hts t' Ht') as (t & Ht & Htc & Htv & Htr).
  destruct (Hws w' Hw') as (w & Hw & Hwc & Hwv & Hwr).
  exists t, w. simpl.
  assert (Hc : Merge.city w' = Merge.city t').
  { unfold Merge.key_of in Hk. inversion Hk. reflexivity. }
  repeat split; try assumption; congruence.
Qed.

Lemma merged_rows_from_sources_witness :
  exists rows,
    Merge.merge_frames (sp:=iso_series_parser)
      [silver "2024-01-01 00:00" 5001] [silver "2024-01-01 00:00" 9001]
    = Ok rows
    /\ forall m, In m rows ->
         exists t w,
           In t [silver "2024-01-01 00:00" 9001]
           /\ In w [silver "2024-01-01 00:00" 5001]
           /\ Merge.city t = Merge.city w
           /\ Merge.m_city m = Merge.city t
           /\ Merge.visibility_traffic m = Merge.visibility_m t
           /\ Merge.traffic_rest m = Merge.rest t
           /\ Merge.visibility_weather m = Merge.visibility_m w
           /\ Merge.weather_rest m = Merge.rest w.
Proof.
  eexists. split; [vm_compute; reflexivity |].
  apply (@merged_rows_from_sources iso_series_parser Z Z
           [silver "2024-01-01 00:00" 5001] [silver "2024-01-01 00:00" 9001]).
  vm_compute. reflexivity.
Defined.
